(** * U-Net segmentation model ([unet.py]): a shallow embedding

    The development follows the layout of [unet.py]:

    - Python/torch run-time failures are values of [result];
    - parameters live in a store addressed by location, so that two module
      attributes naming the same layer share its parameters;
    - constructors ([__init__]) run in a state-and-error monad over the store;
    - forward passes run over an abstract tensor backend, threading the
      random-number generator that dropout consumes;
    - the backend is instantiated with tensor shapes to settle the shape
      properties, and with rational-valued tensors for the ensemble mean. *)

From Stdlib Require Import ZArith QArith Qcanon Lia.
From stdpp Require Import base list strings numbers.

Close Scope Q_scope.
Close Scope Qc_scope.
Open Scope string_scope.
Open Scope nat_scope.
Open Scope list_scope.
Set Warnings "-register-all".

(** ** Failures *)

Inductive error :=
| RuntimeError        (* torch shape / size mismatch *)
| UnboundLocalError
| IndexError
| KeyError
| AttributeError
| TypeError
| ValueError.

Inductive result (A : Type) :=
| Ok (a : A)
| Err (e : error).
Arguments Ok {A} a.
Arguments Err {A} e.

Definition is_ok {A} (r : result A) : bool :=
  match r with Ok _ => true | Err _ => false end.

Definition rbind {A B} (r : result A) (k : A -> result B) : result B :=
  match r with Ok a => k a | Err e => Err e end.

(** ** Python sequences *)

(** [l[i]] with Python's negative indices. *)
Definition py_index {A} (l : list A) (i : Z) : result A :=
  let n := Z.of_nat (length l) in
  let j := if (i <? 0)%Z then (i + n)%Z else i in
  if ((0 <=? j) && (j <? n))%Z
  then match l !! Z.to_nat j with Some a => Ok a | None => Err IndexError end
  else Err IndexError.

(** [l[:-1]]. *)
Definition py_init {A} (l : list A) : list A := take (length l - 1) l.

(** Modelled from the spec: the conditional selector [utils.operate], which is
    not part of the sources: [operate c a b] is [a] when [c] holds, else [b];
    both branches are already evaluated by the caller. *)
Definition operate {A} (condition : bool) (a b : A) : A :=
  if condition then a else b.

(** ** Parameters and the store *)

Inductive fan_mode := fan_in | fan_out.
Inductive nonlinearity := relu | leaky_relu | linear.

(** What was last written into a parameter tensor.  Random initialisers are
    recorded by the distribution they draw from. *)
Inductive pvalue :=
| default_init                                   (* the layer's own reset_parameters *)
| loaded (payload : Z)                           (* set by an external constructor *)
| kaiming_normal (mode : fan_mode) (nl : nonlinearity)
| constant (c : Z).

Record param := { data : pvalue; requires_grad : bool }.

(** Locations index the store; both are abbreviations, so that the list
    lemmas apply as they are. *)
Abbreviation loc := nat (only parsing).
Abbreviation store := (list param) (only parsing).

(** ** torch layers *)

Inductive leaf :=
| Conv2d (in_channels out_channels kernel_size stride padding : nat)
         (weight : loc) (bias : option loc)
| ConvTranspose2d (in_channels out_channels kernel_size stride : nat)
                  (weight : loc) (bias : option loc)
| BatchNorm2d (num_features : nat) (weight bias : option loc)
| InstanceNorm2d (num_features : nat) (weight bias : option loc)
| GroupNorm (num_groups num_channels : nat) (weight bias : option loc)
| ReLU
| MaxPool2d (kernel_size stride : nat)
| Dropout (p : Qc)
| External (tag : nat) (params : list loc).  (* a layer of the backbone provider *)

(** The normalisation constructors a caller can pass as [norm]:
    [nn.BatchNorm2d], [nn.InstanceNorm2d] (optionally with [affine] bound)
    and [nn.GroupNorm] with its group count bound. *)
Inductive norm_ctor :=
| nn_BatchNorm2d
| nn_InstanceNorm2d (affine : bool)
| nn_GroupNorm (num_groups : nat).

(** ** The construction monad: state over the store, with failure *)

Definition M (A : Type) : Type := store -> result (A * store).

Definition retM {A} (a : A) : M A := fun st => Ok (a, st).
Definition bindM {A B} (m : M A) (k : A -> M B) : M B :=
  fun st => match m st with Ok (a, st') => k a st' | Err e => Err e end.
Definition raiseM {A} (e : error) : M A := fun _ => Err e.
Definition liftM {A} (r : result A) : M A :=
  fun st => match r with Ok a => Ok (a, st) | Err e => Err e end.

Declare Scope M_scope.
Delimit Scope M_scope with M.
Notation "x <- m ;; k" := (bindM m (fun x => k))
  (at level 100, m at next level, right associativity) : M_scope.

(** [nn.Parameter(...)]: a fresh trainable tensor. *)
Definition new_param (v : pvalue) : M loc :=
  fun st => Ok (length st, st ++ [{| data := v; requires_grad := true |}]).

Definition new_param_if (b : bool) (v : pvalue) : M (option loc) :=
  if b then (l <- new_param v ;; retM (Some l))%M else retM None.

Definition new_Conv2d (cin cout k stride padding : nat) (bias : bool) : M leaf :=
  (w <- new_param default_init ;;
   b <- new_param_if bias default_init ;;
   retM (Conv2d cin cout k stride padding w b))%M.

Definition new_ConvTranspose2d (cin cout k stride : nat) (bias : bool) : M leaf :=
  (w <- new_param default_init ;;
   b <- new_param_if bias default_init ;;
   retM (ConvTranspose2d cin cout k stride w b))%M.

(** Normalisation layers start with scale 1 and shift 0 when affine. *)
Definition new_norm (n : norm_ctor) (c : nat) : M leaf :=
  match n with
  | nn_BatchNorm2d =>
      (w <- new_param (constant 1) ;; b <- new_param (constant 0) ;;
       retM (BatchNorm2d c (Some w) (Some b)))%M
  | nn_InstanceNorm2d affine =>
      (w <- new_param_if affine (constant 1) ;;
       b <- new_param_if affine (constant 0) ;;
       retM (InstanceNorm2d c w b))%M
  | nn_GroupNorm g =>
      if (0 <? g) && (c mod g =? 0) then
        (w <- new_param (constant 1) ;; b <- new_param (constant 0) ;;
         retM (GroupNorm g c (Some w) (Some b)))%M
      else raiseM ValueError
  end.

Fixpoint mapM {A B} (f : A -> M B) (l : list A) : M (list B) :=
  match l with
  | [] => retM []
  | a :: l' => (b <- f a ;; bs <- mapM f l' ;; retM (b :: bs))%M
  end.

(** Writes to an existing parameter: [set_data] is what the in-place
    initialisers of [nn.init] do, [set_requires_grad] is the attribute
    assignment [param.requires_grad = b]. *)
Definition set_data (l : loc) (v : pvalue) : M unit :=
  fun st => Ok (tt, alter (fun p => {| data := v; requires_grad := requires_grad p |}) l st).

Definition set_requires_grad (l : loc) (b : bool) : M unit :=
  fun st => Ok (tt, alter (fun p => {| data := data p; requires_grad := b |}) l st).

Fixpoint forM_ {A} (l : list A) (f : A -> M unit) : M unit :=
  match l with
  | [] => retM tt
  | a :: l' => (_ <- f a ;; forM_ l' f)%M
  end.

(** ** The classes of [unet.py] *)

(** [norm_layer]: the supplied constructor, or [nn.BatchNorm2d]. *)
Definition norm_layer (norm : option norm_ctor) : norm_ctor :=
  operate (bool_decide (norm = None)) nn_BatchNorm2d (default nn_BatchNorm2d norm).

Record DoubleConv2d := { dc_layer : list leaf }.

Definition DoubleConv2d_init (in_channels out_channels kernel_size : nat)
    (bias : bool) (norm : option norm_ctor) : M DoubleConv2d :=
  (c1 <- new_Conv2d in_channels out_channels kernel_size 1 1 bias ;;
   n1 <- new_norm (norm_layer norm) out_channels ;;
   c2 <- new_Conv2d out_channels out_channels kernel_size 1 1 bias ;;
   n2 <- new_norm (norm_layer norm) out_channels ;;
   retM {| dc_layer := [c1; n1; ReLU; c2; n2; ReLU] |})%M.

Record EncoderBlock := { eb_conv : DoubleConv2d; eb_pool : leaf; eb_drop : leaf }.

Definition EncoderBlock_init (in_channels out_channels kernel_size : nat)
    (bias : bool) (norm : option norm_ctor) (dropout : Qc) : M EncoderBlock :=
  (conv <- DoubleConv2d_init in_channels out_channels kernel_size bias norm ;;
   retM {| eb_conv := conv; eb_pool := MaxPool2d 2 2; eb_drop := Dropout dropout |})%M.

Record DecoderBlock := { db_trans : leaf; db_conv : DoubleConv2d; db_drop : leaf }.

Definition DecoderBlock_init (in_channels out_channels kernel_size : nat)
    (bias : bool) (norm : option norm_ctor) (dropout : Qc)
    (up_in_channels up_out_channels : option nat) : M DecoderBlock :=
  let up_in_channels := default in_channels up_in_channels in
  let up_out_channels := default out_channels up_out_channels in
  (trans <- new_ConvTranspose2d up_in_channels up_out_channels 2 2 bias ;;
   conv <- DoubleConv2d_init in_channels out_channels kernel_size bias norm ;;
   retM {| db_trans := trans; db_conv := conv; db_drop := Dropout dropout |})%M.

(** *** The backbone provider

    [resnet.py] is not part of the sources.  A backbone is what its
    constructor returns: named children in registration order, each an
    opaque layer (identified by a tag the tensor backend interprets) with the
    parameters the constructor set. *)
Record ext_child := { ec_name : string; ec_tag : nat; ec_params : list param }.

Definition resnet_ctor := nat -> bool -> list ext_child.

Record resnet_provider := {
  resnet18 : resnet_ctor; resnet34 : resnet_ctor; resnet50 : resnet_ctor;
  resnet101 : resnet_ctor; resnet152 : resnet_ctor }.

Definition alloc_param (p : param) : M loc :=
  fun st => Ok (length st, st ++ [p]).

(** Calling a backbone constructor allocates its parameters. *)
Definition instantiate (cs : list ext_child) : M (list (string * leaf)) :=
  mapM (fun c => (ls <- mapM alloc_param (ec_params c) ;;
                  retM (ec_name c, External (ec_tag c) ls))%M) cs.

Definition getattr (cs : list (string * leaf)) (name : string) : result leaf :=
  match list_find (fun c => String.eqb (fst c) name = true) cs with
  | Some (_, c) => Ok (snd c)
  | None => Err AttributeError
  end.

Definition leaf_parameters (l : leaf) : list loc :=
  match l with
  | Conv2d _ _ _ _ _ w b | ConvTranspose2d _ _ _ _ w b => w :: option_list b
  | BatchNorm2d _ w b | InstanceNorm2d _ w b | GroupNorm _ _ w b =>
      option_list w ++ option_list b
  | External _ ps => ps
  | _ => []
  end.

(** [parameters()] of a backbone: each parameter object once. *)
Definition backbone_parameters (cs : list (string * leaf)) : list loc :=
  remove_dups (flat_map (fun c => leaf_parameters (snd c)) cs).

Inductive EncoderBlocks :=
| EncoderPlain (filters : list nat) (encoder : list EncoderBlock)
| EncoderBackbone (filters : list nat) (backbone : string)
                  (encoder : list (string * leaf)) (inputs : list leaf) (pool : leaf).

Definition enc_filters (e : EncoderBlocks) : list nat :=
  match e with EncoderPlain f _ => f | EncoderBackbone f _ _ _ _ => f end.

Record DecoderBlocks := {
  dec_backbone : option string; dec_pool : leaf; dec_decoder : list DecoderBlock }.

Record UNet := {
  num_classes : nat;
  unet_encoder : EncoderBlocks;
  unet_filters : list nat;
  unet_center : DoubleConv2d;
  unet_decoder : DecoderBlocks;
  unet_out : list leaf }.

(** The module tree that [modules()] walks: a layer, or a container with its
    registered children in order. *)
Inductive module :=
| Leaf (l : leaf)
| Container (children : list module).

Fixpoint modules (m : module) : list module :=
  m :: match m with
       | Leaf _ => []
       | Container cs => flat_map modules cs
       end.

Definition Sequential_module (ls : list leaf) : module := Container (map Leaf ls).

Definition DoubleConv2d_module (d : DoubleConv2d) : module :=
  Container [Sequential_module (dc_layer d)].

Definition EncoderBlock_module (b : EncoderBlock) : module :=
  Container [DoubleConv2d_module (eb_conv b); Leaf (eb_pool b); Leaf (eb_drop b)].

Definition DecoderBlock_module (b : DecoderBlock) : module :=
  Container [Leaf (db_trans b); DoubleConv2d_module (db_conv b); Leaf (db_drop b)].

Definition EncoderBlocks_module (e : EncoderBlocks) : module :=
  match e with
  | EncoderPlain _ encoder => Container [Container (map EncoderBlock_module encoder)]
  | EncoderBackbone _ _ encoder inputs pool =>
      Container [Container (map (fun c => Leaf (snd c)) encoder);
                 Sequential_module inputs; Leaf pool]
  end.

Definition DecoderBlocks_module (d : DecoderBlocks) : module :=
  Container [Leaf (dec_pool d); Container (map DecoderBlock_module (dec_decoder d))].

Definition UNet_module (u : UNet) : module :=
  Container [EncoderBlocks_module (unet_encoder u);
             DoubleConv2d_module (unet_center u);
             DecoderBlocks_module (unet_decoder u);
             Sequential_module (unet_out u)].

Definition isinstance_Conv2d (m : module) : option (loc * option loc) :=
  match m with Leaf (Conv2d _ _ _ _ _ w b) => Some (w, b) | _ => None end.

Definition isinstance_norm (m : module) : option (option loc * option loc) :=
  match m with
  | Leaf (BatchNorm2d _ w b) | Leaf (InstanceNorm2d _ w b) | Leaf (GroupNorm _ _ w b) =>
      Some (w, b)
  | _ => None
  end.

(** [nn.init.constant_(t, v)]; [t] is [None] for a non-affine normalisation. *)
Definition init_constant_ (t : option loc) (v : Z) : M unit :=
  match t with
  | Some l => set_data l (constant v)
  | None => raiseM AttributeError
  end.

(** The body of the inner loop of [UNet.__init__], lines 224-230. *)
Definition init_module (m : module) : M unit :=
  (_ <- match isinstance_Conv2d m with
        | Some (w, b) =>
            (_ <- set_data w (kaiming_normal fan_out relu) ;;
             match b with
             | Some b => set_data b (constant 0)
             | None => retM tt
             end)
        | None => retM tt
        end ;;
   match isinstance_norm m with
   | Some (w, b) => (_ <- init_constant_ w 1 ;; init_constant_ b 0)
   | None => retM tt
   end)%M.

Definition init_pass (init_target : list module) : M unit :=
  forM_ init_target (fun module => forM_ (modules module) init_module).

Section Construction.

Variable provider : resnet_provider.

Definition backbones (name : string) : result (resnet_ctor * list nat) :=
  if String.eqb name "resnet18" then Ok (resnet18 provider, [64; 128; 256; 512; 1024])
  else if String.eqb name "resnet34" then Ok (resnet34 provider, [64; 128; 256; 512; 1024])
  else if String.eqb name "resnet50" then Ok (resnet50 provider, [64; 256; 512; 1024; 2048])
  else if String.eqb name "resnet101" then Ok (resnet101 provider, [64; 256; 512; 1024; 2048])
  else if String.eqb name "resnet152" then Ok (resnet152 provider, [64; 256; 512; 1024; 2048])
  else Err KeyError.

Fixpoint encoder_loop (in_channels : nat) (fs : list nat) (kernel_size : nat)
    (bias : bool) (norm : option norm_ctor) (dropout : Qc) : M (list EncoderBlock) :=
  match fs with
  | [] => retM []
  | out_channels :: fs' =>
      (b <- EncoderBlock_init in_channels out_channels kernel_size bias norm dropout ;;
       bs <- encoder_loop out_channels fs' kernel_size bias norm dropout ;;
       retM (b :: bs))%M
  end.

Definition EncoderBlocks_init (channels : nat) (filters : list nat)
    (backbone : option string) (pretrained freeze_grad : bool) (kernel_size : nat)
    (bias : bool) (norm : option norm_ctor) (dropout : Qc) : M EncoderBlocks :=
  match backbone with
  | None =>
      (encoder <- encoder_loop channels (py_init filters) kernel_size bias norm dropout ;;
       retM (EncoderPlain filters encoder))%M
  | Some name =>
      (mf <- liftM (backbones name) ;;
       encoder <- instantiate (fst mf channels pretrained) ;;
       _ <- (if freeze_grad
             then forM_ (backbone_parameters encoder) (fun p => set_requires_grad p false)
             else retM tt) ;;
       conv1 <- liftM (getattr encoder "conv1") ;;
       bn1 <- liftM (getattr encoder "bn1") ;;
       relu <- liftM (getattr encoder "relu") ;;
       pool <- liftM (getattr encoder "pool") ;;
       retM (EncoderBackbone (snd mf) name encoder [conv1; bn1; relu] pool))%M
  end.

Definition DecoderBlocks_init (filters : list nat) (backbone : option string)
    (kernel_size : nat) (bias : bool) (norm : option norm_ctor) (dropout : Qc)
    : M DecoderBlocks :=
  (decoder <- mapM (fun i : nat =>
       (a <- liftM (py_index filters (-1 - Z.of_nat i)) ;;
        b <- liftM (py_index filters (-2 - Z.of_nat i)) ;;
        DecoderBlock_init a b kernel_size bias norm dropout None None))
     (seq 0 (length filters - 1)) ;;
   extra <- match backbone with
            | Some _ =>
                (f1 <- liftM (py_index filters 1) ;;
                 f0 <- liftM (py_index filters 0) ;;
                 b <- DecoderBlock_init f1 f0 kernel_size bias norm dropout (Some f0) (Some f0) ;;
                 retM [b])
            | None => retM []
            end ;;
   retM {| dec_backbone := backbone; dec_pool := MaxPool2d 2 2;
           dec_decoder := decoder ++ extra |})%M.

Definition UNet_filters : list nat := [64; 128; 256; 512; 1024].

(** [UNet.__init__] up to the weight initialisation (lines 206-217). *)
Definition UNet_build (channels num_classes : nat) (backbone : option string)
    (pretrained freeze_grad : bool) (kernel_size : nat) (bias : bool)
    (norm : option norm_ctor) (dropout : Qc) : M UNet :=
  (encoder <- EncoderBlocks_init channels UNet_filters backbone pretrained freeze_grad
                                 kernel_size bias norm dropout ;;
   let filters := enc_filters encoder in
   fm2 <- liftM (py_index filters (-2)) ;;
   fm1 <- liftM (py_index filters (-1)) ;;
   center <- DoubleConv2d_init fm2 fm1 kernel_size bias norm ;;
   decoder <- DecoderBlocks_init filters backbone kernel_size bias norm dropout ;;
   f0 <- liftM (py_index filters 0) ;;
   up <- new_ConvTranspose2d f0 f0 2 2 true ;;
   head <- new_Conv2d f0 num_classes 1 1 0 true ;;
   retM {| num_classes := num_classes; unet_encoder := encoder; unet_filters := filters;
           unet_center := center; unet_decoder := decoder; unet_out := [up; head] |})%M.

(** The modules the initialisation pass walks (line 220). *)
Definition init_target (backbone : option string) (u : UNet) : list module :=
  operate (bool_decide (backbone = None))
          (modules (UNet_module u))
          [DoubleConv2d_module (unet_center u);
           DecoderBlocks_module (unet_decoder u);
           Sequential_module (unet_out u)].

Definition UNet_init (channels num_classes : nat) (backbone : option string)
    (pretrained freeze_grad : bool) (kernel_size : nat) (bias : bool)
    (norm : option norm_ctor) (dropout : Qc) (init_weights : bool) : M UNet :=
  (u <- UNet_build channels num_classes backbone pretrained freeze_grad
                   kernel_size bias norm dropout ;;
   _ <- (if init_weights then init_pass (init_target backbone u) else retM tt) ;;
   retM u)%M.

End Construction.

(** ** Forward passes

    The tensor library is a parameter.  [layer st training l] is the forward
    function of the deterministic torch layer [l] (it reads the layer's
    parameters from the store, and the mode flag); [cat] is
    [torch.cat([a, b], dim=1)]; the remaining operations are what dropout is
    made of. *)
Class Backend (T : Type) := {
  rng : Type;
  layer : store -> bool -> leaf -> T -> result T;
  cat : T -> T -> result T;
  bernoulli : Qc -> T -> rng -> T * rng;
  mul : T -> T -> T;
  div_scalar : T -> Qc -> T;
  zeros_like : T -> T;
  numel : T -> nat }.

(** The forward monad: the generator state is threaded, failures abort. *)
Definition F (G A : Type) : Type := G -> result (A * G).

Definition retF {G A} (a : A) : F G A := fun g => Ok (a, g).
Definition bindF {G A B} (m : F G A) (k : A -> F G B) : F G B :=
  fun g => match m g with Ok (a, g') => k a g' | Err e => Err e end.
Definition liftF {G A} (r : result A) : F G A :=
  fun g => match r with Ok a => Ok (a, g) | Err e => Err e end.

(** The value a forward pass returns, the generator state dropped. *)
Definition run {G A} (m : F G A) (g : G) : result A :=
  match m g with Ok (a, _) => Ok a | Err e => Err e end.

Declare Scope F_scope.
Delimit Scope F_scope with F.
Notation "x <- m ;; k" := (bindF m (fun x => k))
  (at level 100, m at next level, right associativity) : F_scope.

Definition backbone_layers : list string := ["layer1"; "layer2"; "layer3"; "layer4"].

Definition name_in (name : string) (names : list string) : bool :=
  existsb (String.eqb name) names.

Section Forward.

Context {T : Type} {B : Backend T}.
Variable st : store.
Variable training : bool.

Local Open Scope F_scope.

(** [F.dropout(x, p, training)]: the input itself when [p] is 0, outside
    training or on an empty tensor; all zeros when [p] is 1; otherwise the
    input times a Bernoulli(1-p) mask scaled by 1/(1-p). *)
Definition dropout (p : Qc) (x : T) : F rng T :=
  if bool_decide (p = 0%Qc) || negb training || (numel x =? 0) then retF x
  else if bool_decide (p = 1%Qc) then retF (mul x (zeros_like x))
  else fun g => let (noise, g') := bernoulli (1 - p)%Qc x g in
                Ok (mul x (div_scalar noise (1 - p)%Qc), g').

Definition apply (l : leaf) (x : T) : F rng T :=
  match l with
  | Dropout p => dropout p x
  | _ => liftF (layer st training l x)
  end.

Fixpoint Sequential_forward (ls : list leaf) (x : T) : F rng T :=
  match ls with
  | [] => retF x
  | l :: ls' => y <- apply l x ;; Sequential_forward ls' y
  end.

Definition DoubleConv2d_forward (d : DoubleConv2d) (x : T) : F rng T :=
  Sequential_forward (dc_layer d) x.

Definition EncoderBlock_forward (b : EncoderBlock) (x : T) : F rng (T * T) :=
  x <- DoubleConv2d_forward (eb_conv b) x ;;
  p <- apply (eb_pool b) x ;;
  p <- apply (eb_drop b) p ;;
  retF (x, p).

Definition DecoderBlock_forward (b : DecoderBlock) (x1 x2 : T) : F rng T :=
  x <- apply (db_trans b) x1 ;;
  c <- liftF (cat x2 x) ;;
  x <- DoubleConv2d_forward (db_conv b) c ;;
  x <- apply (db_drop b) x ;;
  retF x.

(** The loop of lines 141-144; [e_out] is [None] while the name is unbound. *)
Fixpoint plain_loop (encoder : list EncoderBlock) (p : T) (x_out : list T)
    (e_out : option T) : F rng (list T * option T) :=
  match encoder with
  | [] => retF (x_out, e_out)
  | enc :: rest =>
      xp <- EncoderBlock_forward enc p ;;
      plain_loop rest (snd xp) (x_out ++ [fst xp]) (Some (snd xp))
  end.

(** The loop of lines 149-153 over [named_children()]. *)
Fixpoint backbone_loop (children : list (string * leaf)) (p : T) (x_out : list T)
    (e_out : option T) : F rng (list T * option T) :=
  match children with
  | [] => retF (x_out, e_out)
  | (name, module) :: rest =>
      if name_in name backbone_layers then
        p <- apply module p ;;
        backbone_loop rest p (x_out ++ [p]) (Some p)
      else backbone_loop rest p x_out e_out
  end.

(** [return x_out, e_out]: reading an unbound local raises. *)
Definition return_pair (r : list T * option T) : F rng (list T * T) :=
  match snd r with
  | Some e_out => retF (fst r, e_out)
  | None => liftF (Err UnboundLocalError)
  end.

Definition EncoderBlocks_forward (e : EncoderBlocks) (x : T) : F rng (list T * T) :=
  match e with
  | EncoderPlain _ encoder =>
      r <- plain_loop encoder x [] None ;;
      return_pair r
  | EncoderBackbone _ _ encoder inputs pool =>
      x <- Sequential_forward inputs x ;;
      p <- apply pool x ;;
      r <- backbone_loop encoder p [x] None ;;
      return_pair r
  end.

(** The loop of lines 181-186; [i] is the index [enumerate] supplies. *)
Fixpoint decoder_loop (backbone : option string) (pool : leaf)
    (decoder : list DecoderBlock) (i : nat) (x_out : list T) (d : T) : F rng T :=
  match decoder with
  | [] => retF d
  | dec :: rest =>
      x <- liftF (py_index x_out (-1 - Z.of_nat i)) ;;
      x <- (if bool_decide (backbone = None) then apply pool x else retF x) ;;
      d <- DecoderBlock_forward dec d x ;;
      decoder_loop backbone pool rest (S i) x_out d
  end.

Definition DecoderBlocks_forward (dk : DecoderBlocks) (x_out : list T) (c : T) : F rng T :=
  d <- apply (dec_pool dk) c ;;
  decoder_loop (dec_backbone dk) (dec_pool dk) (dec_decoder dk) 0 x_out d.

Definition UNet_forward (u : UNet) (x : T) : F rng T :=
  r <- EncoderBlocks_forward (unet_encoder u) x ;;
  c <- DoubleConv2d_forward (unet_center u) (snd r) ;;
  d <- DecoderBlocks_forward (unet_decoder u) (fst r) c ;;
  Sequential_forward (unet_out u) d.

End Forward.

(** ** The backend of tensor shapes

    A rank-4 tensor is abstracted to its size [(N, C, H, W)]; each layer
    follows the size rule and the checks torch documents for it. *)
Inductive shape := Shape (n c h w : nat).

Definition conv_out (h k s p : nat) : nat := (h + 2 * p - k) / s + 1.

Definition shape_layer (ext : nat -> shape -> result shape)
    (st : store) (training : bool) (l : leaf) (x : shape) : result shape :=
  let 'Shape n c h w := x in
  match l with
  | Conv2d cin cout k s p _ _ =>
      if (c =? cin) && (0 <? k) && (0 <? s) && (k <=? h + 2 * p) && (k <=? w + 2 * p)
      then Ok (Shape n cout (conv_out h k s p) (conv_out w k s p))
      else Err RuntimeError
  | ConvTranspose2d cin cout k s _ _ =>
      if (c =? cin) && (0 <? h) && (0 <? w)
      then Ok (Shape n cout ((h - 1) * s + k) ((w - 1) * s + k))
      else Err RuntimeError
  | BatchNorm2d f _ _ =>
      if negb (c =? f) then Err RuntimeError
      else if training && (n * h * w =? 1) then Err ValueError
      else Ok x
  | InstanceNorm2d f wt _ =>
      if negb (c =? f) && bool_decide (wt <> None) then Err ValueError
      else if h * w =? 1 then Err ValueError
      else Ok x
  | GroupNorm g f _ _ =>
      if negb (c =? f) then Err RuntimeError
      else if (n * c / g) * h * w =? 1 then Err ValueError
      else Ok x
  | ReLU => Ok x
  | MaxPool2d k s =>
      if (0 <? k) && (0 <? s) && (k <=? h) && (k <=? w)
      then Ok (Shape n c ((h - k) / s + 1) ((w - k) / s + 1))
      else Err RuntimeError
  | Dropout _ => Ok x
  | External tag _ => ext tag x
  end.

Definition shape_cat (a b : shape) : result shape :=
  let 'Shape n1 c1 h1 w1 := a in
  let 'Shape n2 c2 h2 w2 := b in
  if (n1 =? n2) && (h1 =? h2) && (w1 =? w2)
  then Ok (Shape n1 (c1 + c2) h1 w1)
  else Err RuntimeError.

Definition shape_numel (x : shape) : nat :=
  let 'Shape n c h w := x in n * c * h * w.

Definition shape_backend (ext : nat -> shape -> result shape) : Backend shape := {|
  rng := unit;
  layer := shape_layer ext;
  cat := shape_cat;
  bernoulli := fun _ x g => (x, g);
  mul := fun x _ => x;
  div_scalar := fun x _ => x;
  zeros_like := fun x => x;
  numel := shape_numel |}.

(** No backbone layer is ever met in plain mode. *)
Definition no_ext : nat -> shape -> result shape := fun _ _ => Err RuntimeError.

Definition empty_provider : resnet_provider :=
  {| resnet18 := fun _ _ => []; resnet34 := fun _ _ => []; resnet50 := fun _ _ => [];
     resnet101 := fun _ _ => []; resnet152 := fun _ _ => [] |}.

(** Construct a U-Net on an empty store and run it on a shape. *)
Definition unet_shape (provider : resnet_provider) (ext : nat -> shape -> result shape)
    (channels num_classes : nat) (backbone : option string) (kernel_size : nat)
    (bias : bool) (norm : option norm_ctor) (dropout : Qc) (training : bool)
    (x : shape) : result shape :=
  match UNet_init provider channels num_classes backbone false false kernel_size bias
                  norm dropout true [] with
  | Ok (u, st) => run (UNet_forward (B := shape_backend ext) st training u x) tt
  | Err e => Err e
  end.

(** The children of a backbone that the loop of lines 149-153 applies. *)
Definition layer_children (children : list (string * leaf)) : list (string * leaf) :=
  List.filter (fun c => name_in (fst c) backbone_layers) children.

(** ** A backend whose layers never fail

    Tensors carry no information; every layer returns.  It isolates the
    failures that come from the control flow of [unet.py] itself. *)
Definition unit_backend : Backend unit := {|
  rng := unit;
  layer := fun _ _ _ _ => Ok tt;
  cat := fun _ _ => Ok tt;
  bernoulli := fun _ _ g => (tt, g);
  mul := fun _ _ => tt;
  div_scalar := fun _ _ => tt;
  zeros_like := fun _ => tt;
  numel := fun _ => 1 |}.

(** ** A stand-in backbone

    [resnet.py] being absent, concrete runs in backbone mode use this
    stand-in: the children a ResNet registers, in order, as opaque layers
    tagged 0..9.  [toy_ext channels ws] gives them sizes: the stem convolution
    (tag 0) maps [channels] to [ws[0]] channels and halves the resolution, the
    stem's normalisation and activation keep the size, the pooling halves the
    resolution, layer1 keeps it and layer2..layer4 halve it again; layer [i]
    outputs [ws[i]] channels. *)
Definition toy_children (channels : nat) (pretrained : bool) : list ext_child :=
  let p := {| data := if pretrained then loaded 1 else default_init;
              requires_grad := true |} in
  [ {| ec_name := "conv1"; ec_tag := 0; ec_params := [p] |};
    {| ec_name := "bn1"; ec_tag := 1; ec_params := [p; p] |};
    {| ec_name := "relu"; ec_tag := 2; ec_params := [] |};
    {| ec_name := "pool"; ec_tag := 3; ec_params := [] |};
    {| ec_name := "layer1"; ec_tag := 4; ec_params := [p; p; p] |};
    {| ec_name := "layer2"; ec_tag := 5; ec_params := [p; p; p] |};
    {| ec_name := "layer3"; ec_tag := 6; ec_params := [p; p; p] |};
    {| ec_name := "layer4"; ec_tag := 7; ec_params := [p; p; p] |};
    {| ec_name := "avgpool"; ec_tag := 8; ec_params := [] |};
    {| ec_name := "fc"; ec_tag := 9; ec_params := [p; p] |} ].

Definition toy_provider : resnet_provider :=
  {| resnet18 := toy_children; resnet34 := toy_children; resnet50 := toy_children;
     resnet101 := toy_children; resnet152 := toy_children |}.

Definition toy_stage (cin cout stride : nat) (x : shape) : result shape :=
  let 'Shape n c h w := x in
  if (c =? cin) && (stride <=? h) && (stride <=? w)
  then Ok (Shape n cout (h / stride) (w / stride))
  else Err RuntimeError.

Definition toy_ext (channels : nat) (ws : list nat) (tag : nat) (x : shape)
    : result shape :=
  let wd i := nth i ws 0 in
  match tag with
  | 0 => toy_stage channels (wd 0) 2 x
  | 1 | 2 => toy_stage (wd 0) (wd 0) 1 x
  | 3 => toy_stage (wd 0) (wd 0) 2 x
  | 4 => toy_stage (wd 0) (wd 1) 1 x
  | 5 => toy_stage (wd 1) (wd 2) 2 x
  | 6 => toy_stage (wd 2) (wd 3) 2 x
  | 7 => toy_stage (wd 3) (wd 4) 2 x
  | _ => Err RuntimeError
  end.

(** A backbone without any stage, only a stem. *)
Definition stem_only_children (channels : nat) (pretrained : bool) : list ext_child :=
  take 4 (toy_children channels pretrained).

Definition stem_only_provider : resnet_provider :=
  {| resnet18 := stem_only_children; resnet34 := stem_only_children;
     resnet50 := stem_only_children; resnet101 := stem_only_children;
     resnet152 := stem_only_children |}.

(** ** The contract of a backbone, on shapes

    A stage with tag [tag] maps [cin] channels to [cout] and divides the
    resolution by [stride]. *)
Definition stage_contract (ext : nat -> shape -> result shape)
    (tag cin cout stride : nat) : Prop :=
  forall n h w, 1 <= h -> 1 <= w ->
    ext tag (Shape n cin (stride * h) (stride * w)) = Ok (Shape n cout h w).

Definition tag_of (cs : list ext_child) (i : nat) : nat := nth i (map ec_tag cs) 0.

(** The children are conv1, bn1, relu, pool, layer1..layer4 and then others
    not named like a stage; the stem outputs [w0] channels at half the input
    resolution, the pooling halves it again, layer1 keeps the resolution and
    layer2..layer4 halve it; layer [i] outputs [wi] channels. *)
Record resnet_contract (ext : nat -> shape -> result shape) (cs : list ext_child)
    (channels w0 w1 w2 w3 w4 : nat) : Prop := {
  rc_names : take 8 (map ec_name cs)
             = ["conv1"; "bn1"; "relu"; "pool"; "layer1"; "layer2"; "layer3"; "layer4"];
  rc_rest : forallb (fun nm => negb (name_in nm backbone_layers))
                    (drop 8 (map ec_name cs)) = true;
  rc_conv1 : stage_contract ext (tag_of cs 0) channels w0 2;
  rc_bn1 : stage_contract ext (tag_of cs 1) w0 w0 1;
  rc_relu : stage_contract ext (tag_of cs 2) w0 w0 1;
  rc_pool : stage_contract ext (tag_of cs 3) w0 w0 2;
  rc_layer1 : stage_contract ext (tag_of cs 4) w0 w1 1;
  rc_layer2 : stage_contract ext (tag_of cs 5) w1 w2 2;
  rc_layer3 : stage_contract ext (tag_of cs 6) w2 w3 2;
  rc_layer4 : stage_contract ext (tag_of cs 7) w3 w4 2 }.

(** ** Parameters of a module tree, and the writes of the initialisation pass *)

Fixpoint leaves (m : module) : list leaf :=
  match m with
  | Leaf l => [l]
  | Container cs => flat_map leaves cs
  end.

(** Every parameter of every layer below [m], in traversal order. *)
Definition module_parameters (m : module) : list loc :=
  flat_map leaf_parameters (leaves m).

(** The assignments [init_module] makes on [m] when it returns. *)
Definition writes_of (m : module) : list (loc * pvalue) :=
  match isinstance_Conv2d m with
  | Some (w, b) =>
      (w, kaiming_normal fan_out relu)
      :: match b with Some b => [(b, constant 0)] | None => [] end
  | None => []
  end
  ++ match isinstance_norm m with
     | Some (Some w, Some b) => [(w, constant 1); (b, constant 0)]
     | _ => []
     end.

Definition write (s : store) (lv : loc * pvalue) : store :=
  alter (fun p => {| data := snd lv; requires_grad := requires_grad p |}) (fst lv) s.

Definition apply_writes (W : list (loc * pvalue)) (s : store) : store :=
  fold_left write W s.

(** What the claims say of an initialised layer. *)
Definition conv_initialised (s : store) (w : loc) (b : option loc) : Prop :=
  data <$> s !! w = Some (kaiming_normal fan_out relu)
  /\ forall b', b = Some b' -> data <$> s !! b' = Some (constant 0).

Definition norm_initialised (s : store) (w b : option loc) : Prop :=
  exists w' b', w = Some w' /\ b = Some b'
    /\ data <$> s !! w' = Some (constant 1)
    /\ data <$> s !! b' = Some (constant 0).

(** No location is assigned two different values. *)
Definition functional (W : list (loc * pvalue)) : Prop :=
  forall l v v', In (l, v) W -> In (l, v') W -> v = v'.

(** [m] only allocates: the store grows by trainable parameters, and the
    parameters of the result, in traversal order, are exactly the new
    locations. *)
Definition allocates {A} (params : A -> list loc) (m : M A) : Prop :=
  forall s a s', m s = Ok (a, s') ->
    exists ext, s' = s ++ ext
                /\ params a = seq (length s) (length ext)
                /\ Forall (fun p => requires_grad p = true) ext.

(** Induction over the module tree, children included. *)
Fixpoint module_rect' (P : module -> Prop)
    (HL : forall l, P (Leaf l))
    (HC : forall cs, Forall P cs -> P (Container cs)) (m : module) : P m :=
  match m with
  | Leaf l => HL l
  | Container cs =>
      HC cs ((fix go (cs : list module) : Forall P cs :=
                match cs with
                | [] => Forall_nil P
                | c :: cs' => Forall_cons P c cs' (module_rect' P HL HC c) (go cs')
                end) cs)
  end.

(** The parameters of everything but the encoder: center block, decoder
    stack and output head. *)
Definition head_parameters (u : UNet) : list loc :=
  module_parameters (DoubleConv2d_module (unet_center u))
  ++ module_parameters (DecoderBlocks_module (unet_decoder u))
  ++ module_parameters (Sequential_module (unet_out u)).

(** ** The ensemble

    [torch.stack] and [torch.mean] are what [EnsembleUNet.forward] asks of
    the tensor library beyond the layers. *)
Class EnsembleOps (T : Type) := {
  stack : list T -> result T;       (* torch.stack(ts), along a new axis 0 *)
  mean0 : T -> result T }.          (* torch.mean(t, dim=0) *)

Fixpoint mapF {G A C} (f : A -> F G C) (l : list A) : F G (list C) :=
  match l with
  | [] => retF []
  | a :: l' => (c <- f a ;; cs <- mapF f l' ;; retF (c :: cs))%F
  end.

Record EnsembleUNet := { unet_models : list UNet }.

Definition EnsembleUNet_init (unet_models : list UNet) : EnsembleUNet :=
  {| unet_models := unet_models |}.

Definition EnsembleUNet_forward {T} {B : Backend T} {E : EnsembleOps T}
    (st : store) (training : bool) (e : EnsembleUNet) (x : T) : F rng T :=
  (out <- mapF (fun unet => UNet_forward st training unet x) (unet_models e) ;;
   s <- liftF (stack out) ;;
   liftF (mean0 s))%F.

(** *** Tensors with values

    A tensor is its size and its elements in row-major order; the elements
    are rationals, an idealisation of floating point. *)
Record tensor := { dims : list nat; values : list Qc }.

Definition numel_of (d : list nat) : nat := fold_right Nat.mul 1 d.

Definition full (d : list nat) (v : Qc) : tensor :=
  {| dims := d; values := repeat v (numel_of d) |}.

Definition qsum (l : list Qc) : Qc := fold_right Qcplus 0%Qc l.

Definition Qc_of_nat (n : nat) : Qc := Q2Qc (inject_Z (Z.of_nat n)).

(** [torch.stack]: the list is not empty and all tensors have one size; the
    result has the new leading axis and the elements of the tensors one after
    the other. *)
Definition tensor_stack (ts : list tensor) : result tensor :=
  match ts with
  | [] => Err RuntimeError
  | t :: rest =>
      if forallb (fun t' => bool_decide (dims t' = dims t)) rest
      then Ok {| dims := length ts :: dims t; values := flat_map values ts |}
      else Err RuntimeError
  end.

(** [torch.mean(t, dim=0)]: element [j] of the result is the sum of the
    elements [i * n + j] over the leading index [i], divided by its extent. *)
Definition tensor_mean0 (t : tensor) : result tensor :=
  match dims t with
  | [] => Err IndexError
  | k :: d =>
      let n := numel_of d in
      Ok {| dims := d;
            values := map (fun j =>
                             (qsum (map (fun i => nth (i * n + j) (values t) 0%Qc)
                                        (seq 0 k))
                              / Qc_of_nat k)%Qc)
                          (seq 0 n) |}
  end.

#[global] Instance tensor_ensemble : EnsembleOps tensor :=
  {| stack := tensor_stack; mean0 := tensor_mean0 |}.

(** The elementwise arithmetic mean of tensors of size [d]. *)
Definition elementwise_mean (d : list nat) (outs : list tensor) : tensor :=
  {| dims := d;
     values := map (fun j => (qsum (map (fun o => nth j (values o) 0%Qc) outs)
                              / Qc_of_nat (length outs))%Qc)
                   (seq 0 (numel_of d)) |}.

(** A forward computation that neither reads nor advances the generator. *)
Definition rng_free {G A} (m : F G A) : Prop :=
  exists r : result A,
    forall g, m g = match r with Ok a => Ok (a, g) | Err e => Err e end.

Definition is_Dropout (l : leaf) : bool :=
  match l with Dropout _ => true | _ => false end.

(** ** A stand-in backend with values

    Layers are the identity, except that a 1x1 convolution whose bias holds a
    constant returns the tensor filled with it; the generator is a linear
    congruential sequence and a Bernoulli mask is read off it.  It is not
    torch's arithmetic: it serves to run the control flow on values. *)
Definition lcg (g : nat) : nat := (17 * g + 3) mod 1009.

Fixpoint sample (q : Qc) (n : nat) (g : nat) : list Qc * nat :=
  match n with
  | 0 => ([], g)
  | S n' =>
      let g1 := lcg g in
      let bit := if Qle_bool (Z.of_nat (g1 mod 100) + 1 # 100) (this q)
                 then 1%Qc else 0%Qc in
      let (bits, g2) := sample q n' g1 in
      (bit :: bits, g2)
  end.

Definition toy_layer (st : store) (training : bool) (l : leaf) (x : tensor)
    : result tensor :=
  match l with
  | Conv2d _ _ 1 _ _ _ (Some b) =>
      match data <$> st !! b with
      | Some (constant c) => Ok (full (dims x) (Q2Qc (inject_Z c)))
      | _ => Ok x
      end
  | _ => Ok x
  end.

Definition toy_value_backend : Backend tensor := {|
  rng := nat;
  layer := toy_layer;
  cat := fun _ b => Ok b;
  bernoulli := fun q x g =>
    let (bits, g') := sample q (length (values x)) g in
    ({| dims := dims x; values := bits |}, g');
  mul := fun a b => {| dims := dims a; values := zip_with Qcmult (values a) (values b) |};
  div_scalar := fun a q => {| dims := dims a; values := map (fun v => (v / q)%Qc) (values a) |};
  zeros_like := fun a => full (dims a) 0%Qc;
  numel := fun a => length (values a) |}.

(** Two plain U-Nets in one store, their output heads' biases then set to
    the constants 2 and 4 (locations 83 and 167) so that, on the stand-in
    backend, each returns a constant tensor. *)
Definition two_members : M EnsembleUNet :=
  (u1 <- UNet_init empty_provider 1 1 None false false 3 true None 0%Qc true ;;
   u2 <- UNet_init empty_provider 1 1 None false false 3 true None 0%Qc true ;;
   _ <- set_data 83 (constant 2) ;;
   _ <- set_data 167 (constant 4) ;;
   retM (EnsembleUNet_init [u1; u2]))%M.

(** A layer that [norm_layer(norm)(c)] can have built. *)
Definition norm_for (c : nat) (l : leaf) : Prop :=
  match l with
  | BatchNorm2d f _ _ | InstanceNorm2d f _ _ | GroupNorm _ f _ _ => f = c
  | _ => False
  end.

(** A 3x3 convolution with stride 1 and padding 1. *)
Definition conv3_for (cin cout : nat) (l : leaf) : Prop :=
  exists w b, l = Conv2d cin cout 3 1 1 w b.

(* ====================================================================== *)
(** * Properties *)

(** ** Sanity checks of the shape model *)

Example plain_64 :
  unet_shape empty_provider no_ext 3 2 None 3 false None 0%Qc true (Shape 1 3 64 32)
  = Ok (Shape 1 2 64 32).
Proof. vm_compute. reflexivity. Qed.

Example plain_k5 :
  unet_shape empty_provider no_ext 3 2 None 5 false None 0%Qc true (Shape 1 3 32 32)
  = Err ValueError.
Proof. vm_compute. reflexivity. Qed.

Example plain_k1 :
  unet_shape empty_provider no_ext 3 2 None 1 false None 0%Qc true (Shape 1 3 32 32)
  = Err RuntimeError.
Proof. vm_compute. reflexivity. Qed.

(** ** Inversion of monadic construction *)

Lemma bindM_Ok {A B} (m : M A) (k : A -> M B) s r s' :
  bindM m k s = Ok (r, s') ->
  exists a s1, m s = Ok (a, s1) /\ k a s1 = Ok (r, s').
Proof.
  unfold bindM. destruct (m s) as [[a s1]|e]; [|discriminate].
  intros H. exists a, s1. split; [reflexivity|exact H].
Qed.

Lemma retM_Ok {A} (a : A) s r s' : retM a s = Ok (r, s') -> r = a /\ s' = s.
Proof. unfold retM. intros H. inversion H. split; reflexivity. Qed.

Lemma liftM_Ok {A} (x : result A) s r s' :
  liftM x s = Ok (r, s') -> x = Ok r /\ s' = s.
Proof. unfold liftM. destruct x; intros H; inversion H. split; reflexivity. Qed.

Ltac monad_inv H :=
  lazymatch type of H with
  | bindM _ _ _ = Ok _ =>
      let a := fresh "a" in
      let s := fresh "s" in
      let H1 := fresh "Hm" in
      let H2 := fresh "Hk" in
      apply bindM_Ok in H; destruct H as (a & s & H1 & H2);
      cbv beta in H2; monad_inv H1; monad_inv H2
  | retM _ _ = Ok _ =>
      let E1 := fresh "E" in
      let E2 := fresh "E" in
      apply retM_Ok in H; destruct H as [E1 E2]; subst
  | liftM _ _ = Ok _ =>
      let E1 := fresh "E" in
      let E2 := fresh "E" in
      apply liftM_Ok in H; destruct H as [E1 E2]; subst
  | _ => idtac
  end.

Ltac index_inv :=
  repeat match goal with
         | E : py_index _ _ = Ok _ |- _ =>
             vm_compute in E; first [discriminate E | injection E as <-]
         end.

(** ** Shapes through the layers *)

Section ShapeLemmas.

Variable ext : nat -> shape -> result shape.
Variable st : store.
Variable training : bool.

#[local] Instance SB : Backend shape := shape_backend ext.

Lemma dropout_shape (p : Qc) (x : shape) (g : unit) :
  dropout training p x g = Ok (x, g).
Proof.
  unfold dropout.
  destruct (_ || _ || _); [reflexivity|].
  destruct (bool_decide _); reflexivity.
Qed.

Lemma bindF_Ok {A C} (m : F unit A) (k : A -> F unit C) g a g' :
  m g = Ok (a, g') -> bindF m k g = k a g'.
Proof. unfold bindF. intros ->. reflexivity. Qed.

Lemma new_norm_for n c s l s' : new_norm n c s = Ok (l, s') -> norm_for c l.
Proof.
  destruct n as [|affine|g]; cbn [new_norm].
  - intros H. monad_inv H. exact eq_refl.
  - intros H. monad_inv H. exact eq_refl.
  - destruct (_ && _); [|discriminate].
    intros H. monad_inv H. exact eq_refl.
Qed.

Lemma new_Conv2d_for cin cout bias s l s' :
  new_Conv2d cin cout 3 1 1 bias s = Ok (l, s') -> conv3_for cin cout l.
Proof. unfold new_Conv2d. intros H. monad_inv H. eexists _, _. reflexivity. Qed.

Lemma norm_shape c l n h w :
  norm_for c l -> 2 <= h -> 2 <= w ->
  apply st training l (Shape n c h w) tt = Ok (Shape n c h w, tt).
Proof.
  intros Hl Hh Hw.
  assert (Hp : forall a, (a * h * w =? 1) = false).
  { intros a. apply Nat.eqb_neq. intros E.
    apply Nat.eq_mul_1 in E. lia. }
  destruct l; cbn in Hl; try contradiction; subst;
    cbn [apply liftF layer SB shape_backend shape_layer];
    rewrite Nat.eqb_refl; cbn [negb andb]; rewrite ?Hp, ?andb_false_r;
    try reflexivity.
  assert (Hq : (h * w =? 1) = false).
  { apply Nat.eqb_neq. intros E. apply Nat.eq_mul_1 in E. lia. }
  rewrite Hq. reflexivity.
Qed.

Lemma conv3_shape cin cout l n h w :
  conv3_for cin cout l -> 1 <= h -> 1 <= w ->
  apply st training l (Shape n cin h w) tt = Ok (Shape n cout h w, tt).
Proof.
  intros (wt & b & ->) Hh Hw.
  cbn [apply liftF layer SB shape_backend shape_layer].
  rewrite Nat.eqb_refl.
  replace (3 <=? h + 2 * 1) with true by (symmetry; apply Nat.leb_le; lia).
  replace (3 <=? w + 2 * 1) with true by (symmetry; apply Nat.leb_le; lia).
  cbn [andb Nat.ltb Nat.leb].
  unfold conv_out. rewrite !Nat.div_1_r.
  replace (h + 2 * 1 - 3 + 1) with h by lia.
  replace (w + 2 * 1 - 3 + 1) with w by lia.
  reflexivity.
Qed.

Lemma DoubleConv2d_shape cin cout bias norm s d s' n h w :
  DoubleConv2d_init cin cout 3 bias norm s = Ok (d, s') ->
  2 <= h -> 2 <= w ->
  DoubleConv2d_forward st training d (Shape n cin h w) tt = Ok (Shape n cout h w, tt).
Proof.
  unfold DoubleConv2d_init. intros H Hh Hw. monad_inv H.
  apply new_Conv2d_for in Hm, Hm1. apply new_norm_for in Hm0, Hm2.
  unfold DoubleConv2d_forward. cbn [dc_layer Sequential_forward].
  rewrite (bindF_Ok _ _ _ _ _ (conv3_shape _ _ _ n h w Hm ltac:(lia) ltac:(lia))).
  rewrite (bindF_Ok _ _ _ _ _ (norm_shape _ _ n h w Hm0 Hh Hw)).
  rewrite (bindF_Ok _ _ tt (Shape n cout h w) tt eq_refl).
  rewrite (bindF_Ok _ _ _ _ _ (conv3_shape _ _ _ n h w Hm1 ltac:(lia) ltac:(lia))).
  rewrite (bindF_Ok _ _ _ _ _ (norm_shape _ _ n h w Hm2 Hh Hw)).
  rewrite (bindF_Ok _ _ tt (Shape n cout h w) tt eq_refl).
  reflexivity.
Qed.

Lemma pool_shape n c h w :
  1 <= h -> 1 <= w ->
  apply st training (MaxPool2d 2 2) (Shape n c (2 * h) (2 * w)) tt
  = Ok (Shape n c h w, tt).
Proof.
  intros Hh Hw. cbn [apply liftF layer SB shape_backend shape_layer].
  replace (2 <=? 2 * h) with true by (symmetry; apply Nat.leb_le; lia).
  replace (2 <=? 2 * w) with true by (symmetry; apply Nat.leb_le; lia).
  cbn [andb Nat.ltb Nat.leb].
  replace (2 * h - 2) with ((h - 1) * 2) by lia.
  replace (2 * w - 2) with ((w - 1) * 2) by lia.
  rewrite !Nat.div_mul by discriminate.
  replace (h - 1 + 1) with h by lia. replace (w - 1 + 1) with w by lia.
  reflexivity.
Qed.

Lemma EncoderBlock_shape cin cout bias norm dropout s b s' n h w :
  EncoderBlock_init cin cout 3 bias norm dropout s = Ok (b, s') ->
  1 <= h -> 1 <= w ->
  EncoderBlock_forward st training b (Shape n cin (2 * h) (2 * w)) tt
  = Ok ((Shape n cout (2 * h) (2 * w), Shape n cout h w), tt).
Proof.
  unfold EncoderBlock_init. intros H Hh Hw. monad_inv H.
  unfold EncoderBlock_forward. cbn [eb_conv eb_pool eb_drop].
  rewrite (bindF_Ok _ _ _ _ _
            (DoubleConv2d_shape _ _ _ _ _ _ _ n (2 * h) (2 * w) Hm ltac:(lia) ltac:(lia))).
  rewrite (bindF_Ok _ _ _ _ _ (pool_shape n cout h w Hh Hw)).
  cbn [apply]. rewrite (bindF_Ok _ _ _ _ _ (dropout_shape _ _ tt)).
  reflexivity.
Qed.

Lemma trans_shape cin cout wt b n h w :
  1 <= h -> 1 <= w ->
  apply st training (ConvTranspose2d cin cout 2 2 wt b) (Shape n cin h w) tt
  = Ok (Shape n cout (2 * h) (2 * w), tt).
Proof.
  intros Hh Hw. cbn [apply liftF layer SB shape_backend shape_layer].
  rewrite Nat.eqb_refl.
  replace (0 <? h) with true by (symmetry; apply Nat.ltb_lt; lia).
  replace (0 <? w) with true by (symmetry; apply Nat.ltb_lt; lia).
  cbn [andb].
  replace ((h - 1) * 2 + 2) with (2 * h) by lia.
  replace ((w - 1) * 2 + 2) with (2 * w) by lia.
  reflexivity.
Qed.

Lemma DecoderBlock_shape cin cout cskip bias norm dropout s b s' n h w :
  DecoderBlock_init cin cout 3 bias norm dropout None None s = Ok (b, s') ->
  cskip + cout = cin ->
  1 <= h -> 1 <= w ->
  DecoderBlock_forward st training b (Shape n cin h w) (Shape n cskip (2 * h) (2 * w)) tt
  = Ok (Shape n cout (2 * h) (2 * w), tt).
Proof.
  unfold DecoderBlock_init. cbn [default]. intros H <- Hh Hw. monad_inv H.
  unfold new_ConvTranspose2d in Hm. monad_inv Hm.
  unfold DecoderBlock_forward. cbn [db_trans db_conv db_drop].
  rewrite (bindF_Ok _ _ _ _ _ (trans_shape (cskip + cout) cout _ _ n h w Hh Hw)).
  cbn [cat SB shape_backend shape_cat]. rewrite !Nat.eqb_refl. cbn [andb].
  rewrite (bindF_Ok _ _ tt (Shape n (cskip + cout) (2 * h) (2 * w)) tt eq_refl).
  rewrite (bindF_Ok _ _ _ _ _
            (DoubleConv2d_shape _ _ _ _ _ _ _ n (2 * h) (2 * w) Hm0 ltac:(lia) ltac:(lia))).
  cbn [apply]. rewrite (bindF_Ok _ _ _ _ _ (dropout_shape _ _ tt)).
  reflexivity.
Qed.

End ShapeLemmas.

(** ** The plain U-Net, end to end *)

Lemma bindF_assoc {G A B C} (m : F G A) (k : A -> F G B) (k' : B -> F G C) g :
  bindF (bindF m k) k' g = bindF m (fun a => bindF (k a) k') g.
Proof. unfold bindF. destruct (m g) as [[a g']|e]; reflexivity. Qed.

Lemma retF_bind {G A B} (a : A) (k : A -> F G B) g : bindF (retF a) k g = k a g.
Proof. reflexivity. Qed.

Lemma liftF_bind {G A B} (a : A) (k : A -> F G B) g : bindF (liftF (Ok a)) k g = k a g.
Proof. reflexivity. Qed.

Lemma skip4 {A} (a b c d : A) :
  py_index [a; b; c; d] (-1 - Z.of_nat 0) = Ok d /\
  py_index [a; b; c; d] (-1 - Z.of_nat 1) = Ok c /\
  py_index [a; b; c; d] (-1 - Z.of_nat 2) = Ok b /\
  py_index [a; b; c; d] (-1 - Z.of_nat 3) = Ok a.
Proof. repeat split; reflexivity. Qed.

Lemma conv1_shape ext st training cin cout wt b n h w :
  1 <= h -> 1 <= w ->
  apply (B := shape_backend ext) st training (Conv2d cin cout 1 1 0 wt b) (Shape n cin h w) tt
  = Ok (Shape n cout h w, tt).
Proof.
  intros Hh Hw. cbn [apply liftF layer shape_backend shape_layer].
  rewrite Nat.eqb_refl.
  replace (1 <=? h + 2 * 0) with true by (symmetry; apply Nat.leb_le; lia).
  replace (1 <=? w + 2 * 0) with true by (symmetry; apply Nat.leb_le; lia).
  cbn [andb Nat.ltb Nat.leb].
  unfold conv_out. rewrite !Nat.div_1_r.
  replace (h + 2 * 0 - 1 + 1) with h by lia.
  replace (w + 2 * 0 - 1 + 1) with w by lia.
  reflexivity.
Qed.

Ltac fwd E := rewrite ?bindF_assoc; rewrite (bindF_Ok _ _ _ _ _ E); cbn [fst snd].

Lemma plain_forward_pow2 provider ext C N bias norm dropout pretrained freeze_grad
    init_weights s0 u s st training n h w :
  UNet_init provider C N None pretrained freeze_grad 3 bias norm dropout init_weights s0 = Ok (u, s) ->
  0 < h -> 0 < w ->
  run (UNet_forward (B := shape_backend ext) st training u
         (Shape n C (2 * (2 * (2 * (2 * (2 * h))))) (2 * (2 * (2 * (2 * (2 * w))))))) tt
  = Ok (Shape n N (2 * (2 * (2 * (2 * (2 * h))))) (2 * (2 * (2 * (2 * (2 * w)))))).
Proof.
  intros H Hh Hw.
  unfold UNet_init in H. monad_inv H. clear Hm0.
  unfold UNet_build in Hm. monad_inv Hm.
  unfold EncoderBlocks_init in Hm0.
  change (py_init UNet_filters) with [64; 128; 256; 512] in Hm0.
  cbn [encoder_loop] in Hm0. monad_inv Hm0.
  cbn [enc_filters] in *. index_inv.
  unfold DecoderBlocks_init in Hm1.
  change (length UNet_filters - 1) with 4 in Hm1. cbn [seq mapM] in Hm1.
  monad_inv Hm1. index_inv.
  unfold new_ConvTranspose2d in Hm2. monad_inv Hm2.
  unfold new_Conv2d in Hm3. monad_inv Hm3.
  unfold run, UNet_forward, EncoderBlocks_forward.
  cbn [unet_encoder unet_center unet_decoder unet_out plain_loop fst snd app].
  fwd (EncoderBlock_shape ext st training _ _ _ _ _ _ _ _ n (2 * (2 * (2 * (2 * h)))) (2 * (2 * (2 * (2 * w)))) Hm0 ltac:(lia) ltac:(lia)).
  fwd (EncoderBlock_shape ext st training _ _ _ _ _ _ _ _ n (2 * (2 * (2 * h))) (2 * (2 * (2 * w))) Hm5 ltac:(lia) ltac:(lia)).
  fwd (EncoderBlock_shape ext st training _ _ _ _ _ _ _ _ n (2 * (2 * h)) (2 * (2 * w)) Hm6 ltac:(lia) ltac:(lia)).
  fwd (EncoderBlock_shape ext st training _ _ _ _ _ _ _ _ n (2 * h) (2 * w) Hm7 ltac:(lia) ltac:(lia)).
  rewrite ?bindF_assoc, !retF_bind. unfold return_pair. cbn [fst snd]. rewrite retF_bind.
  cbn [fst snd].
  fwd (DoubleConv2d_shape ext st training _ _ _ _ _ _ _ n (2 * h) (2 * w) Hm ltac:(lia) ltac:(lia)).
  unfold DecoderBlocks_forward. cbn [dec_backbone dec_pool dec_decoder decoder_loop].
  match goal with
  | |- context [py_index [?a; ?b; ?c; ?d] _] =>
      destruct (skip4 a b c d) as (I0 & I1 & I2 & I3)
  end.
  rewrite I0, I1, I2, I3. clear I0 I1 I2 I3.
  rewrite !(bool_decide_eq_true_2 _ (eq_refl (@None string))).
  fwd (pool_shape ext st training n 1024 h w ltac:(lia) ltac:(lia)).
  rewrite ?bindF_assoc, liftF_bind.
  fwd (pool_shape ext st training n 512 (2 * h) (2 * w) ltac:(lia) ltac:(lia)).
  fwd (DecoderBlock_shape ext st training _ _ 512 _ _ _ _ _ _ n h w Hk2 eq_refl ltac:(lia) ltac:(lia)).
  rewrite ?bindF_assoc, liftF_bind.
  fwd (pool_shape ext st training n 256 (2 * (2 * h)) (2 * (2 * w)) ltac:(lia) ltac:(lia)).
  fwd (DecoderBlock_shape ext st training _ _ 256 _ _ _ _ _ _ n (2 * h) (2 * w) Hk4 eq_refl ltac:(lia) ltac:(lia)).
  rewrite ?bindF_assoc, liftF_bind.
  fwd (pool_shape ext st training n 128 (2 * (2 * (2 * h))) (2 * (2 * (2 * w))) ltac:(lia) ltac:(lia)).
  fwd (DecoderBlock_shape ext st training _ _ 128 _ _ _ _ _ _ n (2 * (2 * h)) (2 * (2 * w)) Hk6 eq_refl ltac:(lia) ltac:(lia)).
  rewrite ?bindF_assoc, liftF_bind.
  fwd (pool_shape ext st training n 64 (2 * (2 * (2 * (2 * h)))) (2 * (2 * (2 * (2 * w)))) ltac:(lia) ltac:(lia)).
  fwd (DecoderBlock_shape ext st training _ _ 64 _ _ _ _ _ _ n (2 * (2 * (2 * h))) (2 * (2 * (2 * w))) Hk8 eq_refl ltac:(lia) ltac:(lia)).
  rewrite ?bindF_assoc, retF_bind.
  cbn [Sequential_forward].
  fwd (trans_shape ext st training 64 64 a a2 n (2 * (2 * (2 * (2 * h)))) (2 * (2 * (2 * (2 * w)))) ltac:(lia) ltac:(lia)).
  fwd (conv1_shape ext st training 64 N a3 a5 n (2 * (2 * (2 * (2 * (2 * h))))) (2 * (2 * (2 * (2 * (2 * w))))) ltac:(lia) ltac:(lia)).
  reflexivity.
Qed.




(** ** The encoder stack over any backend *)

Lemma bindF_inv {G A C} (m : F G A) (k : A -> F G C) g r :
  bindF m k g = Ok r -> exists a g1, m g = Ok (a, g1) /\ k a g1 = Ok r.
Proof.
  unfold bindF. destruct (m g) as [[a g1]|e]; [|discriminate].
  intros H. exists a, g1. split; [reflexivity|exact H].
Qed.

Lemma bindF_step {G A C} (m : F G A) (k : A -> F G C) g a g' :
  m g = Ok (a, g') -> bindF m k g = k a g'.
Proof. unfold bindF. intros ->. reflexivity. Qed.

Section EncoderSpec.

Context {T : Type} {B : Backend T}.
Variable st : store.
Variable training : bool.

Lemma backbone_loop_layers children p x_out e_out g :
  backbone_loop st training children p x_out e_out g
  = backbone_loop st training (layer_children children) p x_out e_out g.
Proof.
  revert p x_out e_out g.
  induction children as [|[name m] rest IH]; intros p x_out e_out g; [reflexivity|].
  unfold layer_children. cbn [backbone_loop List.filter fst].
  destruct (name_in name backbone_layers) eqn:E.
  - cbn [backbone_loop]. rewrite E. unfold bindF.
    destruct (apply st training m p g) as [[q g1]|e]; [|reflexivity].
    apply IH.
  - apply IH.
Qed.

Lemma backbone_forward_spec fs name children inputs pool m1 m2 m3 m4 x g x_out e_out g' :
  layer_children children
  = [("layer1", m1); ("layer2", m2); ("layer3", m3); ("layer4", m4)] ->
  EncoderBlocks_forward st training (EncoderBackbone fs name children inputs pool) x g
  = Ok ((x_out, e_out), g')
  <-> exists stem g1 p g2 o1 g3 o2 g4 o3 g5 o4,
        Sequential_forward st training inputs x g = Ok (stem, g1)
        /\ apply st training pool stem g1 = Ok (p, g2)
        /\ apply st training m1 p g2 = Ok (o1, g3)
        /\ apply st training m2 o1 g3 = Ok (o2, g4)
        /\ apply st training m3 o2 g4 = Ok (o3, g5)
        /\ apply st training m4 o3 g5 = Ok (o4, g')
        /\ x_out = [stem; o1; o2; o3; o4] /\ e_out = o4.
Proof.
  intros Hl. cbn [EncoderBlocks_forward]. split.
  - intros H.
    apply bindF_inv in H as (stem & g1 & H0 & H).
    apply bindF_inv in H as (p & g2 & H1 & H).
    apply bindF_inv in H as (r & g6 & H2 & H).
    rewrite backbone_loop_layers, Hl in H2. cbn [backbone_loop name_in backbone_layers existsb String.eqb Ascii.eqb Bool.eqb orb] in H2.
    apply bindF_inv in H2 as (o1 & g3 & H3 & H2).
    apply bindF_inv in H2 as (o2 & g4 & H4 & H2).
    apply bindF_inv in H2 as (o3 & g5 & H5 & H2).
    apply bindF_inv in H2 as (o4 & g7 & H6 & H2).
    injection H2 as <- <-. cbn in H. injection H as <- <- <-.
    exists stem, g1, p, g2, o1, g3, o2, g4, o3, g5, o4. repeat split; assumption.
  - intros (stem & g1 & p & g2 & o1 & g3 & o2 & g4 & o3 & g5 & o4
            & H0 & H1 & H3 & H4 & H5 & H6 & -> & ->).
    rewrite (bindF_step _ _ _ _ _ H0), (bindF_step _ _ _ _ _ H1).
    unfold bindF at 1. rewrite backbone_loop_layers, Hl.
    cbn [backbone_loop name_in backbone_layers existsb String.eqb Ascii.eqb Bool.eqb orb].
    rewrite (bindF_step _ _ _ _ _ H3), (bindF_step _ _ _ _ _ H4),
            (bindF_step _ _ _ _ _ H5), (bindF_step _ _ _ _ _ H6).
    reflexivity.
Qed.
Lemma EncoderBlock_forward_spec b x g s p g' :
  EncoderBlock_forward st training b x g = Ok ((s, p), g')
  <-> exists g1 q g2,
        DoubleConv2d_forward st training (eb_conv b) x g = Ok (s, g1)
        /\ apply st training (eb_pool b) s g1 = Ok (q, g2)
        /\ apply st training (eb_drop b) q g2 = Ok (p, g').
Proof.
  unfold EncoderBlock_forward. split.
  - intros H.
    apply bindF_inv in H as (s0 & g1 & H0 & H).
    apply bindF_inv in H as (q & g2 & H1 & H).
    apply bindF_inv in H as (p0 & g3 & H2 & H).
    injection H as <- <- <-. exists g1, q, g2. repeat split; assumption.
  - intros (g1 & q & g2 & H0 & H1 & H2).
    rewrite (bindF_step _ _ _ _ _ H0), (bindF_step _ _ _ _ _ H1),
            (bindF_step _ _ _ _ _ H2).
    reflexivity.
Qed.

Lemma plain_forward_spec fs b1 b2 b3 b4 x g x_out e_out g' :
  EncoderBlocks_forward st training (EncoderPlain fs [b1; b2; b3; b4]) x g
  = Ok ((x_out, e_out), g')
  <-> exists x1 p1 g1 x2 p2 g2 x3 p3 g3 x4,
        EncoderBlock_forward st training b1 x g = Ok ((x1, p1), g1)
        /\ EncoderBlock_forward st training b2 p1 g1 = Ok ((x2, p2), g2)
        /\ EncoderBlock_forward st training b3 p2 g2 = Ok ((x3, p3), g3)
        /\ EncoderBlock_forward st training b4 p3 g3 = Ok ((x4, e_out), g')
        /\ x_out = [x1; x2; x3; x4].
Proof.
  cbn [EncoderBlocks_forward plain_loop]. split.
  - intros H.
    apply bindF_inv in H as (r & g5 & H & Hr).
    apply bindF_inv in H as ([x1 p1] & g1 & H1 & H).
    apply bindF_inv in H as ([x2 p2] & g2 & H2 & H).
    apply bindF_inv in H as ([x3 p3] & g3 & H3 & H).
    apply bindF_inv in H as ([x4 p4] & g4 & H4 & H).
    injection H as <- <-. cbn in Hr. injection Hr as <- <- <-.
    exists x1, p1, g1, x2, p2, g2, x3, p3, g3, x4. repeat split; assumption.
  - intros (x1 & p1 & g1 & x2 & p2 & g2 & x3 & p3 & g3 & x4
            & H1 & H2 & H3 & H4 & ->).
    unfold bindF at 1.
    rewrite (bindF_step _ _ _ _ _ H1). cbn [fst snd].
    rewrite (bindF_step _ _ _ _ _ H2). cbn [fst snd].
    rewrite (bindF_step _ _ _ _ _ H3). cbn [fst snd].
    rewrite (bindF_step _ _ _ _ _ H4). reflexivity.
Qed.

(** The loop binds [e_out] as soon as it runs once, and appends one skip
    feature per stage. *)
Lemma plain_loop_bound encoder p x_out v g r g' :
  plain_loop st training encoder p x_out (Some v) g = Ok (r, g') ->
  is_Some (snd r) /\ length (fst r) = length x_out + length encoder.
Proof.
  revert p x_out v g.
  induction encoder as [|b rest IH]; intros p x_out v g H.
  - injection H as <- <-. cbn. split; [eauto|lia].
  - cbn [plain_loop] in H. apply bindF_inv in H as (xp & g1 & _ & H).
    apply IH in H as [H1 H2]. split; [exact H1|].
    rewrite H2, length_app. cbn. lia.
Qed.

Lemma plain_forward_nonempty fs b rest x g :
  match plain_loop st training (b :: rest) x [] None g with
  | Ok (r, g') =>
      exists e_out,
        snd r = Some e_out
        /\ length (fst r) = S (length rest)
        /\ EncoderBlocks_forward st training (EncoderPlain fs (b :: rest)) x g
           = Ok ((fst r, e_out), g')
  | Err e =>
      EncoderBlocks_forward st training (EncoderPlain fs (b :: rest)) x g = Err e
  end.
Proof.
  cbn [EncoderBlocks_forward].
  destruct (plain_loop st training (b :: rest) x [] None g) as [[r g']|e] eqn:E;
    [|unfold bindF; rewrite E; reflexivity].
  pose proof E as E'.
  cbn [plain_loop] in E. apply bindF_inv in E as (xp & g1 & _ & E).
  apply plain_loop_bound in E as [[e_out He] Hlen].
  exists e_out. split; [exact He|]. split; [exact Hlen|].
  rewrite (bindF_step _ _ _ _ _ E'). unfold return_pair. rewrite He. reflexivity.
Qed.

Lemma plain_forward_empty fs x g :
  EncoderBlocks_forward st training (EncoderPlain fs []) x g = Err UnboundLocalError.
Proof. reflexivity. Qed.

Lemma backbone_forward_no_layer fs name children inputs pool x g :
  layer_children children = [] ->
  match run (x <- Sequential_forward st training inputs x ;;
             apply st training pool x)%F g with
  | Ok _ =>
      EncoderBlocks_forward st training (EncoderBackbone fs name children inputs pool) x g
      = Err UnboundLocalError
  | Err e =>
      EncoderBlocks_forward st training (EncoderBackbone fs name children inputs pool) x g
      = Err e
  end.
Proof.
  intros Hl. cbn [EncoderBlocks_forward]. unfold run, bindF.
  destruct (Sequential_forward st training inputs x g) as [[y g1]|e]; [|reflexivity].
  destruct (apply st training pool y g1) as [[p g2]|e]; [|reflexivity].
  rewrite backbone_loop_layers, Hl. reflexivity.
Qed.

End EncoderSpec.

(** Construction of the plain stack: one block per entry of [filters[:-1]]. *)
Lemma encoder_loop_length cin fs k bias norm dropout s bs s' :
  encoder_loop cin fs k bias norm dropout s = Ok (bs, s') -> length bs = length fs.
Proof.
  revert cin s bs s'. induction fs as [|f fs IH]; intros cin s bs s' H.
  - cbn in H. injection H as <- <-. reflexivity.
  - cbn [encoder_loop] in H.
    apply bindM_Ok in H as (b & s1 & _ & H).
    apply bindM_Ok in H as (bs' & s2 & H1 & H).
    injection H as <- <-. cbn. f_equal. eapply IH, H1.
Qed.

Lemma py_init_length {A} (l : list A) : length (py_init l) = length l - 1.
Proof. unfold py_init. rewrite length_take. lia. Qed.

Lemma EncoderBlocks_init_plain provider C filters pretrained freeze_grad k bias norm
    dropout s e s' :
  EncoderBlocks_init provider C filters None pretrained freeze_grad k bias norm dropout s
  = Ok (e, s') ->
  exists encoder,
    e = EncoderPlain filters encoder
    /\ encoder_loop C (py_init filters) k bias norm dropout s = Ok (encoder, s')
    /\ length encoder = length filters - 1.
Proof.
  cbn [EncoderBlocks_init]. intros H.
  apply bindM_Ok in H as (encoder & s1 & H1 & H). injection H as <- <-.
  exists encoder. split; [reflexivity|]. split; [exact H1|].
  rewrite (encoder_loop_length _ _ _ _ _ _ _ _ _ H1). apply py_init_length.
Qed.

(** ** Totality on the backend whose layers never fail *)

Section UnitBackend.

Variable st : store.
Variable training : bool.

#[local] Existing Instance unit_backend.

Lemma unit_apply l x g : apply st training l x g = Ok (tt, tt).
Proof.
  destruct x, g, l; try reflexivity.
  cbn [apply]. unfold dropout.
  destruct (_ || _ || _); [reflexivity|].
  destruct (bool_decide _); reflexivity.
Qed.

Lemma unit_Sequential ls x g : Sequential_forward st training ls x g = Ok (tt, tt).
Proof.
  revert x g. induction ls as [|l ls IH]; intros [] []; [reflexivity|].
  cbn [Sequential_forward]. rewrite (bindF_step _ _ _ _ _ (unit_apply l tt tt)).
  apply IH.
Qed.

Lemma unit_EncoderBlock b x g :
  EncoderBlock_forward st training b x g = Ok ((tt, tt), tt).
Proof.
  unfold EncoderBlock_forward, DoubleConv2d_forward.
  rewrite (bindF_step _ _ _ _ _ (unit_Sequential _ x g)).
  rewrite (bindF_step _ _ _ _ _ (unit_apply _ tt tt)).
  rewrite (bindF_step _ _ _ _ _ (unit_apply _ tt tt)).
  reflexivity.
Qed.

Lemma unit_plain_loop encoder p x_out e_out g :
  is_ok (plain_loop st training encoder p x_out e_out g) = true.
Proof.
  revert p x_out e_out g.
  induction encoder as [|b rest IH]; intros p x_out e_out g; [reflexivity|].
  cbn [plain_loop]. rewrite (bindF_step _ _ _ _ _ (unit_EncoderBlock b p g)).
  apply IH.
Qed.

End UnitBackend.

(** C10.  [EncoderBlocks.forward] returns only if a stage has run.  Plain
    mode, at least two filter widths: the stack is not empty, the forward
    pass returns the loop's skip list with the deepest feature bound whenever
    the stages themselves return, fails only with a stage's failure, and does
    return on a backend whose layers never fail.  Plain mode, one filter
    width: no block is built and the forward pass raises UnboundLocalError.
    Backbone mode, no child named layer1..layer4: the forward pass fails, with
    UnboundLocalError once the stem and the pooling have returned. *)
Theorem encoder_forward_unbound provider C filters backbone pretrained freeze_grad k
    bias norm dropout s e s' :
  EncoderBlocks_init provider C filters backbone pretrained freeze_grad k bias norm
                     dropout s = Ok (e, s') ->
  match e with
  | EncoderPlain _ encoder =>
      (2 <= length filters ->
       (forall T (B : Backend T) st training x g,
          match plain_loop st training encoder x [] None g with
          | Ok (r, g') =>
              exists e_out,
                snd r = Some e_out
                /\ length (fst r) = length filters - 1
                /\ EncoderBlocks_forward st training e x g = Ok ((fst r, e_out), g')
          | Err err => EncoderBlocks_forward st training e x g = Err err
          end)
       /\ (forall st training x g,
             is_ok (EncoderBlocks_forward (B := unit_backend) st training e x g) = true))
      /\ (length filters = 1 ->
          forall T (B : Backend T) st training x g,
            EncoderBlocks_forward st training e x g = Err UnboundLocalError)
  | EncoderBackbone _ _ children inputs pool =>
      layer_children children = [] ->
      forall T (B : Backend T) st training x g,
        exists err,
          EncoderBlocks_forward st training e x g = Err err
          /\ (is_ok (run (y <- Sequential_forward st training inputs x ;;
                          apply st training pool y)%F g) = true ->
              err = UnboundLocalError)
  end.
Proof.
  intros H. destruct backbone as [name|].
  - cbn [EncoderBlocks_init] in H. monad_inv H.
    intros Hl T B st training x g.
    pose proof (backbone_forward_no_layer st training (snd a) name a0
                  [a2; a3; a4] a5 x g Hl) as Hf.
    destruct (run _ g) as [y|err].
    + exists UnboundLocalError. split; [exact Hf|reflexivity].
    + exists err. split; [exact Hf|discriminate].
  - apply EncoderBlocks_init_plain in H as (encoder & -> & _ & Hlen). split.
    + intros H2. destruct encoder as [|b rest]; [cbn in Hlen; lia|]. split.
      * intros T B st training x g.
        pose proof (plain_forward_nonempty st training filters b rest x g) as Hf.
        destruct (plain_loop st training (b :: rest) x [] None g) as [[r g']|err];
          [|exact Hf].
        destruct Hf as (e_out & He & Hn & Hf). exists e_out.
        split; [exact He|]. split; [|exact Hf].
        rewrite Hn, <- Hlen. reflexivity.
      * intros st training x g.
        pose proof (plain_forward_nonempty (B := unit_backend) st training filters
                      b rest x g) as Hf.
        pose proof (unit_plain_loop st training (b :: rest) x [] None g) as Hok.
        destruct (plain_loop st training (b :: rest) x [] None g) as [[r g']|err];
          [|discriminate].
        destruct Hf as (e_out & _ & _ & ->). reflexivity.
    + intros H1 T B st training x g.
      destruct encoder as [|b rest]; [reflexivity|cbn in Hlen; lia].
Qed.

Lemma encoder_forward_unbound_witness :
  (forall x,
     EncoderBlocks_forward (B := shape_backend no_ext) [] true (EncoderPlain [64] []) x tt
     = Err UnboundLocalError)
  /\ (exists e s,
        EncoderBlocks_init stem_only_provider 3 UNet_filters (Some "resnet18")
                           false false 3 false None 0%Qc [] = Ok (e, s)
        /\ EncoderBlocks_forward (B := shape_backend (toy_ext 3 UNet_filters)) s true e
             (Shape 1 3 64 64) tt = Err UnboundLocalError).
Proof.
  split.
  - intros x.
    exact (proj2 (encoder_forward_unbound empty_provider 3 [64] None false false 3
                    false None 0%Qc [] (EncoderPlain [64] []) [] eq_refl)
                 eq_refl shape (shape_backend no_ext) [] true x tt).
  - eexists _, _. split; [vm_compute; reflexivity|].
    vm_compute. reflexivity.
Defined.

Example backbone_64 :
  unet_shape toy_provider (toy_ext 3 [64; 64; 128; 256; 512]) 3 2 (Some "resnet18") 3
             false None 0%Qc true (Shape 1 3 64 128)
  = Ok (Shape 1 2 64 128).
Proof. vm_compute. reflexivity. Qed.

Example backbone_declared_widths :
  unet_shape toy_provider (toy_ext 3 [64; 128; 256; 512; 1024]) 3 2 (Some "resnet18") 3
             false None 0%Qc true (Shape 1 3 64 128)
  = Err RuntimeError.
Proof. vm_compute. reflexivity. Qed.

(** ** The skip-feature list *)



(** C4 as stated gives the backbone-mode skip list 4 entries and keeps
    layer4's output out of it.  On the stand-in backbone the list has 5
    entries and layer4's output, the deepest feature, is the entry at
    index 4. *)
Lemma backbone_skip_list_counterexample :
  exists e s x_out e_out,
    EncoderBlocks_init toy_provider 3 UNet_filters (Some "resnet18") false false 3
                       false None 0%Qc [] = Ok (e, s)
    /\ run (EncoderBlocks_forward (B := shape_backend (toy_ext 3 [64; 64; 128; 256; 512]))
              s true e (Shape 1 3 64 64)) tt = Ok (x_out, e_out)
    /\ length x_out = 5 /\ x_out !! 4 = Some e_out /\ In e_out x_out.
Proof.
  eexists _, _, _, _.
  split; [vm_compute; reflexivity|].
  split; [vm_compute; reflexivity|].
  split; [reflexivity|]. split; [reflexivity|].
  cbn. tauto.
Qed.

(** C4 (as amended).  In backbone mode (the backbone's stages being
    layer1..layer4) every returning forward pass of the encoder stack yields
    a skip list of exactly 5 entries: index 0 holds the stem output, indices
    1..4 the outputs of layer1..layer4; layer4's output is at once the last
    entry ([x_out[-1]]) and the separate deepest feature. *)
Theorem backbone_skip_list_indices {T} {B : Backend T} st training fs name children
    inputs pool m1 m2 m3 m4 (x : T) g (x_out : list T) (e_out : T) g' :
  layer_children children
  = [("layer1", m1); ("layer2", m2); ("layer3", m3); ("layer4", m4)] ->
  EncoderBlocks_forward st training (EncoderBackbone fs name children inputs pool) x g
  = Ok ((x_out, e_out), g') ->
  length x_out = 5
  /\ py_index x_out (-1) = Ok e_out
  /\ exists stem g1 p g2 o1 g3 o2 g4 o3 g5,
       Sequential_forward st training inputs x g = Ok (stem, g1)
       /\ apply st training pool stem g1 = Ok (p, g2)
       /\ apply st training m1 p g2 = Ok (o1, g3)
       /\ apply st training m2 o1 g3 = Ok (o2, g4)
       /\ apply st training m3 o2 g4 = Ok (o3, g5)
       /\ apply st training m4 o3 g5 = Ok (e_out, g')
       /\ x_out !! 0 = Some stem /\ x_out !! 1 = Some o1 /\ x_out !! 2 = Some o2
       /\ x_out !! 3 = Some o3 /\ x_out !! 4 = Some e_out.
Proof.
  intros Hl H.
  apply (backbone_forward_spec st training fs name children inputs pool
           m1 m2 m3 m4 x g x_out e_out g' Hl) in H
    as (stem & g1 & p & g2 & o1 & g3 & o2 & g4 & o3 & g5 & o4
        & H0 & H1 & H2 & H3 & H4 & H5 & -> & ->).
  split; [reflexivity|]. split; [reflexivity|].
  exists stem, g1, p, g2, o1, g3, o2, g4, o3, g5. repeat split; assumption.
Qed.

Lemma backbone_skip_list_indices_witness :
  exists x_out e_out,
    length x_out = 5 /\ py_index x_out (-1) = Ok e_out
    /\ e_out = Shape 1 512 2 2 /\ x_out !! 0 = Some (Shape 1 64 32 32).
Proof.
  destruct (backbone_skip_list_indices (B := shape_backend (toy_ext 3 [64; 64; 128; 256; 512]))
              [] true UNet_filters "resnet18"
              [("conv1", External 0 [0]); ("bn1", External 1 [1; 2]);
               ("relu", External 2 []); ("pool", External 3 []);
               ("layer1", External 4 [3; 4; 5]); ("layer2", External 5 [6; 7; 8]);
               ("layer3", External 6 [9; 10; 11]); ("layer4", External 7 [12; 13; 14]);
               ("avgpool", External 8 []); ("fc", External 9 [15; 16])]
              [External 0 [0]; External 1 [1; 2]; External 2 []] (External 3 [])
              (External 4 [3; 4; 5]) (External 5 [6; 7; 8]) (External 6 [9; 10; 11])
              (External 7 [12; 13; 14])
              (Shape 1 3 64 64) tt
              [Shape 1 64 32 32; Shape 1 64 16 16; Shape 1 128 8 8; Shape 1 256 4 4;
               Shape 1 512 2 2]
              (Shape 1 512 2 2) tt eq_refl eq_refl)
    as (H1 & H2 & stem & g1 & p & g2 & o1 & g3 & o2 & g4 & o3 & g5 & H).
  eexists _, _. split; [exact H1|]. split; [exact H2|]. split; reflexivity.
Defined.

(** ** The backbone U-Net, end to end *)

Lemma instantiate_names cs s enc s' :
  instantiate cs s = Ok (enc, s') -> map fst enc = map ec_name cs.
Proof.
  unfold instantiate. revert s enc s'.
  induction cs as [|c cs IH]; intros s enc s' H.
  - injection H as <- <-. reflexivity.
  - cbn [mapM] in H. monad_inv H. cbn. f_equal. eapply IH. eassumption.
Qed.

Lemma layer_children_none (l : list (string * leaf)) :
  forallb (fun nm => negb (name_in nm backbone_layers)) (map fst l) = true ->
  layer_children l = [].
Proof.
  induction l as [|[nm m] l IH]; [reflexivity|].
  cbn [map forallb fst]. intros H. apply andb_prop in H as [H1 H2].
  unfold layer_children. cbn [List.filter fst].
  apply negb_true_iff in H1. rewrite H1. apply IH, H2.
Qed.

Lemma skip5 {A} (a b c d e : A) :
  py_index [a; b; c; d; e] (-1 - Z.of_nat 0) = Ok e /\
  py_index [a; b; c; d; e] (-1 - Z.of_nat 1) = Ok d /\
  py_index [a; b; c; d; e] (-1 - Z.of_nat 2) = Ok c /\
  py_index [a; b; c; d; e] (-1 - Z.of_nat 3) = Ok b /\
  py_index [a; b; c; d; e] (-1 - Z.of_nat 4) = Ok a.
Proof. repeat split; reflexivity. Qed.

Ltac fnorm := repeat first [rewrite bindF_assoc | rewrite liftF_bind | rewrite retF_bind].

Section BackboneShape.

Variable ext : nat -> shape -> result shape.
Variable st : store.
Variable training : bool.

#[local] Instance SB' : Backend shape := shape_backend ext.

Lemma stage_apply tag ls cin cout n h w :
  stage_contract ext tag cin cout 2 -> 1 <= h -> 1 <= w ->
  apply st training (External tag ls) (Shape n cin (2 * h) (2 * w)) tt
  = Ok (Shape n cout h w, tt).
Proof.
  intros H Hh Hw. cbn [apply liftF layer SB' shape_backend shape_layer].
  rewrite (H n h w Hh Hw). reflexivity.
Qed.

Lemma stage1_apply tag ls cin cout n h w :
  stage_contract ext tag cin cout 1 -> 1 <= h -> 1 <= w ->
  apply st training (External tag ls) (Shape n cin h w) tt = Ok (Shape n cout h w, tt).
Proof.
  intros H Hh Hw. cbn [apply liftF layer SB' shape_backend shape_layer].
  specialize (H n h w Hh Hw). rewrite !Nat.mul_1_l in H. rewrite H. reflexivity.
Qed.

Lemma DecoderBlock_shape_up cin cout cup cskip bias norm dropout s b s' n h w :
  DecoderBlock_init cin cout 3 bias norm dropout (Some cup) (Some cup) s = Ok (b, s') ->
  cskip + cup = cin ->
  1 <= h -> 1 <= w ->
  DecoderBlock_forward st training b (Shape n cup h w) (Shape n cskip (2 * h) (2 * w)) tt
  = Ok (Shape n cout (2 * h) (2 * w), tt).
Proof.
  unfold DecoderBlock_init. cbn [default]. intros H <- Hh Hw. monad_inv H.
  unfold new_ConvTranspose2d in Hm. monad_inv Hm.
  unfold DecoderBlock_forward. cbn [db_trans db_conv db_drop].
  rewrite (bindF_Ok _ _ _ _ _ (trans_shape ext st training cup cup _ _ n h w Hh Hw)).
  cbn [cat SB' shape_backend shape_cat]. rewrite !Nat.eqb_refl. cbn [andb].
  rewrite (bindF_Ok _ _ tt (Shape n (cskip + cup) (2 * h) (2 * w)) tt eq_refl).
  rewrite (bindF_Ok _ _ _ _ _
            (DoubleConv2d_shape ext st training _ _ _ _ _ _ _ n (2 * h) (2 * w) Hm0
               ltac:(lia) ltac:(lia))).
  cbn [apply]. rewrite (bindF_Ok _ _ _ _ _ (dropout_shape ext training _ _ tt)).
  reflexivity.
Qed.

End BackboneShape.

Lemma backbone_forward_pow2 provider ext name ctor C N bias norm dropout pretrained
    freeze_grad init_weights s0 u s st training n h w :
  backbones provider name = Ok (ctor, UNet_filters) ->
  resnet_contract ext (ctor C pretrained) C 64 64 128 256 512 ->
  UNet_init provider C N (Some name) pretrained freeze_grad 3 bias norm dropout
            init_weights s0 = Ok (u, s) ->
  0 < h -> 0 < w ->
  exists x_out,
    run (EncoderBlocks_forward (B := shape_backend ext) st training (unet_encoder u)
           (Shape n C (2 * (2 * (2 * (2 * (2 * (2 * h))))))
                      (2 * (2 * (2 * (2 * (2 * (2 * w)))))))) tt
    = Ok (x_out, Shape n 512 (2 * h) (2 * w))
    /\ run (DoubleConv2d_forward (B := shape_backend ext) st training (unet_center u)
              (Shape n 512 (2 * h) (2 * w))) tt
       = Ok (Shape n 1024 (2 * h) (2 * w))
    /\ run (UNet_forward (B := shape_backend ext) st training u
              (Shape n C (2 * (2 * (2 * (2 * (2 * (2 * h))))))
                         (2 * (2 * (2 * (2 * (2 * (2 * w)))))))) tt
       = Ok (Shape n N (2 * (2 * (2 * (2 * (2 * (2 * h))))))
                       (2 * (2 * (2 * (2 * (2 * (2 * w))))))).
Proof.
  intros Hb [Hnames Hrest Hc0 Hc1 Hc2 Hc3 Hc4 Hc5 Hc6 Hc7] H Hh Hw.
  unfold UNet_init in H. monad_inv H.
  match goal with H : (if init_weights then _ else _) _ = _ |- _ => clear H end.
  match goal with H : UNet_build _ _ _ _ _ _ _ _ _ _ _ = _ |- _ =>
    unfold UNet_build in H; monad_inv H end.
  match goal with H : EncoderBlocks_init _ _ _ _ _ _ _ _ _ _ _ = _ |- _ =>
    cbn [EncoderBlocks_init] in H; monad_inv H end.
  match goal with H : backbones provider name = Ok ?a |- _ =>
    rewrite Hb in H; injection H as <- end.
  match goal with H : (if freeze_grad then _ else _) _ = _ |- _ => clear H end.
  cbn [fst snd enc_filters unet_encoder unet_center] in *. index_inv.
  set (cs := ctor C pretrained) in *. clearbody cs.
  destruct cs as [|c0 [|c1 [|c2 [|c3 [|c4 [|c5 [|c6 [|c7 rest]]]]]]]];
    try discriminate Hnames.
  destruct c0 as [nm0 t0 ps0], c1 as [nm1 t1 ps1], c2 as [nm2 t2 ps2],
           c3 as [nm3 t3 ps3], c4 as [nm4 t4 ps4], c5 as [nm5 t5 ps5],
           c6 as [nm6 t6 ps6], c7 as [nm7 t7 ps7].
  cbn [map take drop ec_name] in Hnames, Hrest.
  injection Hnames as N0 N1 N2 N3 N4 N5 N6 N7.
  cbn [tag_of map nth ec_tag] in Hc0, Hc1, Hc2, Hc3, Hc4, Hc5, Hc6, Hc7.
  match goal with H : instantiate _ _ = _ |- _ =>
    unfold instantiate in H; cbn [mapM ec_name ec_tag ec_params] in H; monad_inv H end.
  match goal with H : mapM _ rest _ = Ok (?r, _) |- _ =>
    apply instantiate_names in H; rename r into rest_enc; rename H into Hren end.
  subst.
  repeat match goal with
         | E : getattr _ _ = Ok _ |- _ =>
             vm_compute in E; injection E as <-
         end.
  match goal with
  | |- context [EncoderBackbone _ _ (?k0 :: ?k1 :: ?k2 :: ?k3 :: ?k4 :: ?k5 :: ?k6
                                     :: ?k7 :: rest_enc) _ _] =>
      assert (Hl : layer_children (k0 :: k1 :: k2 :: k3 :: k4 :: k5 :: k6 :: k7 :: rest_enc)
                   = [k4; k5; k6; k7])
  end.
  { unfold layer_children. cbn [List.filter fst].
    change (name_in "conv1" backbone_layers) with false.
    change (name_in "bn1" backbone_layers) with false.
    change (name_in "relu" backbone_layers) with false.
    change (name_in "pool" backbone_layers) with false.
    change (name_in "layer1" backbone_layers) with true.
    change (name_in "layer2" backbone_layers) with true.
    change (name_in "layer3" backbone_layers) with true.
    change (name_in "layer4" backbone_layers) with true.
    cbn iota. do 4 f_equal.
    apply layer_children_none. rewrite Hren. exact Hrest. }
  pose (x1 := Shape n 64 (2 * (2 * (2 * (2 * (2 * h))))) (2 * (2 * (2 * (2 * (2 * w)))))).
  pose (x2 := Shape n 64 (2 * (2 * (2 * (2 * h)))) (2 * (2 * (2 * (2 * w))))).
  pose (x3 := Shape n 128 (2 * (2 * (2 * h))) (2 * (2 * (2 * w)))).
  pose (x4 := Shape n 256 (2 * (2 * h)) (2 * (2 * w))).
  pose (x5 := Shape n 512 (2 * h) (2 * w)).
  match goal with
  | |- context [EncoderBlocks_forward _ _ ?e ?x] =>
      assert (Henc : EncoderBlocks_forward (B := shape_backend ext) st training e x tt
                     = Ok (([x1; x2; x3; x4; x5], x5), tt))
  end.
  { match goal with
    | |- EncoderBlocks_forward _ _ (EncoderBackbone ?fs ?nm ?ch ?inp ?pl) _ _ = _ =>
        apply (proj2 (backbone_forward_spec (B := shape_backend ext) st training
                        fs nm ch inp pl _ _ _ _ _ _ _ _ _ Hl))
    end.
    exists x1, tt, x2, tt, x2, tt, x3, tt, x4, tt, x5. subst x1 x2 x3 x4 x5.
    split.
    { cbn [Sequential_forward].
      rewrite (bindF_Ok _ _ _ _ _ (stage_apply ext st training _ _ _ _ n (2 * (2 * (2 * (2 * (2 * h))))) (2 * (2 * (2 * (2 * (2 * w)))))
                                     Hc0 ltac:(lia) ltac:(lia))).
      rewrite (bindF_Ok _ _ _ _ _ (stage1_apply ext st training _ _ _ _ n (2 * (2 * (2 * (2 * (2 * h))))) (2 * (2 * (2 * (2 * (2 * w)))))
                                     Hc1 ltac:(lia) ltac:(lia))).
      rewrite (bindF_Ok _ _ _ _ _ (stage1_apply ext st training _ _ _ _ n (2 * (2 * (2 * (2 * (2 * h))))) (2 * (2 * (2 * (2 * (2 * w)))))
                                     Hc2 ltac:(lia) ltac:(lia))).
      reflexivity. }
    split; [apply (stage_apply ext st training _ _ _ _ n (2 * (2 * (2 * (2 * h)))) (2 * (2 * (2 * (2 * w)))) Hc3); lia|].
    split; [apply (stage1_apply ext st training _ _ _ _ n (2 * (2 * (2 * (2 * h)))) (2 * (2 * (2 * (2 * w)))) Hc4); lia|].
    split; [apply (stage_apply ext st training _ _ _ _ n (2 * (2 * (2 * h))) (2 * (2 * (2 * w))) Hc5); lia|].
    split; [apply (stage_apply ext st training _ _ _ _ n (2 * (2 * h)) (2 * (2 * w)) Hc6); lia|].
    split; [apply (stage_apply ext st training _ _ _ _ n (2 * h) (2 * w) Hc7); lia|].
    split; reflexivity. }
  assert (Hcen : DoubleConv2d_forward (B := shape_backend ext) st training a4 x5 tt
                 = Ok (Shape n 1024 (2 * h) (2 * w), tt)).
  { eapply DoubleConv2d_shape; [eassumption|lia|lia]. }
  exists [x1; x2; x3; x4; x5]. subst x1 x2 x3 x4 x5.
  split; [unfold run; rewrite Henc; reflexivity|].
  split; [unfold run; rewrite Hcen; reflexivity|].
  unfold run, UNet_forward. cbn [unet_encoder unet_center unet_decoder unet_out].
  rewrite (bindF_Ok _ _ _ _ _ Henc). cbn [fst snd].
  rewrite (bindF_Ok _ _ _ _ _ Hcen).
  match goal with H : DecoderBlocks_init _ _ _ _ _ _ _ = _ |- _ =>
    unfold DecoderBlocks_init in H;
    change (length UNet_filters - 1) with 4 in H; cbn [seq mapM] in H;
    monad_inv H end.
  index_inv.
  repeat match goal with
         | H : new_ConvTranspose2d _ _ _ _ _ _ = _ |- _ =>
             unfold new_ConvTranspose2d in H; monad_inv H
         | H : new_Conv2d _ _ 1 _ _ _ _ = _ |- _ =>
             unfold new_Conv2d in H; monad_inv H
         end.
  unfold DecoderBlocks_forward.
  cbn [dec_backbone dec_pool dec_decoder decoder_loop app].
  match goal with
  | |- context [py_index [?a; ?b; ?c; ?d; ?e] _] =>
      destruct (skip5 a b c d e) as (I0 & I1 & I2 & I3 & I4)
  end.
  rewrite I0, I1, I2, I3, I4. clear I0 I1 I2 I3 I4.
  rewrite !(bool_decide_eq_false_2 (Some name = None)) by discriminate.
  fwd (pool_shape ext st training n 1024 h w ltac:(lia) ltac:(lia)).
  fnorm.
  match goal with H : DecoderBlock_init 1024 512 _ _ _ _ _ _ _ = _ |- _ =>
    fwd (DecoderBlock_shape ext st training _ _ 512 _ _ _ _ _ _ n h w H eq_refl
           ltac:(lia) ltac:(lia)) end.
  fnorm.
  match goal with H : DecoderBlock_init 512 256 _ _ _ _ _ _ _ = _ |- _ =>
    fwd (DecoderBlock_shape ext st training _ _ 256 _ _ _ _ _ _ n (2 * h) (2 * w) H eq_refl
           ltac:(lia) ltac:(lia)) end.
  fnorm.
  match goal with H : DecoderBlock_init 256 128 _ _ _ _ _ _ _ = _ |- _ =>
    fwd (DecoderBlock_shape ext st training _ _ 128 _ _ _ _ _ _ n (2 * (2 * h)) (2 * (2 * w)) H eq_refl
           ltac:(lia) ltac:(lia)) end.
  fnorm.
  match goal with H : DecoderBlock_init 128 64 _ _ _ _ None None _ = _ |- _ =>
    fwd (DecoderBlock_shape ext st training _ _ 64 _ _ _ _ _ _ n (2 * (2 * (2 * h))) (2 * (2 * (2 * w))) H eq_refl
           ltac:(lia) ltac:(lia)) end.
  fnorm.
  match goal with H : DecoderBlock_init 128 64 _ _ _ _ (Some _) (Some _) _ = _ |- _ =>
    fwd (DecoderBlock_shape_up ext st training _ _ 64 64 _ _ _ _ _ _ n (2 * (2 * (2 * (2 * h)))) (2 * (2 * (2 * (2 * w)))) H eq_refl
           ltac:(lia) ltac:(lia)) end.
  fnorm.
  cbn [Sequential_forward].
  match goal with |- context [ConvTranspose2d 64 64 2 2 ?wt ?b] =>
    fwd (trans_shape ext st training 64 64 wt b n (2 * (2 * (2 * (2 * (2 * h))))) (2 * (2 * (2 * (2 * (2 * w))))) ltac:(lia) ltac:(lia)) end.
  match goal with |- context [Conv2d 64 N 1 1 0 ?wt ?b] =>
    fwd (conv1_shape ext st training 64 N wt b n (2 * (2 * (2 * (2 * (2 * (2 * h)))))) (2 * (2 * (2 * (2 * (2 * (2 * w)))))) ltac:(lia) ltac:(lia)) end.
  reflexivity.
Qed.

Lemma toy_contract C w0 w1 w2 w3 w4 pretrained :
  resnet_contract (toy_ext C [w0; w1; w2; w3; w4]) (toy_children C pretrained)
                  C w0 w1 w2 w3 w4.
Proof.
  assert (H2 : forall cin cout n h w, 1 <= h -> 1 <= w ->
            toy_stage cin cout 2 (Shape n cin (2 * h) (2 * w)) = Ok (Shape n cout h w)).
  { intros cin cout n h w Hh Hw. unfold toy_stage. rewrite Nat.eqb_refl.
    replace (2 <=? 2 * h) with true by (symmetry; apply Nat.leb_le; lia).
    replace (2 <=? 2 * w) with true by (symmetry; apply Nat.leb_le; lia).
    cbn [andb]. rewrite !(Nat.mul_comm 2), !Nat.div_mul by discriminate.
    reflexivity. }
  assert (H1 : forall cin cout n h w, 1 <= h -> 1 <= w ->
            toy_stage cin cout 1 (Shape n cin (1 * h) (1 * w)) = Ok (Shape n cout h w)).
  { intros cin cout n h w Hh Hw. unfold toy_stage. rewrite Nat.eqb_refl, !Nat.mul_1_l.
    replace (1 <=? h) with true by (symmetry; apply Nat.leb_le; lia).
    replace (1 <=? w) with true by (symmetry; apply Nat.leb_le; lia).
    cbn [andb]. rewrite !Nat.div_1_r. reflexivity. }
  constructor; try reflexivity; intros n h w Hh Hw;
    cbn [tag_of toy_children map nth ec_tag toy_ext]; auto.
Qed.




(** ** Writes to the store *)

Lemma write_length s lv : length (write s lv) = length s.
Proof. apply length_alter. Qed.

Lemma apply_writes_length W s : length (apply_writes W s) = length s.
Proof.
  revert s. induction W as [|lv W IH]; intros s; [reflexivity|].
  cbn. rewrite IH. apply write_length.
Qed.

Lemma write_lookup_ne s lv l : fst lv <> l -> write s lv !! l = s !! l.
Proof. intros H. unfold write. apply list_lookup_alter_ne, H. Qed.

Lemma write_lookup_eq s l v :
  data <$> write s (l, v) !! l = (fun _ => v) <$> s !! l.
Proof.
  unfold write. cbn [fst snd]. rewrite list_lookup_alter_eq.
  destruct (s !! l); reflexivity.
Qed.

Lemma write_requires_grad s lv l :
  requires_grad <$> write s lv !! l = requires_grad <$> s !! l.
Proof.
  destruct (decide (fst lv = l)) as [<-|Hne].
  - unfold write. rewrite list_lookup_alter_eq. destruct (s !! fst lv); reflexivity.
  - rewrite write_lookup_ne by exact Hne. reflexivity.
Qed.

Lemma apply_writes_requires_grad W s l :
  requires_grad <$> apply_writes W s !! l = requires_grad <$> s !! l.
Proof.
  revert s. induction W as [|lv W IH]; intros s; [reflexivity|].
  cbn. rewrite IH. apply write_requires_grad.
Qed.

Lemma apply_writes_notin W s l :
  ~ In l (map fst W) -> apply_writes W s !! l = s !! l.
Proof.
  revert s. induction W as [|lv W IH]; intros s H; [reflexivity|].
  cbn in *. rewrite IH by tauto. apply write_lookup_ne. tauto.
Qed.

Lemma apply_writes_in W s l v :
  functional W -> In (l, v) W -> l < length s ->
  data <$> apply_writes W s !! l = Some v.
Proof.
  intros HF HI Hl.
  assert (G : forall W' s',
             (forall v', In (l, v') W' -> v' = v) ->
             length s' = length s ->
             In (l, v) W' \/ data <$> s' !! l = Some v ->
             data <$> apply_writes W' s' !! l = Some v).
  { induction W' as [|[l1 v1] W' IH]; intros s' Hv Hlen Hor.
    - destruct Hor as [[]|H]. exact H.
    - cbn [apply_writes fold_left]. apply IH.
      + intros v' Hv'. apply Hv. right. exact Hv'.
      + rewrite write_length. exact Hlen.
      + destruct (decide (l1 = l)) as [->|Hne].
        * right. rewrite write_lookup_eq.
          assert (v1 = v) as -> by (apply Hv; left; reflexivity).
          destruct (lookup_lt_is_Some_2 s' l ltac:(lia)) as [p ->]. reflexivity.
        * destruct Hor as [[E|H]|H].
          -- injection E as -> ->. contradiction.
          -- left. exact H.
          -- right. rewrite write_lookup_ne by exact Hne. exact H. }
  apply G; [|reflexivity|left; exact HI].
  intros v' Hv'. symmetry. eapply HF; eassumption.
Qed.

(** ** The initialisation pass as a list of writes *)

Lemma set_data_write l v s : set_data l v s = Ok (tt, write s (l, v)).
Proof. reflexivity. Qed.

Lemma init_module_writes m s r s' :
  init_module m s = Ok (r, s') -> s' = apply_writes (writes_of m) s.
Proof.
  destruct r. unfold init_module, writes_of. intros H.
  apply bindM_Ok in H as ([] & s1 & H1 & H2).
  assert (E1 : s1 = apply_writes
                      match isinstance_Conv2d m with
                      | Some (w, b) =>
                          (w, kaiming_normal fan_out relu)
                          :: match b with Some b => [(b, constant 0)] | None => [] end
                      | None => []
                      end s).
  { destruct (isinstance_Conv2d m) as [[w [b|]]|].
    - apply bindM_Ok in H1 as ([] & s2 & H3 & H4).
      rewrite set_data_write in H3, H4. injection H3 as <-. injection H4 as <-.
      reflexivity.
    - apply bindM_Ok in H1 as ([] & s2 & H3 & H4).
      rewrite set_data_write in H3. injection H3 as <-. injection H4 as <-.
      reflexivity.
    - injection H1 as <-. reflexivity. }
  subst s1. unfold apply_writes. rewrite fold_left_app. fold (apply_writes).
  destruct (isinstance_norm m) as [[[w|] [b|]]|]; cbn in H2; try discriminate.
  - injection H2 as H2. subst s'. reflexivity.
  - injection H2 as H2. subst s'. reflexivity.
Qed.

Lemma forM_init_writes ms s r s' :
  forM_ ms init_module s = Ok (r, s') ->
  s' = apply_writes (flat_map writes_of ms) s.
Proof.
  destruct r. revert s. induction ms as [|m ms IH]; intros s H.
  - injection H as <-. reflexivity.
  - cbn [forM_] in H. apply bindM_Ok in H as ([] & s1 & H1 & H2).
    apply init_module_writes in H1. apply IH in H2. subst.
    cbn [flat_map]. unfold apply_writes. rewrite fold_left_app. reflexivity.
Qed.

Lemma init_pass_writes targets s r s' :
  init_pass targets s = Ok (r, s') ->
  s' = apply_writes (flat_map (fun t => flat_map writes_of (modules t)) targets) s.
Proof.
  destruct r. unfold init_pass. revert s. induction targets as [|t ts IH]; intros s H.
  - injection H as <-. reflexivity.
  - cbn [forM_] in H. apply bindM_Ok in H as ([] & s1 & H1 & H2).
    apply forM_init_writes in H1. apply IH in H2. subst.
    cbn [flat_map]. unfold apply_writes. rewrite fold_left_app. reflexivity.
Qed.

(** ** Constructors only allocate *)

Lemma allocates_nil (s : list param) (p : list loc) :
  p = [] ->
  exists ext, s = s ++ ext /\ p = seq (length s) (length ext)
              /\ Forall (fun p => requires_grad p = true) ext.
Proof. intros ->. exists []. rewrite app_nil_r. repeat split. constructor. Qed.

(** Two allocations in a row. *)
Lemma allocates_app (s : list param) e1 e2 (p1 p2 : list loc) :
  p1 = seq (length s) (length e1) ->
  p2 = seq (length (s ++ e1)) (length e2) ->
  Forall (fun p => requires_grad p = true) e1 ->
  Forall (fun p => requires_grad p = true) e2 ->
  (s ++ e1) ++ e2 = s ++ (e1 ++ e2)
  /\ p1 ++ p2 = seq (length s) (length (e1 ++ e2))
  /\ Forall (fun p => requires_grad p = true) (e1 ++ e2).
Proof.
  intros -> -> H1 H2. split; [symmetry; apply app_assoc|]. split.
  - rewrite !length_app, seq_app. reflexivity.
  - apply Forall_app_2; assumption.
Qed.

Lemma allocates_bind {A B} (pA : A -> list loc) (pB pC : B -> list loc)
    (m : M A) (k : A -> M B) :
  allocates pA m ->
  (forall a, allocates pB (k a)) ->
  (forall s a s1 b s', m s = Ok (a, s1) -> k a s1 = Ok (b, s') -> pC b = pA a ++ pB b) ->
  allocates pC (bindM m k).
Proof.
  intros Hm Hk Hp s b s' H.
  apply bindM_Ok in H as (a & s1 & H1 & H2).
  rewrite (Hp _ _ _ _ _ H1 H2).
  apply Hm in H1 as (e1 & -> & P1 & F1).
  apply Hk in H2 as (e2 & -> & P2 & F2).
  exists (e1 ++ e2). apply allocates_app; assumption.
Qed.

Lemma allocates_ret {A} (params : A -> list loc) (a : A) :
  params a = [] -> allocates params (retM a).
Proof.
  intros Hp s a' s' H. injection H as <- <-. apply allocates_nil, Hp.
Qed.

Lemma allocates_new_param v : allocates (fun l => [l]) (new_param v).
Proof.
  intros s l s' H. injection H as <- <-.
  exists [{| data := v; requires_grad := true |}]. repeat split.
  constructor; [reflexivity|constructor].
Qed.

Lemma allocates_new_param_if b v : allocates option_list (new_param_if b v).
Proof.
  destruct b; cbn [new_param_if].
  - eapply allocates_bind; [apply allocates_new_param| |].
    + intros l. apply (allocates_ret (fun _ => [])). reflexivity.
    + intros s a s1 b s' _ H. injection H as <- <-. reflexivity.
  - apply allocates_ret. reflexivity.
Qed.

Lemma module_parameters_Leaf l : module_parameters (Leaf l) = leaf_parameters l.
Proof. unfold module_parameters. cbn. apply app_nil_r. Qed.

Lemma module_parameters_Container cs :
  module_parameters (Container cs) = flat_map module_parameters cs.
Proof.
  unfold module_parameters. cbn [leaves].
  induction cs as [|c cs IH]; [reflexivity|].
  cbn [flat_map]. rewrite flat_map_app, IH. reflexivity.
Qed.

Lemma module_parameters_Sequential ls :
  module_parameters (Sequential_module ls) = flat_map leaf_parameters ls.
Proof.
  unfold Sequential_module. rewrite module_parameters_Container.
  induction ls as [|l ls IH]; [reflexivity|].
  cbn [map flat_map]. rewrite module_parameters_Leaf, IH. reflexivity.
Qed.

Lemma module_parameters_map {A} (f : A -> module) (l : list A) :
  module_parameters (Container (map f l)) = flat_map (fun a => module_parameters (f a)) l.
Proof.
  rewrite module_parameters_Container.
  induction l as [|a l IH]; [reflexivity|]. cbn [map flat_map]. rewrite IH. reflexivity.
Qed.

Ltac alloc_hyps :=
  repeat match goal with
         | H : new_param _ _ = Ok _ |- _ =>
             apply allocates_new_param in H as (? & -> & ? & ?)
         | H : new_param_if _ _ _ = Ok _ |- _ =>
             apply allocates_new_param_if in H as (? & -> & ? & ?)
         end.

Ltac alloc_finish :=
  split; [rewrite <- ?app_assoc; reflexivity|]; split;
  [ rewrite ?length_app, ?seq_app;
    repeat match goal with
           | P : _ = seq _ _ |- _ => rewrite ?length_app in P; rewrite <- P; clear P
           end;
    rewrite <- ?app_assoc, ?app_nil_r; reflexivity
  | repeat apply Forall_app_2; first [assumption | constructor] ].

Ltac alloc_close := eexists; alloc_finish.

Lemma allocates_new_Conv2d cin cout k stride padding bias :
  allocates leaf_parameters (new_Conv2d cin cout k stride padding bias).
Proof.
  intros s a s' H. unfold new_Conv2d in H. monad_inv H. alloc_hyps. alloc_close.
Qed.

Lemma allocates_new_ConvTranspose2d cin cout k stride bias :
  allocates leaf_parameters (new_ConvTranspose2d cin cout k stride bias).
Proof.
  intros s a s' H. unfold new_ConvTranspose2d in H. monad_inv H. alloc_hyps. alloc_close.
Qed.

Lemma allocates_new_norm n c : allocates leaf_parameters (new_norm n c).
Proof.
  intros s a s' H. destruct n as [|affine|g]; cbn [new_norm] in H.
  - monad_inv H. alloc_hyps. alloc_close.
  - monad_inv H. alloc_hyps. alloc_close.
  - destruct (_ && _); [|discriminate]. monad_inv H. alloc_hyps. alloc_close.
Qed.

Ltac alloc_leaves :=
  repeat match goal with
         | H : new_Conv2d _ _ _ _ _ _ _ = Ok _ |- _ =>
             apply allocates_new_Conv2d in H as (? & -> & ? & ?)
         | H : new_ConvTranspose2d _ _ _ _ _ _ = Ok _ |- _ =>
             apply allocates_new_ConvTranspose2d in H as (? & -> & ? & ?)
         | H : new_norm _ _ _ = Ok _ |- _ =>
             apply allocates_new_norm in H as (? & -> & ? & ?)
         end.

Lemma allocates_DoubleConv2d cin cout k bias norm :
  allocates (fun d => module_parameters (DoubleConv2d_module d))
            (DoubleConv2d_init cin cout k bias norm).
Proof.
  intros s a s' H. unfold DoubleConv2d_init in H. monad_inv H. alloc_leaves.
  unfold DoubleConv2d_module.
  rewrite module_parameters_Container. cbn [flat_map dc_layer].
  rewrite module_parameters_Sequential. cbn [flat_map leaf_parameters].
  rewrite ?app_nil_r, ?app_nil_l.
  alloc_close.
Qed.

Ltac alloc_blocks :=
  repeat match goal with
         | H : DoubleConv2d_init _ _ _ _ _ _ = Ok _ |- _ =>
             apply allocates_DoubleConv2d in H as (? & -> & ? & ?)
         end;
  alloc_leaves.

Lemma allocates_EncoderBlock cin cout k bias norm dropout :
  allocates (fun b => module_parameters (EncoderBlock_module b))
            (EncoderBlock_init cin cout k bias norm dropout).
Proof.
  intros s a s' H. unfold EncoderBlock_init in H. monad_inv H. alloc_blocks.
  unfold EncoderBlock_module. rewrite module_parameters_Container.
  cbn [flat_map eb_conv eb_pool eb_drop]. rewrite !module_parameters_Leaf.
  cbn [leaf_parameters]. rewrite ?app_nil_r.
  alloc_close.
Qed.

Lemma allocates_DecoderBlock cin cout k bias norm dropout ui uo :
  allocates (fun b => module_parameters (DecoderBlock_module b))
            (DecoderBlock_init cin cout k bias norm dropout ui uo).
Proof.
  intros s a s' H. unfold DecoderBlock_init in H. monad_inv H. alloc_blocks.
  unfold DecoderBlock_module. rewrite module_parameters_Container.
  cbn [flat_map db_trans db_conv db_drop]. rewrite !module_parameters_Leaf.
  cbn [leaf_parameters]. rewrite ?app_nil_r.
  alloc_close.
Qed.

Lemma allocates_encoder_loop cin fs k bias norm dropout :
  allocates (flat_map (fun b => module_parameters (EncoderBlock_module b)))
            (encoder_loop cin fs k bias norm dropout).
Proof.
  revert cin. induction fs as [|f fs IH]; intros cin s a s' H.
  - injection H as <- <-. apply allocates_nil. reflexivity.
  - cbn [encoder_loop] in H. monad_inv H.
    match goal with H : EncoderBlock_init _ _ _ _ _ _ _ = Ok _ |- _ =>
      apply allocates_EncoderBlock in H as (? & -> & ? & ?) end.
    match goal with H : encoder_loop _ _ _ _ _ _ _ = Ok _ |- _ =>
      apply IH in H as (? & -> & ? & ?) end.
    cbn [flat_map]. alloc_close.
Qed.

Lemma allocates_mapM {A B} (f : A -> M B) (pB : B -> list loc) (l : list A) :
  (forall a, allocates pB (f a)) -> allocates (flat_map pB) (mapM f l).
Proof.
  intros Hf. induction l as [|x l IH]; intros s a s' H.
  - injection H as <- <-. apply allocates_nil. reflexivity.
  - cbn [mapM] in H. monad_inv H.
    match goal with H : f _ _ = Ok _ |- _ => apply Hf in H as (? & -> & ? & ?) end.
    match goal with H : mapM _ _ _ = Ok _ |- _ => apply IH in H as (? & -> & ? & ?) end.
    cbn [flat_map]. alloc_close.
Qed.

Lemma allocates_DecoderBlocks filters backbone k bias norm dropout :
  allocates (fun d => module_parameters (DecoderBlocks_module d))
            (DecoderBlocks_init filters backbone k bias norm dropout).
Proof.
  intros s a s' H. unfold DecoderBlocks_init in H.
  apply bindM_Ok in H as (decoder & s1 & H1 & H).
  apply bindM_Ok in H as (extra & s2 & H2 & H). injection H as <- <-.
  eapply (allocates_mapM _ (fun b => module_parameters (DecoderBlock_module b))) in H1
    as (e1 & -> & P1 & F1).
  2:{ intros i s0 b s0' Hb. monad_inv Hb.
      eapply allocates_DecoderBlock. eassumption. }
  assert (H3 : exists e2, s2 = (s ++ e1) ++ e2
                 /\ flat_map (fun b => module_parameters (DecoderBlock_module b)) extra
                    = seq (length (s ++ e1)) (length e2)
                 /\ Forall (fun p => requires_grad p = true) e2).
  { destruct backbone.
    - monad_inv H2.
      match goal with H : DecoderBlock_init _ _ _ _ _ _ _ _ _ = Ok _ |- _ =>
        apply allocates_DecoderBlock in H as (? & -> & ? & ?) end.
      cbn [flat_map]. rewrite app_nil_r. eauto.
    - injection H2 as <- <-. apply allocates_nil. reflexivity. }
  destruct H3 as (e2 & -> & P2 & F2).
  unfold DecoderBlocks_module. rewrite module_parameters_Container.
  cbn [flat_map dec_pool dec_decoder]. rewrite module_parameters_Leaf, module_parameters_map.
  cbn [leaf_parameters]. rewrite flat_map_app, ?app_nil_r, ?app_nil_l.
  alloc_close.
Qed.

Lemma allocates_UNet_plain provider C N pretrained freeze_grad k bias norm dropout :
  allocates (fun u => module_parameters (UNet_module u))
            (UNet_build provider C N None pretrained freeze_grad k bias norm dropout).
Proof.
  intros s a s' H. unfold UNet_build in H. monad_inv H.
  match goal with H : EncoderBlocks_init _ _ _ _ _ _ _ _ _ _ _ = Ok _ |- _ =>
    cbn [EncoderBlocks_init] in H; monad_inv H end.
  match goal with H : encoder_loop _ _ _ _ _ _ _ = Ok _ |- _ =>
    apply allocates_encoder_loop in H as (? & -> & ? & ?) end.
  match goal with H : DecoderBlocks_init _ _ _ _ _ _ _ = Ok _ |- _ =>
    apply allocates_DecoderBlocks in H as (? & -> & ? & ?) end.
  alloc_blocks.
  unfold UNet_module. rewrite module_parameters_Container.
  cbn [flat_map unet_encoder unet_center unet_decoder unet_out EncoderBlocks_module].
  rewrite module_parameters_Sequential, !module_parameters_Container.
  cbn [flat_map]. rewrite module_parameters_map. rewrite ?app_nil_r.
  alloc_close.
Qed.

(** ** Walking the module tree *)

Lemma modules_self m : In m (modules m).
Proof. destruct m; left; reflexivity. Qed.

Lemma modules_trans root t m :
  In t (modules root) -> In m (modules t) -> In m (modules root).
Proof.
  revert t m. induction root as [l|cs IH] using module_rect'; intros t m Ht Hm.
  - destruct Ht as [<-|[]]. exact Hm.
  - cbn [modules] in Ht. destruct Ht as [<-|Ht]; [exact Hm|].
    right. apply in_flat_map in Ht as (c & Hc & Ht). apply in_flat_map.
    exists c. split; [exact Hc|].
    rewrite Forall_forall in IH. eapply IH; [exact Hc|exact Ht|exact Hm].
Qed.

Lemma leaf_in_modules root lf : In (Leaf lf) (modules root) -> In lf (leaves root).
Proof.
  induction root as [l|cs IH] using module_rect'; intros H.
  - destruct H as [E|[]]. injection E as ->. left. reflexivity.
  - cbn [modules] in H. destruct H as [E|H]; [discriminate|].
    apply in_flat_map in H as (c & Hc & H). cbn [leaves]. apply in_flat_map.
    exists c. split; [exact Hc|].
    rewrite Forall_forall in IH. apply IH; [exact Hc|exact H].
Qed.

Lemma NoDup_flat_map_each {A} (f : A -> list nat) (L : list A) x :
  NoDup (flat_map f L) -> In x L -> NoDup (f x).
Proof.
  induction L as [|y L IH]; intros HN Hx; [destruct Hx|].
  cbn [flat_map] in HN. apply list.NoDup_app in HN as (H1 & _ & H2).
  destruct Hx as [->|Hx]; [exact H1|apply IH; assumption].
Qed.

Lemma NoDup_flat_map_inj {A} (f : A -> list nat) (L : list A) x1 x2 l :
  NoDup (flat_map f L) -> In x1 L -> In x2 L -> In l (f x1) -> In l (f x2) -> x1 = x2.
Proof.
  induction L as [|y L IH]; intros HN H1 H2 L1 L2; [destruct H1|].
  cbn [flat_map] in HN. apply list.NoDup_app in HN as (_ & Hd & HN).
  destruct H1 as [->|H1], H2 as [->|H2].
  - reflexivity.
  - exfalso. apply (Hd l); [apply list_elem_of_In, L1|].
    apply list_elem_of_In, in_flat_map. eauto.
  - exfalso. apply (Hd l); [apply list_elem_of_In, L2|].
    apply list_elem_of_In, in_flat_map. eauto.
  - apply IH; assumption.
Qed.

(** A write of the pass lands on a parameter of the layer it visits. *)
Lemma writes_of_leaf m l v :
  In (l, v) (writes_of m) -> exists lf, m = Leaf lf /\ In l (leaf_parameters lf).
Proof.
  unfold writes_of. destruct m as [lf|cs]; [|intros []].
  exists lf. split; [reflexivity|].
  destruct lf; cbn in H; try contradiction;
    repeat match goal with
           | b : option nat |- _ => destruct b
           end; cbn in H |- *;
    repeat match goal with
           | H : _ \/ _ |- _ => destruct H
           | H : (_, _) = (_, _) |- _ => injection H as <- <-
           | H : False |- _ => destruct H
           end; auto.
Qed.

Lemma functional_two a (x : pvalue) b y : a <> b -> functional [(a, x); (b, y)].
Proof.
  intros Hne l v v' H1 H2. cbn in H1, H2.
  destruct H1 as [E1|[E1|[]]], H2 as [E2|[E2|[]]];
    injection E1; injection E2; intros; subst; congruence.
Qed.

Lemma functional_one a (x : pvalue) : functional [(a, x)].
Proof.
  intros l v v' H1 H2. cbn in H1, H2.
  destruct H1 as [E1|[]], H2 as [E2|[]]. congruence.
Qed.

Lemma functional_nil : functional [].
Proof. intros l v v' []. Qed.

Lemma writes_of_functional lf :
  NoDup (leaf_parameters lf) -> functional (writes_of (Leaf lf)).
Proof.
  intros HN. unfold writes_of.
  destruct lf as [? ? ? ? ? w [b|]| | ? [w|] [b|] | ? [w|] [b|] | ? ? [w|] [b|] | | | | ];
    cbn in HN |- *;
    first [apply functional_nil | apply functional_one | apply functional_two];
    apply list.NoDup_cons in HN as [HN _]; intros ->; apply HN; left.
Qed.

Section TreeWrites.

Variable root : module.
Variable targets : list module.
Hypothesis Hnodup : NoDup (module_parameters root).
Hypothesis Htargets : forall t, In t targets -> In t (modules root).

Let W := flat_map (fun t => flat_map writes_of (modules t)) targets.

Lemma tree_write_origin l v :
  In (l, v) W ->
  exists lf, In (Leaf lf) (modules root) /\ In lf (leaves root)
             /\ In l (leaf_parameters lf) /\ In (l, v) (writes_of (Leaf lf)).
Proof.
  intros H. apply in_flat_map in H as (t & Ht & H).
  apply in_flat_map in H as (m & Hm & H).
  pose proof (modules_trans root t m (Htargets t Ht) Hm) as Hr.
  destruct (writes_of_leaf m l v H) as (lf & -> & Hl).
  exists lf. repeat split; try assumption. apply leaf_in_modules, Hr.
Qed.

Lemma tree_writes_functional : functional W.
Proof.
  intros l v v' H1 H2.
  apply tree_write_origin in H1 as (lf1 & _ & L1 & P1 & W1).
  apply tree_write_origin in H2 as (lf2 & _ & L2 & P2 & W2).
  assert (lf1 = lf2) as <-
    by (eapply (NoDup_flat_map_inj leaf_parameters); eassumption).
  eapply writes_of_functional; [|exact W1|exact W2].
  eapply (NoDup_flat_map_each leaf_parameters); eassumption.
Qed.

Lemma tree_writes_in t m l v :
  In t targets -> In m (modules t) -> In (l, v) (writes_of m) -> In (l, v) W.
Proof.
  intros Ht Hm H. apply in_flat_map. exists t. split; [exact Ht|].
  apply in_flat_map. exists m. split; assumption.
Qed.

Lemma tree_writes_skip lf l :
  In (Leaf lf) (modules root) -> writes_of (Leaf lf) = [] ->
  In l (leaf_parameters lf) -> ~ In l (map fst W).
Proof.
  intros Hm Hw Hl H. apply in_map_iff in H as ([l' v] & E & H). cbn in E. subst l'.
  apply tree_write_origin in H as (lf' & _ & L' & P' & W').
  assert (lf' = lf) as ->.
  { eapply (NoDup_flat_map_inj leaf_parameters); try eassumption.
    apply leaf_in_modules, Hm. }
  rewrite Hw in W'. destruct W'.
Qed.

End TreeWrites.

Lemma forM_each {A} (f : A -> M unit) (l : list A) s r s' a :
  forM_ l f s = Ok (r, s') -> In a l -> exists s1 r1 s2, f a s1 = Ok (r1, s2).
Proof.
  revert s. induction l as [|x l IH]; intros s H Ha; [destruct Ha|].
  cbn [forM_] in H. apply bindM_Ok in H as (r1 & s1 & H1 & H2).
  destruct Ha as [->|Ha]; [eauto|eapply IH; eassumption].
Qed.

Lemma init_module_norm_ok m s r s' w b :
  init_module m s = Ok (r, s') -> isinstance_norm m = Some (w, b) ->
  exists w' b', w = Some w' /\ b = Some b'.
Proof.
  unfold init_module. intros H E. apply bindM_Ok in H as (r1 & s1 & _ & H).
  rewrite E in H. destruct w as [w'|], b as [b'|]; try discriminate H; eauto.
Qed.

Lemma init_pass_norm_ok targets s r s' t m w b :
  init_pass targets s = Ok (r, s') -> In t targets -> In m (modules t) ->
  isinstance_norm m = Some (w, b) ->
  exists w' b', w = Some w' /\ b = Some b'.
Proof.
  unfold init_pass. intros H Ht Hm E.
  eapply forM_each in H as (s1 & r1 & s2 & H); [|exact Ht].
  eapply forM_each in H as (s3 & r3 & s4 & H); [|exact Hm].
  eapply init_module_norm_ok; eassumption.
Qed.

Lemma UNet_init_inv provider C N backbone pretrained freeze_grad k bias norm dropout
    init_weights s0 u s :
  UNet_init provider C N backbone pretrained freeze_grad k bias norm dropout
            init_weights s0 = Ok (u, s) ->
  exists s1,
    UNet_build provider C N backbone pretrained freeze_grad k bias norm dropout s0
    = Ok (u, s1)
    /\ if init_weights then init_pass (init_target backbone u) s1 = Ok (tt, s)
       else s = s1.
Proof.
  unfold UNet_init. intros H.
  apply bindM_Ok in H as (u' & s1 & H1 & H).
  apply bindM_Ok in H as ([] & s2 & H2 & H). injection H as <- <-.
  exists s1. split; [exact H1|].
  destruct init_weights; [exact H2|]. injection H2 as <-. reflexivity.
Qed.

(** C5 (as amended).  After constructing a plain U-Net with
    init_weights=true, every [nn.Conv2d] module of the model has its weight
    drawn by Kaiming-normal initialisation (fan-out, ReLU gain) and its bias,
    when present, set to 0, and every batch/instance/group normalisation
    module has scale 1 and shift 0; the transposed convolutions of the decoder
    blocks and of the output head are not visited: their weight and bias are
    as their constructor left them. *)
Theorem plain_init_weights provider C N pretrained freeze_grad k bias norm dropout
    s0 u s :
  UNet_init provider C N None pretrained freeze_grad k bias norm dropout true s0
  = Ok (u, s) ->
  exists s1,
    UNet_build provider C N None pretrained freeze_grad k bias norm dropout s0
    = Ok (u, s1)
    /\ forall m, In m (modules (UNet_module u)) ->
         (forall w b, isinstance_Conv2d m = Some (w, b) -> conv_initialised s w b)
         /\ (forall w b, isinstance_norm m = Some (w, b) -> norm_initialised s w b)
         /\ (forall cin cout ks st w b,
               m = Leaf (ConvTranspose2d cin cout ks st w b) ->
               s !! w = s1 !! w /\ forall b', b = Some b' -> s !! b' = s1 !! b').
Proof.
  intros H. apply UNet_init_inv in H as (s1 & Hb & Hi).
  exists s1. split; [exact Hb|].
  pose proof (allocates_UNet_plain _ _ _ _ _ _ _ _ _ _ _ _ Hb) as (ext & -> & Hp & _).
  set (root := UNet_module u) in *.
  assert (Hnd : NoDup (module_parameters root)) by (rewrite Hp; apply NoDup_seq).
  assert (Hlt : forall l, In l (module_parameters root) -> l < length (s0 ++ ext)).
  { intros l Hl. rewrite Hp in Hl. apply list_elem_of_In, elem_of_seq in Hl.
    rewrite length_app. lia. }
  assert (Ht : forall t, In t (init_target None u) -> In t (modules root))
    by (intros t Ht; exact Ht).
  pose proof (init_pass_writes _ _ _ _ Hi) as Hs.
  pose proof (tree_writes_functional root _ Hnd Ht) as HF.
  assert (Hparam : forall lf l, In (Leaf lf) (modules root) ->
                     In l (leaf_parameters lf) -> In l (module_parameters root)).
  { intros lf l Hm Hl. apply in_flat_map. exists lf.
    split; [apply leaf_in_modules, Hm|exact Hl]. }
  assert (Hval : forall m l v, In m (modules root) -> In (l, v) (writes_of m) ->
                   data <$> s !! l = Some v).
  { intros m l v Hm Hw. subst s. apply apply_writes_in; [exact HF| |].
    - apply (tree_writes_in _ root m); [apply modules_self|exact Hm|exact Hw].
    - destruct (writes_of_leaf m l v Hw) as (lf & -> & Hl). eapply Hlt, Hparam; eassumption. }
  intros m Hm. split; [|split].
  - intros w b E. split.
    + apply (Hval m); [exact Hm|]. unfold writes_of. rewrite E. left. reflexivity.
    + intros b' ->. apply (Hval m); [exact Hm|]. unfold writes_of. rewrite E.
      right. left. reflexivity.
  - intros w b E.
    destruct (init_pass_norm_ok _ _ _ _ root m w b Hi (modules_self root) Hm E)
      as (w' & b' & -> & ->).
    exists w', b'. repeat split.
    + apply (Hval m); [exact Hm|]. unfold writes_of. rewrite E.
      apply in_or_app. right. left. reflexivity.
    + apply (Hval m); [exact Hm|]. unfold writes_of. rewrite E.
      apply in_or_app. right. right. left. reflexivity.
  - intros cin cout ks st w b ->. subst s. split.
    + apply apply_writes_notin.
      apply (tree_writes_skip root _ Hnd Ht _ w Hm eq_refl). left. reflexivity.
    + intros b' ->. apply apply_writes_notin.
      apply (tree_writes_skip root _ Hnd Ht _ b' Hm eq_refl). right. left. reflexivity.
Qed.

Lemma plain_init_weights_witness :
  exists u s,
    UNet_init empty_provider 1 1 None false false 3 false None 0%Qc true [] = Ok (u, s)
    /\ conv_initialised s 0 None /\ norm_initialised s (Some 1) (Some 2).
Proof.
  eexists _, _. split; [vm_compute; reflexivity|].
  edestruct (plain_init_weights empty_provider 1 1 false false 3 false None 0%Qc [])
    as (s1 & _ & H); [vm_compute; reflexivity|].
  split.
  - apply (H (Leaf (Conv2d 1 64 3 1 1 0 None))); [|reflexivity].
    apply list_elem_of_In, (list_elem_of_lookup_2 _ 6). vm_compute. reflexivity.
  - apply (H (Leaf (BatchNorm2d 64 (Some 1) (Some 2)))); [|reflexivity].
    apply list_elem_of_In, (list_elem_of_lookup_2 _ 7). vm_compute. reflexivity.
Defined.

(** C5 as stated includes the transposed convolutions.  The pass tests
    [isinstance(m, nn.Conv2d)] (line 224), which a [ConvTranspose2d] does not
    satisfy: in the smallest plain U-Net the transposed convolution of the
    output head keeps its default weight and a default, non-zero-initialised
    bias. *)
Lemma plain_init_weights_counterexample :
  exists u s w b,
    UNet_init empty_provider 1 1 None false false 3 false None 0%Qc true [] = Ok (u, s)
    /\ modules (UNet_module u) !! 103 = Some (Leaf (ConvTranspose2d 64 64 2 2 w (Some b)))
    /\ data <$> s !! w = Some default_init
    /\ data <$> s !! b = Some default_init
    /\ ~ conv_initialised s w (Some b).
Proof.
  eexists _, _, _, _.
  split; [vm_compute; reflexivity|].
  split; [vm_compute; reflexivity|].
  split; [vm_compute; reflexivity|].
  split; [vm_compute; reflexivity|].
  intros [H _]. vm_compute in H. discriminate H.
Qed.

(** ** Backbone mode: the backbone's parameters and the rest *)

Lemma mapM_alloc_param ps s ls s' :
  mapM alloc_param ps s = Ok (ls, s') ->
  s' = s ++ ps /\ ls = seq (length s) (length ps).
Proof.
  revert s ls s'. induction ps as [|p ps IH]; intros s ls s' H.
  - injection H as <- <-. rewrite app_nil_r. split; reflexivity.
  - cbn [mapM] in H. apply bindM_Ok in H as (l & s1 & H1 & H).
    apply bindM_Ok in H as (ls' & s2 & H2 & H). injection H as <- <-.
    injection H1 as <- <-. apply IH in H2 as [-> ->]. split.
    + rewrite <- app_assoc. reflexivity.
    + rewrite length_app. cbn [length seq]. rewrite Nat.add_1_r. reflexivity.
Qed.

Lemma instantiate_alloc cs s enc s' :
  instantiate cs s = Ok (enc, s') ->
  s' = s ++ flat_map ec_params cs
  /\ flat_map (fun c => leaf_parameters (snd c)) enc
     = seq (length s) (length (flat_map ec_params cs)).
Proof.
  unfold instantiate. revert s enc s'. induction cs as [|c cs IH]; intros s enc s' H.
  - injection H as <- <-. rewrite app_nil_r. split; reflexivity.
  - cbn [mapM] in H. monad_inv H.
    match goal with H : mapM alloc_param _ _ = Ok _ |- _ =>
      apply mapM_alloc_param in H as [-> ->] end.
    match goal with H : mapM _ cs _ = Ok _ |- _ => apply IH in H as [-> P] end.
    cbn [flat_map snd leaf_parameters]. rewrite P. split.
    + rewrite <- app_assoc. reflexivity.
    + rewrite !length_app, seq_app. reflexivity.
Qed.

(** The freezing loop of lines 126-127. *)
Lemma freeze_spec ls s r s' :
  forM_ ls (fun p => set_requires_grad p false) s = Ok (r, s') ->
  length s' = length s
  /\ (forall l, data <$> s' !! l = data <$> s !! l)
  /\ (forall l, In l ls -> l < length s -> requires_grad <$> s' !! l = Some false)
  /\ (forall l, ~ In l ls -> s' !! l = s !! l).
Proof.
  destruct r. revert s. induction ls as [|x ls IH]; intros s H.
  - injection H as <-. repeat split; try reflexivity. intros l [].
  - cbn [forM_] in H. apply bindM_Ok in H as ([] & s1 & H1 & H).
    injection H1 as <-. apply IH in H as (Hl & Hd & Hf & Hn).
    rewrite length_alter in Hl, Hf.
    split; [exact Hl|]. split; [|split].
    + intros l. rewrite Hd.
      destruct (decide (x = l)) as [->|Hne].
      * rewrite list_lookup_alter_eq. destruct (s !! l); reflexivity.
      * rewrite list_lookup_alter_ne by exact Hne. reflexivity.
    + intros l Hin Hlt. destruct (in_dec Nat.eq_dec l ls) as [Hi|Hi].
      * apply Hf; assumption.
      * destruct Hin as [->|Hin]; [|contradiction].
        rewrite (Hn l Hi), list_lookup_alter_eq.
        destruct (lookup_lt_is_Some_2 s l Hlt) as [p ->]. reflexivity.
    + intros l Hni. rewrite Hn by (intros Hi; apply Hni; right; exact Hi).
      apply list_lookup_alter_ne. intros ->. apply Hni. left. reflexivity.
Qed.

Lemma backbone_build_inv provider name ctor fs C N pretrained freeze_grad k bias norm
    dropout s0 u s1 :
  backbones provider name = Ok (ctor, fs) ->
  UNet_build provider C N (Some name) pretrained freeze_grad k bias norm dropout s0
  = Ok (u, s1) ->
  exists children inputs pool sa sb ext,
    unet_encoder u = EncoderBackbone fs name children inputs pool
    /\ sa = s0 ++ flat_map ec_params (ctor C pretrained)
    /\ flat_map (fun c => leaf_parameters (snd c)) children
       = seq (length s0) (length (flat_map ec_params (ctor C pretrained)))
    /\ (if freeze_grad
        then forM_ (backbone_parameters children) (fun p => set_requires_grad p false) sa
             = Ok (tt, sb)
        else sb = sa)
    /\ s1 = sb ++ ext
    /\ head_parameters u = seq (length sb) (length ext)
    /\ Forall (fun p => requires_grad p = true) ext.
Proof.
  intros Hb H. unfold UNet_build in H. monad_inv H.
  match goal with H : EncoderBlocks_init _ _ _ _ _ _ _ _ _ _ _ = Ok _ |- _ =>
    cbn [EncoderBlocks_init] in H; monad_inv H end.
  match goal with H : backbones provider name = Ok ?a |- _ =>
    rewrite Hb in H; injection H as <- end.
  cbn [fst snd] in *.
  match goal with H : instantiate _ _ = Ok _ |- _ =>
    apply instantiate_alloc in H as [-> P0] end.
  match goal with H : (if freeze_grad then _ else _) _ = Ok (?r, ?sb') |- _ =>
    destruct r; rename H into Hfr; rename sb' into sb end.
  match goal with H : DecoderBlocks_init _ _ _ _ _ _ _ = Ok _ |- _ =>
    apply allocates_DecoderBlocks in H as (? & -> & ? & ?) end.
  alloc_blocks.
  eexists _, _, _, _, sb, _. split; [reflexivity|]. split; [reflexivity|].
  split; [exact P0|]. split.
  { destruct freeze_grad; [exact Hfr|]. injection Hfr as <-. reflexivity. }
  unfold head_parameters. cbn [unet_center unet_decoder unet_out].
  rewrite module_parameters_Sequential. cbn [flat_map].
  clear P0. alloc_finish.
Qed.

Lemma leaf_parameters_in_module t lf l :
  In (Leaf lf) (modules t) -> In l (leaf_parameters lf) -> In l (module_parameters t).
Proof.
  intros Hm Hl. apply in_flat_map. exists lf. split; [apply leaf_in_modules, Hm|exact Hl].
Qed.

(** The initialisation pass in backbone mode writes into the head only. *)
Lemma backbone_writes_in_head name u l :
  In l (map fst (flat_map (fun t => flat_map writes_of (modules t))
                          (init_target (Some name) u))) ->
  In l (head_parameters u).
Proof.
  intros H. apply in_map_iff in H as ([l' v] & E & H). cbn in E. subst l'.
  apply in_flat_map in H as (t & Ht & H).
  apply in_flat_map in H as (m & Hm & H).
  destruct (writes_of_leaf m l v H) as (lf & -> & Hl).
  pose proof (leaf_parameters_in_module t lf l Hm Hl) as Hp.
  unfold head_parameters.
  destruct Ht as [<-|[<-|[<-|[]]]].
  - apply in_or_app. left. exact Hp.
  - apply in_or_app. right. apply in_or_app. left. exact Hp.
  - apply in_or_app. right. apply in_or_app. right. exact Hp.
Qed.

Lemma backbone_parameters_range children n k l :
  flat_map (fun c => leaf_parameters (snd c)) children = seq n k ->
  In l (backbone_parameters children) <-> n <= l < n + k.
Proof.
  intros P. unfold backbone_parameters. rewrite P.
  rewrite <- list_elem_of_In, elem_of_remove_dups, elem_of_seq. reflexivity.
Qed.

Lemma freeze_or_not_spec (freeze_grad : bool) ls (sa sb : list param) :
  (if freeze_grad
   then forM_ ls (fun p => set_requires_grad p false) sa = Ok (tt, sb)
   else sb = sa) ->
  length sb = length sa /\ forall l, data <$> sb !! l = data <$> sa !! l.
Proof.
  destruct freeze_grad.
  - intros H. apply freeze_spec in H as (H1 & H2 & _). split; assumption.
  - intros ->. split; reflexivity.
Qed.


(** C7.  In backbone mode with freeze_grad=true, after construction (with or
    without weight initialisation) every parameter of the backbone has
    requires_grad false, and every parameter of the center block, the decoder
    stack and the output head has requires_grad true. *)
Theorem backbone_freeze_grad provider name ctor fs C N pretrained k bias norm dropout
    init_weights s0 u s :
  backbones provider name = Ok (ctor, fs) ->
  UNet_init provider C N (Some name) pretrained true k bias norm dropout init_weights s0
  = Ok (u, s) ->
  exists children inputs pool,
    unet_encoder u = EncoderBackbone fs name children inputs pool
    /\ (forall l, In l (backbone_parameters children)
                  <-> length s0 <= l
                      < length s0 + length (flat_map ec_params (ctor C pretrained)))
    /\ (forall l, In l (backbone_parameters children) ->
                  requires_grad <$> s !! l = Some false)
    /\ (forall l, In l (head_parameters u) -> requires_grad <$> s !! l = Some true).
Proof.
  intros Hb H. apply UNet_init_inv in H as (s1 & Hbuild & Hi).
  destruct (backbone_build_inv _ _ _ _ _ _ _ _ _ _ _ _ _ _ _ Hb Hbuild)
    as (children & inputs & pool & sa & sb & ext & He & -> & P & Hfr & -> & Ph & Hext).
  apply freeze_spec in Hfr as (Hlen & _ & Hfalse & _).
  rewrite length_app in Hlen.
  assert (Hrg : forall l, requires_grad <$> s !! l = requires_grad <$> (sb ++ ext) !! l).
  { intros l. destruct init_weights.
    - apply init_pass_writes in Hi. subst s. apply apply_writes_requires_grad.
    - subst s. reflexivity. }
  exists children, inputs, pool.
  split; [exact He|]. split; [|split].
  - intros l. apply backbone_parameters_range, P.
  - intros l Hl. pose proof Hl as Hr.
    apply (backbone_parameters_range _ _ _ _ P) in Hr.
    rewrite Hrg, lookup_app_l by lia.
    apply Hfalse; [exact Hl|rewrite length_app; lia].
  - intros l Hl. rewrite Ph in Hl. apply list_elem_of_In, elem_of_seq in Hl.
    rewrite Hrg, lookup_app_r by lia.
    destruct (lookup_lt_is_Some_2 ext (l - length sb) ltac:(lia)) as [p Hp].
    rewrite Hp. cbn. f_equal.
    rewrite Forall_forall in Hext. apply Hext.
    apply list_elem_of_In, (list_elem_of_lookup_2 _ _ _ Hp).
Qed.


Lemma backbone_freeze_grad_witness :
  exists u s,
    UNet_init toy_provider 3 2 (Some "resnet18") true true 3 false None 0%Qc true []
    = Ok (u, s)
    /\ requires_grad <$> s !! 0 = Some false
    /\ requires_grad <$> s !! 17 = Some true.
Proof.
  eexists _, _. split; [vm_compute; reflexivity|].
  edestruct (backbone_freeze_grad toy_provider "resnet18" toy_children UNet_filters 3 2
               true 3 false None 0%Qc true [])
    as (children & inputs & pool & _ & Hrange & Hfalse & Htrue);
    [reflexivity | vm_compute; reflexivity |].
  split.
  - apply Hfalse, Hrange. vm_compute. split; repeat constructor.
  - apply Htrue. vm_compute. left. reflexivity.
Defined.

(** ** The ensemble mean *)

Lemma stacked_nth (outs : list tensor) n j :
  (forall o, In o outs -> length (values o) = n) -> j < n ->
  map (fun i => nth (i * n + j) (flat_map values outs) 0%Qc) (seq 0 (length outs))
  = map (fun o => nth j (values o) 0%Qc) outs.
Proof.
  intros Hlen Hj. induction outs as [|o outs IH]; [reflexivity|].
  cbn [length seq map flat_map]. f_equal.
  - cbn [Nat.mul Nat.add]. apply app_nth1. rewrite (Hlen o); [exact Hj|left; reflexivity].
  - rewrite <- seq_shift, map_map. rewrite <- IH.
    + apply map_ext. intros i.
      rewrite app_nth2; rewrite (Hlen o) by (left; reflexivity); [|lia].
      f_equal. lia.
    + intros o' Ho'. apply Hlen. right. exact Ho'.
Qed.

Lemma map_const_seq {A} (f : nat -> A) (c : A) n :
  (forall j, j < n -> f j = c) -> map f (seq 0 n) = repeat c n.
Proof.
  intros H. apply nth_ext with (d := f 0) (d' := c).
  - rewrite length_map, length_seq, repeat_length. reflexivity.
  - intros j Hj. rewrite length_map, length_seq in Hj.
    rewrite (map_nth f), seq_nth by exact Hj. cbn.
    rewrite nth_repeat_lt by exact Hj. apply H, Hj.
Qed.

Lemma tensor_stack_same d (outs : list tensor) :
  outs <> [] -> (forall o, In o outs -> dims o = d) ->
  tensor_stack outs
  = Ok {| dims := length outs :: d; values := flat_map values outs |}.
Proof.
  intros Hne Hd. destruct outs as [|t rest]; [contradiction|].
  unfold tensor_stack.
  replace (forallb (fun t' => bool_decide (dims t' = dims t)) rest) with true.
  - rewrite (Hd t) by (left; reflexivity). reflexivity.
  - symmetry. apply forallb_forall. intros t' Ht'. apply bool_decide_eq_true_2.
    rewrite (Hd t) by (left; reflexivity). apply Hd. right. exact Ht'.
Qed.

Lemma mean_of_stack d (outs : list tensor) :
  (forall o, In o outs -> length (values o) = numel_of d) ->
  tensor_mean0 {| dims := length outs :: d; values := flat_map values outs |}
  = Ok (elementwise_mean d outs).
Proof.
  intros Hlen. unfold tensor_mean0, elementwise_mean. cbn [dims values]. do 2 f_equal.
  apply map_ext_in. intros j Hj. apply in_seq in Hj.
  rewrite (stacked_nth outs (numel_of d) j Hlen) by lia. reflexivity.
Qed.

Lemma elementwise_mean_full d vs :
  elementwise_mean d (map (full d) vs) = full d (qsum vs / Qc_of_nat (length vs))%Qc.
Proof.
  unfold elementwise_mean, full. f_equal. apply map_const_seq. intros j Hj.
  rewrite length_map, map_map. do 2 f_equal.
  rewrite <- (map_id vs) at 2. apply map_ext. intros v. cbn [values].
  apply nth_repeat_lt, Hj.
Qed.

Lemma mapF_length {G A C} (f : A -> F G C) (l : list A) g outs g' :
  mapF f l g = Ok (outs, g') -> length outs = length l.
Proof.
  revert g outs g'. induction l as [|a l IH]; intros g outs g' H.
  - injection H as <- <-. reflexivity.
  - cbn [mapF] in H. apply bindF_inv in H as (c & g1 & _ & H).
    apply bindF_inv in H as (cs & g2 & H1 & H). injection H as <- <-.
    cbn. f_equal. eapply IH, H1.
Qed.


(** ** Dropout with probability 0 *)

Lemma rng_free_ret {G A} (a : A) : rng_free (G := G) (retF a).
Proof. exists (Ok a). reflexivity. Qed.

Lemma rng_free_lift {G A} (r : result A) : rng_free (G := G) (liftF r).
Proof. exists r. intros g. destruct r; reflexivity. Qed.

Lemma rng_free_bind {G A C} (m : F G A) (k : A -> F G C) :
  rng_free m -> (forall a, rng_free (k a)) -> rng_free (bindF m k).
Proof.
  intros [r Hm] Hk. destruct r as [a|e].
  - destruct (Hk a) as [r' Hr']. exists r'. intros g.
    unfold bindF. rewrite Hm. apply Hr'.
  - exists (Err e). intros g. unfold bindF. rewrite Hm. reflexivity.
Qed.

Lemma rng_free_run {G A} (m : F G A) g1 g2 : rng_free m -> run m g1 = run m g2.
Proof.
  intros [r H]. unfold run. rewrite !H. destruct r; reflexivity.
Qed.

Section DropoutZero.

Context {T : Type} {B : Backend T}.
Variable st : store.
Variable training : bool.

Lemma dropout_zero (x : T) g : dropout training 0%Qc x g = Ok (x, g).
Proof. unfold dropout. rewrite bool_decide_eq_true_2 by reflexivity. reflexivity. Qed.

Lemma rng_free_apply l (x : T) :
  is_Dropout l = false \/ l = Dropout 0%Qc -> rng_free (apply st training l x).
Proof.
  intros [H| ->].
  - destruct l; try discriminate H; apply rng_free_lift.
  - exists (Ok x). intros g. apply dropout_zero.
Qed.

Lemma rng_free_Sequential ls (x : T) :
  Forall (fun l => is_Dropout l = false) ls ->
  rng_free (Sequential_forward st training ls x).
Proof.
  intros H. revert x. induction H as [|l ls Hl _ IH]; intros x.
  - apply rng_free_ret.
  - cbn [Sequential_forward]. apply rng_free_bind; [|exact IH].
    apply rng_free_apply. left. exact Hl.
Qed.

Lemma DoubleConv2d_no_dropout cin cout k bias norm s d s' :
  DoubleConv2d_init cin cout k bias norm s = Ok (d, s') ->
  Forall (fun l => is_Dropout l = false) (dc_layer d).
Proof.
  unfold DoubleConv2d_init. intros H. monad_inv H.
  repeat match goal with
         | H : new_Conv2d _ _ _ _ _ _ _ = Ok _ |- _ => unfold new_Conv2d in H; monad_inv H
         | H : new_norm _ _ _ = Ok (?l, _) |- _ =>
             apply new_norm_for in H; destruct l; cbn in H; try contradiction
         end.
  all: cbn [dc_layer]; repeat constructor.
Qed.

(** C9.  On any tensor backend, the dropout stage with probability 0.0
    returns its input and leaves the random generator alone; and two forward
    passes of an [EncoderBlock] or of a [DecoderBlock] built with dropout 0.0,
    on the same input and the same parameter store, yield the same result
    whatever the states of the random generator. *)
Theorem dropout_zero_identity :
  (forall (x : T) g, apply st training (Dropout 0%Qc) x g = Ok (x, g))
  /\ (forall cin cout k bias norm s b s' (x : T) g1 g2,
        EncoderBlock_init cin cout k bias norm 0%Qc s = Ok (b, s') ->
        run (EncoderBlock_forward st training b x) g1
        = run (EncoderBlock_forward st training b x) g2)
  /\ (forall cin cout k bias norm up_in up_out s b s' (x1 x2 : T) g1 g2,
        DecoderBlock_init cin cout k bias norm 0%Qc up_in up_out s = Ok (b, s') ->
        run (DecoderBlock_forward st training b x1 x2) g1
        = run (DecoderBlock_forward st training b x1 x2) g2).
Proof.
  split; [|split].
  - intros x g. apply dropout_zero.
  - intros cin cout k bias norm s b s' x g1 g2 H. apply rng_free_run.
    unfold EncoderBlock_init in H. monad_inv H.
    match goal with H : DoubleConv2d_init _ _ _ _ _ _ = Ok _ |- _ =>
      apply DoubleConv2d_no_dropout in H end.
    unfold EncoderBlock_forward, DoubleConv2d_forward. cbn [eb_conv eb_pool eb_drop].
    apply rng_free_bind; [apply rng_free_Sequential; assumption|]. intros y.
    apply rng_free_bind; [apply rng_free_apply; left; reflexivity|]. intros p.
    apply rng_free_bind; [apply rng_free_apply; right; reflexivity|]. intros q.
    apply rng_free_ret.
  - intros cin cout k bias norm up_in up_out s b s' x1 x2 g1 g2 H. apply rng_free_run.
    unfold DecoderBlock_init in H. monad_inv H.
    match goal with H : DoubleConv2d_init _ _ _ _ _ _ = Ok _ |- _ =>
      apply DoubleConv2d_no_dropout in H end.
    match goal with H : new_ConvTranspose2d _ _ _ _ _ _ = Ok _ |- _ =>
      unfold new_ConvTranspose2d in H; monad_inv H end.
    unfold DecoderBlock_forward, DoubleConv2d_forward. cbn [db_trans db_conv db_drop].
    apply rng_free_bind; [apply rng_free_apply; left; reflexivity|]. intros y.
    apply rng_free_bind; [apply rng_free_lift|]. intros c.
    apply rng_free_bind; [apply rng_free_Sequential; assumption|]. intros z.
    apply rng_free_bind; [apply rng_free_apply; right; reflexivity|]. intros q.
    apply rng_free_ret.
Qed.

End DropoutZero.

Lemma dropout_zero_identity_witness :
  exists b s,
    EncoderBlock_init 1 1 3 false None 0%Qc [] = Ok (b, s)
    /\ run (EncoderBlock_forward (B := toy_value_backend) s true b
              (full [1; 1; 2; 2] 1%Qc)) 1
       = run (EncoderBlock_forward (B := toy_value_backend) s true b
                (full [1; 1; 2; 2] 1%Qc)) 2.
Proof.
  eexists _, _. split; [vm_compute; reflexivity|].
  match goal with
  | |- run (EncoderBlock_forward ?st _ ?b ?x) _ = _ =>
      apply (proj1 (proj2 (dropout_zero_identity (B := toy_value_backend) st true))
               1 1 3 false None [] b st x 1 2)
  end.
  vm_compute. reflexivity.
Defined.

(** With a probability other than 0 the generator does matter. *)
Example dropout_half_depends_on_generator :
  run (apply (B := toy_value_backend) [] true (Dropout (Q2Qc (1 # 2)))
         (full [4] 1%Qc)) 1
  <> run (apply (B := toy_value_backend) [] true (Dropout (Q2Qc (1 # 2)))
            (full [4] 1%Qc)) 3.
Proof. intros H. vm_compute in H. discriminate H. Qed.


(** * Further properties *)

(** ** The registry and the stem attributes *)

Lemma backbones_inv provider name ctor fs :
  backbones provider name = Ok (ctor, fs) ->
  ((name = "resnet18" \/ name = "resnet34") /\ fs = [64; 128; 256; 512; 1024])
  \/ ((name = "resnet50" \/ name = "resnet101" \/ name = "resnet152")
      /\ fs = [64; 256; 512; 1024; 2048]).
Proof.
  unfold backbones. intros H.
  repeat match type of H with
         | (if String.eqb ?a ?b then _ else _) = _ =>
             destruct (String.eqb_spec a b) as [->|_];
             [injection H as _ <-; tauto|]
         end.
  discriminate H.
Qed.

Lemma UNet_build_backbone provider C N name pretrained freeze_grad k bias norm dropout
    s0 u s1 :
  UNet_build provider C N (Some name) pretrained freeze_grad k bias norm dropout s0
  = Ok (u, s1) ->
  exists ctor fs, backbones provider name = Ok (ctor, fs).
Proof.
  unfold UNet_build. intros H.
  apply bindM_Ok in H as (e & s & H & _). cbn [EncoderBlocks_init] in H.
  apply bindM_Ok in H as ([ctor fs] & s' & H & _). apply liftM_Ok in H as [H _].
  eauto.
Qed.

(** X1.  After construction the U-Net's filter list is the one its encoder
    stack adopted: the class default [64, 128, 256, 512, 1024] in plain mode,
    and in backbone mode the list the registry holds for the backbone's name,
    which is the default list for resnet18 and resnet34 and
    [64, 256, 512, 1024, 2048] for resnet50, resnet101 and resnet152. *)
Theorem unet_filters_adopted provider C N backbone pretrained freeze_grad k bias norm
    dropout init_weights s0 u s :
  UNet_init provider C N backbone pretrained freeze_grad k bias norm dropout
            init_weights s0 = Ok (u, s) ->
  enc_filters (unet_encoder u) = unet_filters u
  /\ match backbone with
     | None => unet_filters u = [64; 128; 256; 512; 1024]
     | Some name =>
         ((name = "resnet18" \/ name = "resnet34")
          /\ unet_filters u = [64; 128; 256; 512; 1024])
         \/ ((name = "resnet50" \/ name = "resnet101" \/ name = "resnet152")
             /\ unet_filters u = [64; 256; 512; 1024; 2048])
     end.
Proof.
  intros H. apply UNet_init_inv in H as (s1 & H & _).
  destruct backbone as [name|].
  - destruct (UNet_build_backbone _ _ _ _ _ _ _ _ _ _ _ _ _ H) as (ctor & fs & Hb).
    destruct (backbone_build_inv _ _ _ _ _ _ _ _ _ _ _ _ _ _ _ Hb H)
      as (children & inputs & pool & sa & sb & ext & He & _).
    unfold UNet_build in H. monad_inv H. cbn [unet_encoder unet_filters] in *.
    split; [reflexivity|]. rewrite He. cbn [enc_filters].
    apply (backbones_inv _ _ _ _ Hb).
  - unfold UNet_build in H. monad_inv H.
    match goal with H : EncoderBlocks_init _ _ _ _ _ _ _ _ _ _ _ = Ok _ |- _ =>
      apply EncoderBlocks_init_plain in H as (encoder & -> & _) end.
    split; reflexivity.
Qed.

Lemma unet_filters_adopted_witness :
  exists u s,
    UNet_init toy_provider 3 2 (Some "resnet50") false false 3 false None 0%Qc true []
    = Ok (u, s)
    /\ unet_filters u = [64; 256; 512; 1024; 2048].
Proof.
  eexists _, _. split; [vm_compute; reflexivity|].
  edestruct (unet_filters_adopted toy_provider 3 2 (Some "resnet50") false false 3 false
               None 0%Qc true []) as [_ [[[E|E] _]|[_ H]]];
    [vm_compute; reflexivity | discriminate E | discriminate E | exact H].
Defined.

(** X2.  A backbone name that is not a key of the registry makes the
    constructor fail with KeyError, whatever the other arguments. *)
Theorem unknown_backbone_KeyError provider C N name pretrained freeze_grad k bias norm
    dropout init_weights s0 :
  ~ In name ["resnet18"; "resnet34"; "resnet50"; "resnet101"; "resnet152"] ->
  UNet_init provider C N (Some name) pretrained freeze_grad k bias norm dropout
            init_weights s0 = Err KeyError.
Proof.
  intros Hn.
  assert (Hb : backbones provider name = Err KeyError).
  { unfold backbones.
    repeat match goal with
           | |- (if String.eqb ?a ?b then _ else _) = _ =>
               destruct (String.eqb_spec a b) as [->|_];
               [exfalso; apply Hn; cbn; tauto|]
           end.
    reflexivity. }
  unfold UNet_init, UNet_build. cbn [EncoderBlocks_init]. unfold bindM at 1 2 3.
  rewrite Hb. reflexivity.
Qed.

Lemma unknown_backbone_KeyError_witness :
  UNet_init toy_provider 3 2 (Some "vgg16") true true 3 false None 0%Qc true []
  = Err KeyError.
Proof.
  apply unknown_backbone_KeyError. cbn. intros [H|[H|[H|[H|[H|[]]]]]]; discriminate H.
Defined.

Lemma mapM_alloc_total ps s :
  mapM alloc_param ps s = Ok (seq (length s) (length ps), s ++ ps).
Proof.
  revert s. induction ps as [|p ps IH]; intros s.
  - cbn. rewrite app_nil_r. reflexivity.
  - cbn [mapM]. unfold bindM at 1. cbn [alloc_param]. unfold bindM at 1.
    rewrite IH. cbn [retM length seq]. rewrite length_app, <- app_assoc. cbn [length app].
    rewrite Nat.add_1_r. reflexivity.
Qed.

Lemma instantiate_total cs s :
  exists enc, instantiate cs s = Ok (enc, s ++ flat_map ec_params cs)
              /\ map fst enc = map ec_name cs.
Proof.
  unfold instantiate. revert s. induction cs as [|c cs IH]; intros s.
  - exists []. cbn. rewrite app_nil_r. split; reflexivity.
  - destruct (IH (s ++ ec_params c)) as (enc & H & Hn).
    eexists. cbn [mapM]. unfold bindM at 1 2. rewrite mapM_alloc_total.
    cbn [retM]. unfold bindM at 1. rewrite H. cbn [retM flat_map].
    rewrite <- app_assoc. split; [reflexivity|]. cbn. rewrite Hn. reflexivity.
Qed.

Lemma freeze_total ls s :
  exists s', forM_ ls (fun p => set_requires_grad p false) s = Ok (tt, s').
Proof.
  revert s. induction ls as [|l ls IH]; intros s; [eexists; reflexivity|].
  cbn [forM_]. unfold bindM, set_requires_grad. apply IH.
Qed.

Lemma getattr_Ok cs name l : getattr cs name = Ok l -> In name (map fst cs).
Proof.
  unfold getattr.
  destruct (list_find _ cs) as [[i c]|] eqn:E; [|discriminate].
  intros _. apply list_find_Some in E as (Hi & Hc & _).
  apply String.eqb_eq in Hc. subst name.
  apply in_map, list_elem_of_In, (list_elem_of_lookup_2 _ _ _ Hi).
Qed.

Lemma getattr_Err cs name e : getattr cs name = Err e -> e = AttributeError.
Proof.
  unfold getattr. destruct (list_find _ cs) as [[i c]|]; [discriminate|].
  intros H. injection H as <-. reflexivity.
Qed.

(** X3.  If the module a registry constructor returns lacks one of the
    attributes conv1, bn1, relu and pool, the constructor of the U-Net fails
    with AttributeError, with or without freezing. *)
Theorem missing_stem_AttributeError provider name ctor fs C N pretrained freeze_grad k
    bias norm dropout init_weights s0 attr :
  backbones provider name = Ok (ctor, fs) ->
  In attr ["conv1"; "bn1"; "relu"; "pool"] ->
  ~ In attr (map ec_name (ctor C pretrained)) ->
  UNet_init provider C N (Some name) pretrained freeze_grad k bias norm dropout
            init_weights s0 = Err AttributeError.
Proof.
  intros Hb Ha Hn.
  destruct (instantiate_total (ctor C pretrained) s0) as (enc & Hi & Hnames).
  assert (Hfr : exists s1,
             (if freeze_grad
              then forM_ (backbone_parameters enc) (fun p => set_requires_grad p false)
              else retM tt) (s0 ++ flat_map ec_params (ctor C pretrained))
             = Ok (tt, s1)).
  { destruct freeze_grad; [apply freeze_total|eexists; reflexivity]. }
  destruct Hfr as (s1 & Hfr).
  assert (He : EncoderBlocks_init provider C UNet_filters (Some name) pretrained
                 freeze_grad k bias norm dropout s0 = Err AttributeError).
  { cbn [EncoderBlocks_init]. unfold bindM at 1, liftM at 1. rewrite Hb.
    cbn [fst snd]. unfold bindM at 1. rewrite Hi. unfold bindM at 1. rewrite Hfr.
    rewrite <- Hnames in Hn.
    unfold bindM, liftM.
    destruct (getattr enc "conv1") as [l1|e1] eqn:E1;
      [|apply getattr_Err in E1; subst; reflexivity].
    destruct (getattr enc "bn1") as [l2|e2] eqn:E2;
      [|apply getattr_Err in E2; subst; reflexivity].
    destruct (getattr enc "relu") as [l3|e3] eqn:E3;
      [|apply getattr_Err in E3; subst; reflexivity].
    destruct (getattr enc "pool") as [l4|e4] eqn:E4;
      [|apply getattr_Err in E4; subst; reflexivity].
    exfalso. apply Hn.
    destruct Ha as [<-|[<-|[<-|[<-|[]]]]]; eapply getattr_Ok; eassumption. }
  unfold UNet_init, UNet_build. unfold bindM at 1 2. rewrite He. reflexivity.
Qed.

Lemma missing_stem_AttributeError_witness :
  UNet_init {| resnet18 := fun c p => drop 1 (toy_children c p);
               resnet34 := toy_children; resnet50 := toy_children;
               resnet101 := toy_children; resnet152 := toy_children |}
            3 2 (Some "resnet18") false true 3 false None 0%Qc true []
  = Err AttributeError.
Proof.
  eapply (missing_stem_AttributeError _ "resnet18" _ _ 3 2 false true 3 false None 0%Qc
            true [] "conv1").
  - reflexivity.
  - left. reflexivity.
  - cbn. intros H. repeat (destruct H as [H|H]; [discriminate H|]). exact H.
Defined.

(** ** Shapes through the blocks, in general *)

Lemma half_floor h : 2 <= h -> (h - 2) / 2 + 1 = h / 2.
Proof.
  intros H. replace h with (h - 2 + 1 * 2) at 2 by lia.
  rewrite Nat.div_add by discriminate. reflexivity.
Qed.

Section GeneralShapes.

Variable ext : nat -> shape -> result shape.
Variable st : list param.
Variable training : bool.

#[local] Instance SBg : Backend shape := shape_backend ext.

Lemma convk_shape cin cout k wt b n c h w :
  apply st training (Conv2d cin cout k 1 1 wt b) (Shape n c h w) tt
  = if (c =? cin) && (0 <? k) && (k <=? h + 2) && (k <=? w + 2)
    then Ok (Shape n cout (h + 3 - k) (w + 3 - k), tt)
    else Err RuntimeError.
Proof.
  cbn [apply liftF layer SBg shape_backend shape_layer]. unfold conv_out.
  rewrite !Nat.div_1_r.
  replace (h + 2 * 1) with (h + 2) by lia. replace (w + 2 * 1) with (w + 2) by lia.
  change (0 <? 1) with true. rewrite (andb_true_r ((c =? cin) && (0 <? k))).
  destruct ((c =? cin) && (0 <? k) && (k <=? h + 2) && (k <=? w + 2)) eqn:E;
    [|reflexivity].
  apply andb_prop in E as [E Hw]. apply andb_prop in E as [E Hh].
  apply Nat.leb_le in Hh, Hw. cbn [liftF].
  replace (h + 2 - k + 1) with (h + 3 - k) by lia.
  replace (w + 2 - k + 1) with (w + 3 - k) by lia.
  reflexivity.
Qed.

Lemma pool_floor n c h w :
  apply st training (MaxPool2d 2 2) (Shape n c h w) tt
  = if (2 <=? h) && (2 <=? w) then Ok (Shape n c (h / 2) (w / 2), tt)
    else Err RuntimeError.
Proof.
  cbn [apply liftF layer SBg shape_backend shape_layer].
  change (0 <? 2) with true. cbn [andb].
  destruct ((2 <=? h) && (2 <=? w)) eqn:E; [|reflexivity].
  apply andb_prop in E as [Hh Hw]. apply Nat.leb_le in Hh, Hw.
  rewrite !half_floor by assumption. reflexivity.
Qed.

(** A normalisation layer returns its input or fails. *)
Lemma norm_cases c l x :
  norm_for c l ->
  apply st training l x tt = Ok (x, tt) \/ exists e, apply st training l x tt = Err e.
Proof.
  destruct x as [n c' h w].
  destruct l; cbn; try contradiction; intros _;
    repeat match goal with
           | |- context [if ?b then _ else _] => destruct b
           end; eauto.
Qed.

Lemma norm_ok_inv c l x y g :
  norm_for c l -> apply st training l x tt = Ok (y, g) -> y = x.
Proof.
  intros Hn H. destruct (norm_cases c l x Hn) as [N|[e N]]; rewrite N in H.
  - injection H as <- _. reflexivity.
  - discriminate.
Qed.

Lemma DoubleConv2d_ok_inv cin cout bias norm s d s' n c h w y g :
  DoubleConv2d_init cin cout 3 bias norm s = Ok (d, s') ->
  DoubleConv2d_forward st training d (Shape n c h w) tt = Ok (y, g) ->
  c = cin /\ 1 <= h /\ 1 <= w /\ y = Shape n cout h w.
Proof.
  unfold DoubleConv2d_init. intros H. monad_inv H.
  repeat match goal with
         | H : new_Conv2d _ _ _ _ _ _ _ = Ok _ |- _ => unfold new_Conv2d in H; monad_inv H
         | H : new_norm _ _ _ = Ok _ |- _ => apply new_norm_for in H
         end.
  unfold DoubleConv2d_forward. cbn [dc_layer Sequential_forward]. intros F.
  apply bindF_inv in F as (x1 & [] & F1 & F).
  rewrite convk_shape in F1.
  destruct ((c =? cin) && (0 <? 3) && (3 <=? h + 2) && (3 <=? w + 2)) eqn:E1;
    [|discriminate].
  injection F1 as <-.
  apply andb_prop in E1 as [E1 Hw]. apply andb_prop in E1 as [E1 Hh].
  apply andb_prop in E1 as [Hc _].
  apply Nat.eqb_eq in Hc. apply Nat.leb_le in Hh, Hw.
  replace (h + 3 - 3) with h in F by lia. replace (w + 3 - 3) with w in F by lia.
  apply bindF_inv in F as (x2 & [] & F2 & F).
  match goal with Hn : norm_for _ ?l, F' : @apply _ _ _ _ ?l _ _ = Ok _ |- _ =>
    apply (norm_ok_inv _ _ _ _ _ Hn) in F'; subst end.
  apply bindF_inv in F as (x3 & [] & F3 & F). injection F3 as <-.
  apply bindF_inv in F as (x4 & [] & F4 & F).
  rewrite convk_shape, Nat.eqb_refl in F4.
  replace (3 <=? h + 2) with true in F4 by (symmetry; apply Nat.leb_le; lia).
  replace (3 <=? w + 2) with true in F4 by (symmetry; apply Nat.leb_le; lia).
  cbn [andb Nat.ltb Nat.leb] in F4. injection F4 as <-.
  replace (h + 3 - 3) with h in F by lia. replace (w + 3 - 3) with w in F by lia.
  apply bindF_inv in F as (x5 & [] & F5 & F).
  match goal with Hn : norm_for _ ?l, F' : @apply _ _ _ _ ?l _ _ = Ok _ |- _ =>
    apply (norm_ok_inv _ _ _ _ _ Hn) in F'; subst end.
  apply bindF_inv in F as (x6 & [] & F6 & F). injection F6 as <-.
  injection F as <- _. repeat split; first [reflexivity | lia].
Qed.

Lemma EncoderBlock_floor cin cout bias norm dropout s b s' n h w :
  EncoderBlock_init cin cout 3 bias norm dropout s = Ok (b, s') ->
  2 <= h -> 2 <= w ->
  EncoderBlock_forward st training b (Shape n cin h w) tt
  = Ok ((Shape n cout h w, Shape n cout (h / 2) (w / 2)), tt).
Proof.
  unfold EncoderBlock_init. intros H Hh Hw. monad_inv H.
  unfold EncoderBlock_forward. cbn [eb_conv eb_pool eb_drop].
  rewrite (bindF_step _ _ _ _ _
            (DoubleConv2d_shape ext st training _ _ _ _ _ _ _ n h w Hm Hh Hw)).
  rewrite (bindF_step _ _ tt (Shape n cout (h / 2) (w / 2)) tt).
  2:{ rewrite pool_floor.
      replace (2 <=? h) with true by (symmetry; apply Nat.leb_le; lia).
      replace (2 <=? w) with true by (symmetry; apply Nat.leb_le; lia).
      reflexivity. }
  cbn [apply]. rewrite (bindF_step _ _ _ _ _ (dropout_shape ext training _ _ tt)).
  reflexivity.
Qed.

Lemma EncoderBlock_floor_inv cin cout bias norm dropout s b s' n c h w r :
  EncoderBlock_init cin cout 3 bias norm dropout s = Ok (b, s') ->
  EncoderBlock_forward st training b (Shape n c h w) tt = Ok r ->
  c = cin /\ 2 <= h /\ 2 <= w
  /\ r = ((Shape n cout h w, Shape n cout (h / 2) (w / 2)), tt).
Proof.
  intros H F.
  assert (Hc : c = cin /\ 2 <= h /\ 2 <= w).
  { unfold EncoderBlock_init in H. monad_inv H.
    unfold EncoderBlock_forward in F. cbn [eb_conv eb_pool eb_drop] in F.
    apply bindF_inv in F as (y & [] & F1 & F).
    apply (DoubleConv2d_ok_inv _ _ _ _ _ _ _ _ _ _ _ _ _ Hm) in F1 as (Hc & _ & _ & ->).
    apply bindF_inv in F as (p & [] & F2 & _).
    rewrite pool_floor in F2.
    destruct ((2 <=? h) && (2 <=? w)) eqn:E; [|discriminate].
    apply andb_prop in E as [Hh Hw]. apply Nat.leb_le in Hh, Hw. repeat split; assumption. }
  destruct Hc as (-> & Hh & Hw).
  rewrite (EncoderBlock_floor _ _ _ _ _ _ _ _ n h w H Hh Hw) in F.
  injection F as <-. repeat split; assumption.
Qed.

Lemma DecoderBlock_inv cin cout bias norm dropout ui uo s b s'
    n1 c1 h1 w1 n2 c2 h2 w2 r :
  DecoderBlock_init cin cout 3 bias norm dropout ui uo s = Ok (b, s') ->
  DecoderBlock_forward st training b (Shape n1 c1 h1 w1) (Shape n2 c2 h2 w2) tt
  = Ok (r, tt) ->
  c1 = default cin ui /\ 1 <= h1 /\ 1 <= w1
  /\ n2 = n1 /\ h2 = 2 * h1 /\ w2 = 2 * w1
  /\ c2 + default cout uo = cin
  /\ r = Shape n1 cout (2 * h1) (2 * w1).
Proof.
  unfold DecoderBlock_init. intros H. monad_inv H.
  unfold new_ConvTranspose2d in Hm. monad_inv Hm.
  unfold DecoderBlock_forward. cbn [db_trans db_conv db_drop]. intros F.
  apply bindF_inv in F as (x & [] & F1 & F).
  cbn [apply liftF layer SBg shape_backend shape_layer] in F1.
  destruct ((c1 =? default cin ui) && (0 <? h1) && (0 <? w1)) eqn:E1; [|discriminate].
  injection F1 as <-.
  apply andb_prop in E1 as [E1 Hw]. apply andb_prop in E1 as [Hc Hh].
  apply Nat.eqb_eq in Hc. apply Nat.ltb_lt in Hh, Hw.
  apply bindF_inv in F as (y & [] & F2 & F).
  cbn [cat SBg shape_backend shape_cat] in F2.
  destruct ((n2 =? n1) && (h2 =? (h1 - 1) * 2 + 2) && (w2 =? (w1 - 1) * 2 + 2)) eqn:E2;
    [|discriminate].
  injection F2 as <-.
  apply andb_prop in E2 as [E2 Ew]. apply andb_prop in E2 as [En Eh].
  apply Nat.eqb_eq in En, Eh, Ew.
  apply bindF_inv in F as (z & [] & F3 & F).
  apply (DoubleConv2d_ok_inv _ _ _ _ _ _ _ _ _ _ _ _ _ Hm0) in F3 as (Ec & _ & _ & ->).
  cbn [apply] in F. rewrite (bindF_step _ _ _ _ _ (dropout_shape ext training _ _ tt)) in F.
  injection F as <-.
  repeat split; try assumption; try lia. f_equal; lia.
Qed.

End GeneralShapes.







(** ** A plain U-Net on sizes one above a multiple of 32 *)

Lemma half_odd m a : a <= 1 -> (2 * m + a) / 2 = m.
Proof.
  intros Ha. rewrite (Nat.mul_comm 2 m), Nat.add_comm, Nat.div_add by discriminate.
  rewrite (Nat.div_small a 2) by lia. reflexivity.
Qed.

Lemma plain_forward_crop_pow2 provider ext C N bias norm dropout pretrained freeze_grad
    init_weights s0 u s st training n h w a b :
  UNet_init provider C N None pretrained freeze_grad 3 bias norm dropout init_weights s0 = Ok (u, s) ->
  0 < h -> 0 < w -> a <= 1 -> b <= 1 ->
  run (UNet_forward (B := shape_backend ext) st training u
         (Shape n C (2 * (2 * (2 * (2 * (2 * h)))) + a) (2 * (2 * (2 * (2 * (2 * w)))) + b))) tt
  = Ok (Shape n N (2 * (2 * (2 * (2 * (2 * h))))) (2 * (2 * (2 * (2 * (2 * w)))))).
Proof.
  intros H Hh Hw Ha Hb.
  unfold UNet_init in H. monad_inv H. clear Hm0.
  unfold UNet_build in Hm. monad_inv Hm.
  unfold EncoderBlocks_init in Hm0.
  change (py_init UNet_filters) with [64; 128; 256; 512] in Hm0.
  cbn [encoder_loop] in Hm0. monad_inv Hm0.
  cbn [enc_filters] in *. index_inv.
  unfold DecoderBlocks_init in Hm1.
  change (length UNet_filters - 1) with 4 in Hm1. cbn [seq mapM] in Hm1.
  monad_inv Hm1. index_inv.
  unfold new_ConvTranspose2d in Hm2. monad_inv Hm2.
  unfold new_Conv2d in Hm3. monad_inv Hm3.
  unfold run, UNet_forward, EncoderBlocks_forward.
  cbn [unet_encoder unet_center unet_decoder unet_out plain_loop fst snd app].
  pose proof (EncoderBlock_floor ext st training _ _ _ _ _ _ _ _ n
                (2 * (2 * (2 * (2 * (2 * h)))) + a) (2 * (2 * (2 * (2 * (2 * w)))) + b)
                Hm0 ltac:(lia) ltac:(lia)) as E0.
  rewrite !half_odd in E0 by assumption.
  fwd E0.
  fwd (EncoderBlock_shape ext st training _ _ _ _ _ _ _ _ n (2 * (2 * (2 * h))) (2 * (2 * (2 * w))) Hm5 ltac:(lia) ltac:(lia)).
  fwd (EncoderBlock_shape ext st training _ _ _ _ _ _ _ _ n (2 * (2 * h)) (2 * (2 * w)) Hm6 ltac:(lia) ltac:(lia)).
  fwd (EncoderBlock_shape ext st training _ _ _ _ _ _ _ _ n (2 * h) (2 * w) Hm7 ltac:(lia) ltac:(lia)).
  rewrite ?bindF_assoc, !retF_bind. unfold return_pair. cbn [fst snd]. rewrite retF_bind.
  cbn [fst snd].
  fwd (DoubleConv2d_shape ext st training _ _ _ _ _ _ _ n (2 * h) (2 * w) Hm ltac:(lia) ltac:(lia)).
  unfold DecoderBlocks_forward. cbn [dec_backbone dec_pool dec_decoder decoder_loop].
  match goal with
  | |- context [py_index [?a; ?b; ?c; ?d] _] =>
      destruct (skip4 a b c d) as (I0 & I1 & I2 & I3)
  end.
  rewrite I0, I1, I2, I3. clear I0 I1 I2 I3.
  rewrite !(bool_decide_eq_true_2 _ (eq_refl (@None string))).
  fwd (pool_shape ext st training n 1024 h w ltac:(lia) ltac:(lia)).
  rewrite ?bindF_assoc, liftF_bind.
  fwd (pool_shape ext st training n 512 (2 * h) (2 * w) ltac:(lia) ltac:(lia)).
  fwd (DecoderBlock_shape ext st training _ _ 512 _ _ _ _ _ _ n h w Hk2 eq_refl ltac:(lia) ltac:(lia)).
  rewrite ?bindF_assoc, liftF_bind.
  fwd (pool_shape ext st training n 256 (2 * (2 * h)) (2 * (2 * w)) ltac:(lia) ltac:(lia)).
  fwd (DecoderBlock_shape ext st training _ _ 256 _ _ _ _ _ _ n (2 * h) (2 * w) Hk4 eq_refl ltac:(lia) ltac:(lia)).
  rewrite ?bindF_assoc, liftF_bind.
  fwd (pool_shape ext st training n 128 (2 * (2 * (2 * h))) (2 * (2 * (2 * w))) ltac:(lia) ltac:(lia)).
  fwd (DecoderBlock_shape ext st training _ _ 128 _ _ _ _ _ _ n (2 * (2 * h)) (2 * (2 * w)) Hk6 eq_refl ltac:(lia) ltac:(lia)).
  rewrite ?bindF_assoc, liftF_bind.
  assert (P0 : apply (B := shape_backend ext) st training (MaxPool2d 2 2)
                 (Shape n 64 (2 * (2 * (2 * (2 * (2 * h)))) + a)
                    (2 * (2 * (2 * (2 * (2 * w)))) + b)) tt
               = Ok (Shape n 64 (2 * (2 * (2 * (2 * h)))) (2 * (2 * (2 * (2 * w)))), tt)).
  { rewrite pool_floor.
    replace (2 <=? 2 * (2 * (2 * (2 * (2 * h)))) + a) with true
      by (symmetry; apply Nat.leb_le; lia).
    replace (2 <=? 2 * (2 * (2 * (2 * (2 * w)))) + b) with true
      by (symmetry; apply Nat.leb_le; lia).
    cbn [andb]. rewrite !half_odd by assumption. reflexivity. }
  fwd P0.
  fwd (DecoderBlock_shape ext st training _ _ 64 _ _ _ _ _ _ n (2 * (2 * (2 * h))) (2 * (2 * (2 * w))) Hk8 eq_refl ltac:(lia) ltac:(lia)).
  rewrite ?bindF_assoc, retF_bind.
  cbn [Sequential_forward].
  match goal with |- context [ConvTranspose2d 64 64 2 2 ?wt ?bb] =>
    fwd (trans_shape ext st training 64 64 wt bb n (2 * (2 * (2 * (2 * h)))) (2 * (2 * (2 * (2 * w)))) ltac:(lia) ltac:(lia)) end.
  match goal with |- context [Conv2d 64 N 1 1 0 ?wt ?bb] =>
    fwd (conv1_shape ext st training 64 N wt bb n (2 * (2 * (2 * (2 * (2 * h))))) (2 * (2 * (2 * (2 * (2 * w))))) ltac:(lia) ltac:(lia)) end.
  reflexivity.
Qed.

(** ** The width the center block demands of a backbone *)

Lemma DoubleConv2d_channel ext st training cin cout k bias norm s d s' n c h w r :
  DoubleConv2d_init cin cout k bias norm s = Ok (d, s') ->
  DoubleConv2d_forward (B := shape_backend ext) st training d (Shape n c h w) tt = Ok r ->
  c = cin.
Proof.
  unfold DoubleConv2d_init. intros H. monad_inv H.
  match goal with H : new_Conv2d cin _ _ _ _ _ _ = Ok _ |- _ =>
    unfold new_Conv2d in H; monad_inv H end.
  unfold DoubleConv2d_forward. cbn [dc_layer Sequential_forward]. intros F.
  apply bindF_inv in F as (x1 & g1 & F1 & _).
  cbn [apply liftF layer shape_backend shape_layer] in F1.
  destruct (c =? cin) eqn:E; [apply Nat.eqb_eq in E; exact E|discriminate].
Qed.

Lemma backbone_encoder_widths provider ext name ctor fs C pretrained freeze_grad k bias
    norm dropout s0 e s1 st training n h w w0 w1 w2 w3 w4 :
  backbones provider name = Ok (ctor, fs) ->
  resnet_contract ext (ctor C pretrained) C w0 w1 w2 w3 w4 ->
  EncoderBlocks_init provider C UNet_filters (Some name) pretrained freeze_grad k bias
                     norm dropout s0 = Ok (e, s1) ->
  0 < h -> 0 < w ->
  enc_filters e = fs
  /\ EncoderBlocks_forward (B := shape_backend ext) st training e
       (Shape n C (2 * (2 * (2 * (2 * (2 * (2 * h))))))
                  (2 * (2 * (2 * (2 * (2 * (2 * w))))))) tt
     = Ok (([Shape n w0 (2 * (2 * (2 * (2 * (2 * h))))) (2 * (2 * (2 * (2 * (2 * w)))));
             Shape n w1 (2 * (2 * (2 * (2 * h)))) (2 * (2 * (2 * (2 * w))));
             Shape n w2 (2 * (2 * (2 * h))) (2 * (2 * (2 * w)));
             Shape n w3 (2 * (2 * h)) (2 * (2 * w));
             Shape n w4 (2 * h) (2 * w)],
            Shape n w4 (2 * h) (2 * w)), tt).
Proof.
  intros Hb [Hnames Hrest Hc0 Hc1 Hc2 Hc3 Hc4 Hc5 Hc6 Hc7] H Hh Hw.
  cbn [EncoderBlocks_init] in H; monad_inv H.
  match goal with H : backbones provider name = Ok ?a |- _ =>
    rewrite Hb in H; injection H as <- end.
  match goal with H : (if freeze_grad then _ else _) _ = _ |- _ => clear H end.
  cbn [fst snd enc_filters] in *.
  set (cs := ctor C pretrained) in *. clearbody cs.
  destruct cs as [|c0 [|c1 [|c2 [|c3 [|c4 [|c5 [|c6 [|c7 rest]]]]]]]];
    try discriminate Hnames.
  destruct c0 as [nm0 t0 ps0], c1 as [nm1 t1 ps1], c2 as [nm2 t2 ps2],
           c3 as [nm3 t3 ps3], c4 as [nm4 t4 ps4], c5 as [nm5 t5 ps5],
           c6 as [nm6 t6 ps6], c7 as [nm7 t7 ps7].
  cbn [map take drop ec_name] in Hnames, Hrest.
  injection Hnames as N0 N1 N2 N3 N4 N5 N6 N7.
  cbn [tag_of map nth ec_tag] in Hc0, Hc1, Hc2, Hc3, Hc4, Hc5, Hc6, Hc7.
  match goal with H : instantiate _ _ = _ |- _ =>
    unfold instantiate in H; cbn [mapM ec_name ec_tag ec_params] in H; monad_inv H end.
  match goal with H : mapM _ rest _ = Ok (?r, _) |- _ =>
    apply instantiate_names in H; rename r into rest_enc; rename H into Hren end.
  subst.
  repeat match goal with
         | E : getattr _ _ = Ok _ |- _ =>
             vm_compute in E; injection E as <-
         end.
  split; [reflexivity|].
  match goal with
  | |- context [EncoderBackbone _ _ (?k0 :: ?k1 :: ?k2 :: ?k3 :: ?k4 :: ?k5 :: ?k6
                                     :: ?k7 :: rest_enc) _ _] =>
      assert (Hl : layer_children (k0 :: k1 :: k2 :: k3 :: k4 :: k5 :: k6 :: k7 :: rest_enc)
                   = [k4; k5; k6; k7])
  end.
  { unfold layer_children. cbn [List.filter fst].
    change (name_in "conv1" backbone_layers) with false.
    change (name_in "bn1" backbone_layers) with false.
    change (name_in "relu" backbone_layers) with false.
    change (name_in "pool" backbone_layers) with false.
    change (name_in "layer1" backbone_layers) with true.
    change (name_in "layer2" backbone_layers) with true.
    change (name_in "layer3" backbone_layers) with true.
    change (name_in "layer4" backbone_layers) with true.
    cbn iota. do 4 f_equal.
    apply layer_children_none. rewrite Hren. exact Hrest. }
  match goal with
  | |- EncoderBlocks_forward _ _ (EncoderBackbone ?fs ?nm ?ch ?inp ?pl) _ _ = _ =>
      apply (proj2 (backbone_forward_spec (B := shape_backend ext) st training
                      fs nm ch inp pl _ _ _ _ _ _ _ _ _ Hl))
  end.
  eexists _, tt, _, tt, _, tt, _, tt, _, tt, _.
  split.
  { cbn [Sequential_forward].
    rewrite (bindF_step _ _ _ _ _ (stage_apply ext st training _ _ _ _ n (2 * (2 * (2 * (2 * (2 * h))))) (2 * (2 * (2 * (2 * (2 * w)))))
                                   Hc0 ltac:(lia) ltac:(lia))).
    rewrite (bindF_step _ _ _ _ _ (stage1_apply ext st training _ _ _ _ n (2 * (2 * (2 * (2 * (2 * h))))) (2 * (2 * (2 * (2 * (2 * w)))))
                                   Hc1 ltac:(lia) ltac:(lia))).
    rewrite (bindF_step _ _ _ _ _ (stage1_apply ext st training _ _ _ _ n (2 * (2 * (2 * (2 * (2 * h))))) (2 * (2 * (2 * (2 * (2 * w)))))
                                   Hc2 ltac:(lia) ltac:(lia))).
    reflexivity. }
  split; [apply (stage_apply ext st training _ _ _ _ n (2 * (2 * (2 * (2 * h)))) (2 * (2 * (2 * (2 * w)))) Hc3); lia|].
  split; [apply (stage1_apply ext st training _ _ _ _ n (2 * (2 * (2 * (2 * h)))) (2 * (2 * (2 * (2 * w)))) Hc4); lia|].
  split; [apply (stage_apply ext st training _ _ _ _ n (2 * (2 * (2 * h))) (2 * (2 * (2 * w))) Hc5); lia|].
  split; [apply (stage_apply ext st training _ _ _ _ n (2 * (2 * h)) (2 * (2 * w)) Hc6); lia|].
  split; [apply (stage_apply ext st training _ _ _ _ n (2 * h) (2 * w) Hc7); lia|].
  split; reflexivity.
Qed.

(** X7.  In backbone mode, for any kernel size: if the backbone keeps to the
    ResNet layout with stage widths w0..w4 and the forward pass returns on an
    input whose sides are multiples of 64, then layer4 outputs as many
    channels as the center block was built for, the second-to-last filter
    width: 512 for resnet18 and resnet34, 1024 for resnet50, resnet101 and
    resnet152. *)
Theorem backbone_center_width provider ext name ctor fs C N k bias norm dropout pretrained
    freeze_grad init_weights s0 u s st training n h w w0 w1 w2 w3 w4 r :
  backbones provider name = Ok (ctor, fs) ->
  resnet_contract ext (ctor C pretrained) C w0 w1 w2 w3 w4 ->
  UNet_init provider C N (Some name) pretrained freeze_grad k bias norm dropout
            init_weights s0 = Ok (u, s) ->
  0 < h -> 0 < w ->
  run (UNet_forward (B := shape_backend ext) st training u
         (Shape n C (64 * h) (64 * w))) tt = Ok r ->
  ((name = "resnet18" \/ name = "resnet34") /\ w4 = 512)
  \/ ((name = "resnet50" \/ name = "resnet101" \/ name = "resnet152") /\ w4 = 1024).
Proof.
  intros Hb Hc H Hh Hw Hrun.
  apply UNet_init_inv in H as (s1 & H & _).
  unfold UNet_build in H. monad_inv H.
  match goal with H : EncoderBlocks_init _ _ _ _ _ _ _ _ _ _ _ = _ |- _ =>
    destruct (backbone_encoder_widths provider ext name ctor fs C pretrained freeze_grad k
                bias norm dropout _ _ _ st training n h w w0 w1 w2 w3 w4 Hb Hc H Hh Hw)
      as [Hfs Henc] end.
  rewrite Hfs in *.
  replace (64 * h) with (2 * (2 * (2 * (2 * (2 * (2 * h)))))) in Hrun by lia.
  replace (64 * w) with (2 * (2 * (2 * (2 * (2 * (2 * w)))))) in Hrun by lia.
  unfold run, UNet_forward in Hrun. cbn [unet_encoder unet_center] in Hrun.
  rewrite (bindF_step _ _ _ _ _ Henc) in Hrun. cbn [fst snd] in Hrun.
  match type of Hrun with
  | match bindF ?m ?f ?g with _ => _ end = _ =>
      destruct (m g) as [[c g1]|e] eqn:Ecen;
        [|unfold bindF in Hrun; rewrite Ecen in Hrun; discriminate]
  end.
  destruct g1.
  match goal with Hd : DoubleConv2d_init _ _ _ _ _ _ = Ok _ |- _ =>
    pose proof (DoubleConv2d_channel ext st training _ _ _ _ _ _ _ _ _ _ _ _ _ Hd Ecen)
      as Ew end.
  destruct (backbones_inv _ _ _ _ Hb) as [[Hn ->]|[Hn ->]]; [left|right];
    (split; [exact Hn|]); index_inv; exact Ew.
Qed.

Lemma backbone_center_width_witness :
  exists u s,
    UNet_init toy_provider 3 2 (Some "resnet18") false false 3 false None 0%Qc true []
    = Ok (u, s)
    /\ ((("resnet18" = "resnet18" \/ "resnet18" = "resnet34") /\ 512 = 512)
        \/ (("resnet18" = "resnet50" \/ "resnet18" = "resnet101"
             \/ "resnet18" = "resnet152") /\ 512 = 1024)).
Proof.
  eexists _, _. split.
  - vm_compute. reflexivity.
  - eapply (backbone_center_width toy_provider (toy_ext 3 [64; 64; 128; 256; 512])
              "resnet18" toy_children _ 3 2 3 false None 0%Qc false false true []
              _ _ [] true 1 1 1 64 64 128 256 512 (Shape 1 2 64 64)).
    + reflexivity.
    + apply toy_contract.
    + vm_compute. reflexivity.
    + lia.
    + lia.
    + vm_compute. reflexivity.
Defined.

(** ** What construction leaves alone *)

(** X8.  Constructing a U-Net, in either mode and with or without freezing
    and weight initialisation, only adds parameters: every parameter that
    existed before keeps its value and its requires_grad flag. *)
Theorem UNet_init_frame provider C N backbone pretrained freeze_grad k bias norm dropout
    init_weights s0 u s :
  UNet_init provider C N backbone pretrained freeze_grad k bias norm dropout
            init_weights s0 = Ok (u, s) ->
  length s0 <= length s /\ forall l, l < length s0 -> s !! l = s0 !! l.
Proof.
  intros H. apply UNet_init_inv in H as (s1 & Hb & Hi).
  destruct backbone as [name|].
  - destruct (UNet_build_backbone _ _ _ _ _ _ _ _ _ _ _ _ _ Hb) as (ctor & fs & Hreg).
    destruct (backbone_build_inv _ _ _ _ _ _ _ _ _ _ _ _ _ _ _ Hreg Hb)
      as (children & inputs & pool & sa & sb & ext & _ & Hsa & Hch & Hfr & Hs1 & Hhead & _).
    assert (Hsb : length sb = length sa /\ forall l, l < length s0 -> sb !! l = s0 !! l).
    { destruct freeze_grad.
      - apply freeze_spec in Hfr as (Hlen & _ & _ & Hkeep). split; [exact Hlen|].
        intros l Hl. rewrite Hkeep.
        + subst sa. apply lookup_app_l, Hl.
        + intros Hin. apply (backbone_parameters_range _ _ _ _ Hch) in Hin. lia.
      - subst sb. split; [reflexivity|]. intros l Hl. subst sa. apply lookup_app_l, Hl. }
    destruct Hsb as [Hlen Hkeep].
    assert (Hla : length s0 <= length sb).
    { rewrite Hlen. subst sa. rewrite length_app. lia. }
    assert (Hs : length s = length s1 /\ forall l, l < length s0 -> s !! l = s1 !! l).
    { destruct init_weights; [|subst s; split; reflexivity].
      apply init_pass_writes in Hi. subst s. split; [apply apply_writes_length|].
      intros l Hl. apply apply_writes_notin. intros Hin.
      apply backbone_writes_in_head in Hin. rewrite Hhead in Hin.
      apply list_elem_of_In, elem_of_seq in Hin. lia. }
    destruct Hs as [Hls Hks]. split.
    + rewrite Hls. subst s1. rewrite length_app. lia.
    + intros l Hl. rewrite Hks by exact Hl. subst s1.
      rewrite lookup_app_l by lia. apply Hkeep, Hl.
  - pose proof (allocates_UNet_plain _ _ _ _ _ _ _ _ _ _ _ _ Hb) as (ext & -> & Hp & _).
    destruct init_weights.
    + apply init_pass_writes in Hi. subst s. split.
      * rewrite apply_writes_length, length_app. lia.
      * intros l Hl. rewrite apply_writes_notin; [apply lookup_app_l, Hl|].
        intros Hin. apply in_map_iff in Hin as ([l' v] & <- & Hin).
        set (root := UNet_module u) in *.
        destruct (tree_write_origin root (init_target None u)
                    (fun t Ht => Ht) l' v Hin) as (lf & _ & Hlf & Hl' & _).
        assert (Hmem : In l' (module_parameters root)).
        { apply in_flat_map. exists lf. split; assumption. }
        rewrite Hp in Hmem. apply list_elem_of_In, elem_of_seq in Hmem.
        cbn [fst] in Hl. lia.
    + subst s. split; [rewrite length_app; lia|].
      intros l Hl. apply lookup_app_l, Hl.
Qed.

Lemma UNet_init_frame_witness :
  exists u s,
    UNet_init toy_provider 3 2 (Some "resnet18") true true 3 true None 0%Qc true
              [{| data := loaded 7; requires_grad := false |}] = Ok (u, s)
    /\ 1 <= length s
    /\ forall l, l < 1 -> s !! l = [{| data := loaded 7; requires_grad := false |}] !! l.
Proof.
  eexists _, _. split.
  - vm_compute. reflexivity.
  - eapply (UNet_init_frame toy_provider 3 2 (Some "resnet18") true true 3 true None 0%Qc
              true [{| data := loaded 7; requires_grad := false |}]).
    vm_compute. reflexivity.
Defined.

(** X9.  The parameters of a plain U-Net are exactly the ones its
    construction allocated, each held by one layer only, and all of them are
    trainable after construction, with or without weight initialisation. *)
Theorem plain_parameters_fresh provider C N pretrained freeze_grad k bias norm dropout
    init_weights s0 u s :
  UNet_init provider C N None pretrained freeze_grad k bias norm dropout init_weights s0
  = Ok (u, s) ->
  module_parameters (UNet_module u) = seq (length s0) (length s - length s0)
  /\ NoDup (module_parameters (UNet_module u))
  /\ forall l, In l (module_parameters (UNet_module u)) ->
       requires_grad <$> s !! l = Some true.
Proof.
  intros H. apply UNet_init_inv in H as (s1 & Hb & Hi).
  pose proof (allocates_UNet_plain _ _ _ _ _ _ _ _ _ _ _ _ Hb) as (ext & -> & Hp & Hg).
  assert (Hs : length s = length (s0 ++ ext)
               /\ forall l, requires_grad <$> s !! l = requires_grad <$> (s0 ++ ext) !! l).
  { destruct init_weights; [|subst s; split; reflexivity].
    apply init_pass_writes in Hi. subst s.
    split; [apply apply_writes_length|]. intros l. apply apply_writes_requires_grad. }
  destruct Hs as [Hlen Hrg]. rewrite Hlen, length_app.
  replace (length s0 + length ext - length s0) with (length ext) by lia.
  split; [exact Hp|]. split; [rewrite Hp; apply NoDup_seq|].
  intros l Hl. rewrite Hp in Hl. apply list_elem_of_In, elem_of_seq in Hl.
  rewrite Hrg, lookup_app_r by lia.
  destruct (lookup_lt_is_Some_2 ext (l - length s0) ltac:(lia)) as [p Hp'].
  rewrite Hp'. cbn. f_equal.
  rewrite Forall_forall in Hg. apply Hg. apply list_elem_of_In.
  eapply list_elem_of_lookup_2, Hp'.
Qed.

Lemma plain_parameters_fresh_witness :
  exists u s,
    UNet_init empty_provider 3 2 None false true 3 true None 0%Qc true [] = Ok (u, s)
    /\ module_parameters (UNet_module u) = seq (length (@nil param)) (length s - length (@nil param))
    /\ NoDup (module_parameters (UNet_module u))
    /\ forall l, In l (module_parameters (UNet_module u)) ->
         requires_grad <$> s !! l = Some true.
Proof.
  eexists _, _. split.
  - vm_compute. reflexivity.
  - eapply (plain_parameters_fresh empty_provider 3 2 false true 3 true None 0%Qc true []).
    vm_compute. reflexivity.
Defined.

(** ** When construction fails *)

Lemma center_norm_leaf cin cout k bias n s d s' :
  DoubleConv2d_init cin cout k bias (Some n) s = Ok (d, s') ->
  exists c1 l rest, dc_layer d = c1 :: l :: rest /\ exists s1 s2, new_norm n cout s1 = Ok (l, s2).
Proof.
  unfold DoubleConv2d_init. intros H. monad_inv H.
  eexists _, _, _. split; [reflexivity|].
  match goal with H : new_norm _ _ ?s1 = Ok (_, ?s2) |- _ => exists s1, s2; exact H end.
Qed.

Lemma norm_leaf_in_DoubleConv2d d c1 l rest :
  dc_layer d = c1 :: l :: rest -> In (Leaf l) (modules (DoubleConv2d_module d)).
Proof.
  intros E. unfold DoubleConv2d_module, Sequential_module. rewrite E.
  cbn. right. right. right. left. reflexivity.
Qed.

Lemma center_in_UNet u :
  In (DoubleConv2d_module (unet_center u)) (modules (UNet_module u)).
Proof.
  unfold UNet_module. cbn [modules flat_map]. right.
  apply in_or_app. right. apply in_or_app. left. apply modules_self.
Qed.

Lemma nonaffine_init_pass provider C N backbone pretrained freeze_grad k bias dropout
    s0 u s1 r s :
  UNet_build provider C N backbone pretrained freeze_grad k bias
             (Some (nn_InstanceNorm2d false)) dropout s0 = Ok (u, s1) ->
  init_pass (init_target backbone u) s1 = Ok (r, s) -> False.
Proof.
  intros Hb Hi.
  assert (Hc : exists c1 c rest,
             dc_layer (unet_center u) = c1 :: InstanceNorm2d c None None :: rest).
  { unfold UNet_build in Hb. monad_inv Hb.
    match goal with H : DoubleConv2d_init _ _ _ _ _ _ = Ok _ |- _ =>
      apply center_norm_leaf in H as (c1 & l & rest & Hd & sa & sb & Hn) end.
    cbn [new_norm new_param_if] in Hn. injection Hn as <- _.
    cbn [unet_center]. eexists _, _, _. exact Hd. }
  destruct Hc as (c1 & c & rest & Hd).
  pose proof (norm_leaf_in_DoubleConv2d _ _ _ _ Hd) as Hleaf.
  assert (Hin : exists t, In t (init_target backbone u)
                          /\ In (Leaf (InstanceNorm2d c None None)) (modules t)).
  { unfold init_target, operate. destruct (bool_decide (backbone = None)).
    - exists (Leaf (InstanceNorm2d c None None)). split; [|left; reflexivity].
      exact (modules_trans _ _ _ (center_in_UNet u) Hleaf).
    - exists (DoubleConv2d_module (unet_center u)). split; [left; reflexivity|exact Hleaf]. }
  destruct Hin as (t & Ht & Hm).
  destruct (init_pass_norm_ok _ _ _ _ t _ None None Hi Ht Hm eq_refl) as (w' & _ & Hw & _).
  discriminate Hw.
Qed.

(** X10.  With a normalisation constructor that yields non-affine instance
    normalisation (the default of nn.InstanceNorm2d) and init_weights=true,
    construction never returns, in plain as in backbone mode: the
    initialisation pass calls nn.init.constant_ on the missing weight of the
    center block's normalisation layer at the latest. *)
Theorem instance_norm_init_fails provider C N backbone pretrained freeze_grad k bias
    dropout s0 :
  is_ok (UNet_init provider C N backbone pretrained freeze_grad k bias
                   (Some (nn_InstanceNorm2d false)) dropout true s0) = false.
Proof.
  destruct (UNet_init _ _ _ _ _ _ _ _ _ _ _ _) as [[u s]|e] eqn:E; [exfalso|reflexivity].
  apply UNet_init_inv in E as (s1 & Hb & Hi).
  exact (nonaffine_init_pass _ _ _ _ _ _ _ _ _ _ _ _ _ _ Hb Hi).
Qed.

Lemma divisors_64 g : 0 < g -> 64 mod g = 0 -> In g [1; 2; 4; 8; 16; 32; 64].
Proof.
  intros Hg H. assert (Hle : g <= 64).
  { apply Nat.Lcm0.mod_divide in H. apply Nat.divide_pos_le in H; lia. }
  do 65 (destruct g as [|g]; [first [lia | discriminate H | cbn; tauto]|]).
  lia.
Qed.

(** X11.  For positive sizes and a dropout probability in [0, 1] (what the
    layer constructors of torch accept; their own argument checks are not
    modelled), the constructor of a plain U-Net returns exactly when the
    normalisation fits: always with batch normalisation (the default), with
    instance normalisation unless it is non-affine and init_weights is true,
    and with group normalisation when the positive group count divides 64,
    hence every filter width. *)
Theorem plain_construction_ok provider C N pretrained freeze_grad k bias norm dropout
    init_weights s0 :
  1 <= C -> 1 <= N -> 1 <= k -> (0 <= dropout)%Qc -> (dropout <= 1)%Qc ->
  is_ok (UNet_init provider C N None pretrained freeze_grad k bias norm dropout
                   init_weights s0) = true
  <-> match norm with
      | None | Some nn_BatchNorm2d => True
      | Some (nn_InstanceNorm2d affine) => affine = true \/ init_weights = false
      | Some (nn_GroupNorm g) => 0 < g /\ 64 mod g = 0
      end.
Proof.
  intros _ _ _ _ _. split.
  - intros H. destruct norm as [[|affine|g]|]; [exact I| | |exact I].
    + destruct affine; [left; reflexivity|]. destruct init_weights; [|right; reflexivity].
      destruct (UNet_init _ _ _ _ _ _ _ _ _ _ _ _) as [[u s]|e] eqn:E; [|discriminate H].
      exfalso. apply UNet_init_inv in E as (s1 & Hb & Hi).
      exact (nonaffine_init_pass _ _ _ _ _ _ _ _ _ _ _ _ _ _ Hb Hi).
    + destruct (UNet_init _ _ _ _ _ _ _ _ _ _ _ _) as [[u s]|e] eqn:E; [|discriminate H].
      apply UNet_init_inv in E as (s1 & Hb & _).
      unfold UNet_build in Hb. monad_inv Hb.
      match goal with H : EncoderBlocks_init _ _ _ _ _ _ _ _ _ _ _ = _ |- _ =>
        unfold EncoderBlocks_init in H;
        change (py_init UNet_filters) with [64; 128; 256; 512] in H;
        cbn [encoder_loop] in H; monad_inv H end.
      match goal with H : EncoderBlock_init C 64 _ _ _ _ _ = _ |- _ =>
        unfold EncoderBlock_init, DoubleConv2d_init in H; monad_inv H end.
      match goal with H : new_norm _ 64 _ = Ok _ |- _ =>
        cbn [new_norm norm_layer operate default] in H;
        change (norm_layer (Some (nn_GroupNorm g))) with (nn_GroupNorm g) in H;
        cbn [new_norm] in H;
        destruct ((0 <? g) && (64 mod g =? 0)) eqn:Eg; [|discriminate H] end.
      apply andb_prop in Eg as [Eg1 Eg2].
      apply Nat.ltb_lt in Eg1. apply Nat.eqb_eq in Eg2. split; assumption.
  - intros H.
    destruct norm as [[|affine|g]|].
    + destruct bias, init_weights; vm_compute; reflexivity.
    + destruct H as [->| ->].
      * destruct bias, init_weights; vm_compute; reflexivity.
      * destruct bias, affine; vm_compute; reflexivity.
    + destruct H as [Hg Hd]. apply divisors_64 in Hd; [|exact Hg].
      cbn [In] in Hd.
      repeat (destruct Hd as [<-|Hd]; [destruct bias, init_weights; vm_compute; reflexivity|]).
      contradiction.
    + destruct bias, init_weights; vm_compute; reflexivity.
Qed.

Lemma plain_construction_ok_witness :
  is_ok (UNet_init empty_provider 3 2 None false false 3 false (Some (nn_GroupNorm 8))
                   0%Qc true []) = true
  <-> 0 < 8 /\ 64 mod 8 = 0.
Proof.
  apply (plain_construction_ok empty_provider 3 2 false false 3 false
           (Some (nn_GroupNorm 8)) 0%Qc true []); try lia; discriminate.
Defined.

(** ** Evaluation mode *)

Section EvalMode.

Context {T : Type} {B : Backend T}.
Variable st : list param.

Lemma rng_free_apply_eval l (x : T) : rng_free (apply st false l x).
Proof.
  destruct l; try apply rng_free_lift.
  cbn [apply]. unfold dropout. cbn [negb]. rewrite orb_true_r. cbn [orb].
  apply rng_free_ret.
Qed.

Lemma rng_free_Sequential_eval ls (x : T) : rng_free (Sequential_forward st false ls x).
Proof.
  revert x. induction ls as [|l ls IH]; intros x.
  - apply rng_free_ret.
  - cbn [Sequential_forward]. apply rng_free_bind; [apply rng_free_apply_eval|exact IH].
Qed.

Lemma rng_free_EncoderBlock_eval b (x : T) : rng_free (EncoderBlock_forward st false b x).
Proof.
  unfold EncoderBlock_forward, DoubleConv2d_forward.
  apply rng_free_bind; [apply rng_free_Sequential_eval|]. intros y.
  apply rng_free_bind; [apply rng_free_apply_eval|]. intros p.
  apply rng_free_bind; [apply rng_free_apply_eval|]. intros q.
  apply rng_free_ret.
Qed.

Lemma rng_free_DecoderBlock_eval b (x1 x2 : T) :
  rng_free (DecoderBlock_forward st false b x1 x2).
Proof.
  unfold DecoderBlock_forward, DoubleConv2d_forward.
  apply rng_free_bind; [apply rng_free_apply_eval|]. intros y.
  apply rng_free_bind; [apply rng_free_lift|]. intros c.
  apply rng_free_bind; [apply rng_free_Sequential_eval|]. intros z.
  apply rng_free_bind; [apply rng_free_apply_eval|]. intros q.
  apply rng_free_ret.
Qed.

Lemma rng_free_plain_loop_eval encoder (p : T) x_out e_out :
  rng_free (plain_loop st false encoder p x_out e_out).
Proof.
  revert p x_out e_out. induction encoder as [|b rest IH]; intros p x_out e_out.
  - apply rng_free_ret.
  - cbn [plain_loop]. apply rng_free_bind; [apply rng_free_EncoderBlock_eval|].
    intros xp. apply IH.
Qed.

Lemma rng_free_backbone_loop_eval children (p : T) x_out e_out :
  rng_free (backbone_loop st false children p x_out e_out).
Proof.
  revert p x_out e_out. induction children as [|[name m] rest IH]; intros p x_out e_out.
  - apply rng_free_ret.
  - cbn [backbone_loop]. destruct (name_in name backbone_layers); [|apply IH].
    apply rng_free_bind; [apply rng_free_apply_eval|]. intros q. apply IH.
Qed.

Lemma rng_free_return_pair (r : list T * option T) : rng_free (return_pair r).
Proof.
  unfold return_pair. destruct (snd r); [apply rng_free_ret|apply rng_free_lift].
Qed.

Lemma rng_free_decoder_loop_eval backbone pool decoder i x_out (d : T) :
  rng_free (decoder_loop st false backbone pool decoder i x_out d).
Proof.
  revert i d. induction decoder as [|dec rest IH]; intros i d.
  - apply rng_free_ret.
  - cbn [decoder_loop]. apply rng_free_bind; [apply rng_free_lift|]. intros x.
    apply rng_free_bind.
    { destruct (bool_decide _); [apply rng_free_apply_eval|apply rng_free_ret]. }
    intros y. apply rng_free_bind; [apply rng_free_DecoderBlock_eval|].
    intros z. apply IH.
Qed.

Lemma rng_free_UNet_eval u (x : T) : rng_free (UNet_forward st false u x).
Proof.
  unfold UNet_forward. apply rng_free_bind.
  { unfold EncoderBlocks_forward. destruct (unet_encoder u).
    - apply rng_free_bind; [apply rng_free_plain_loop_eval|].
      intros r. apply rng_free_return_pair.
    - apply rng_free_bind; [apply rng_free_Sequential_eval|]. intros y.
      apply rng_free_bind; [apply rng_free_apply_eval|]. intros p.
      apply rng_free_bind; [apply rng_free_backbone_loop_eval|].
      intros r. apply rng_free_return_pair. }
  intros r. apply rng_free_bind; [apply rng_free_Sequential_eval|]. intros c.
  apply rng_free_bind.
  { unfold DecoderBlocks_forward.
    apply rng_free_bind; [apply rng_free_apply_eval|]. intros d.
    apply rng_free_decoder_loop_eval. }
  intros d. apply rng_free_Sequential_eval.
Qed.

Lemma rng_free_mapF {A C} (f : A -> F rng C) l :
  (forall a, rng_free (f a)) -> rng_free (mapF f l).
Proof.
  intros Hf. induction l as [|a l IH].
  - apply rng_free_ret.
  - cbn [mapF]. apply rng_free_bind; [apply Hf|]. intros c.
    apply rng_free_bind; [exact IH|]. intros cs. apply rng_free_ret.
Qed.


End EvalMode.

(** ** The control flow of the forward pass, layers set aside *)

Lemma py_index_unit (l : list unit) i :
  py_index l (-1 - Z.of_nat i) = if i <? length l then Ok tt else Err IndexError.
Proof.
  unfold py_index.
  replace (-1 - Z.of_nat i <? 0)%Z with true by (symmetry; apply Z.ltb_lt; lia).
  destruct (i <? length l) eqn:E.
  - apply Nat.ltb_lt in E.
    replace (0 <=? -1 - Z.of_nat i + Z.of_nat (length l))%Z with true
      by (symmetry; apply Z.leb_le; lia).
    replace (-1 - Z.of_nat i + Z.of_nat (length l) <? Z.of_nat (length l))%Z with true
      by (symmetry; apply Z.ltb_lt; lia).
    cbn [andb].
    destruct (lookup_lt_is_Some_2 l (Z.to_nat (-1 - Z.of_nat i + Z.of_nat (length l)))
                ltac:(lia)) as [[] ->].
    reflexivity.
  - apply Nat.ltb_ge in E.
    replace (0 <=? -1 - Z.of_nat i + Z.of_nat (length l))%Z with false
      by (symmetry; apply Z.leb_gt; lia).
    reflexivity.
Qed.

Lemma mapM_length {A B} (f : A -> M B) l s bs s' :
  mapM f l s = Ok (bs, s') -> length bs = length l.
Proof.
  revert s bs s'. induction l as [|a l IH]; intros s bs s' H.
  - injection H as <- _. reflexivity.
  - cbn [mapM] in H. monad_inv H. cbn [length]. f_equal. eapply IH. eassumption.
Qed.

Lemma layer_children_count (enc : list (string * leaf)) (cs : list ext_child) :
  map fst enc = map ec_name cs ->
  length (layer_children enc)
  = length (List.filter (fun c => name_in (ec_name c) backbone_layers) cs).
Proof.
  revert cs. induction enc as [|[nm m] enc IH]; intros [|c cs] H; try discriminate H.
  - reflexivity.
  - cbn [map fst] in H. injection H as -> H.
    unfold layer_children in *. cbn [List.filter fst].
    destruct (name_in (ec_name c) backbone_layers); cbn [length]; rewrite (IH cs H);
      reflexivity.
Qed.

Section UnitControl.

Variable st : list param.
Variable training : bool.

#[local] Existing Instance unit_backend.

Lemma unit_DecoderBlock b x1 x2 g :
  DecoderBlock_forward st training b x1 x2 g = Ok (tt, tt).
Proof.
  unfold DecoderBlock_forward, DoubleConv2d_forward.
  rewrite (bindF_step _ _ _ _ _ (unit_apply st training _ x1 g)).
  cbn [cat unit_backend]. rewrite liftF_bind.
  rewrite (bindF_step _ _ _ _ _ (unit_Sequential st training _ tt tt)).
  rewrite (bindF_step _ _ _ _ _ (unit_apply st training _ tt tt)).
  reflexivity.
Qed.

Lemma unit_decoder_loop backbone pool ds i (x_out : list unit) d g :
  decoder_loop st training backbone pool ds i x_out d g
  = if (length ds =? 0) || (i + length ds <=? length x_out)
    then Ok (tt, tt) else Err IndexError.
Proof.
  revert i d g. induction ds as [|dec rest IH]; intros i [] []; [reflexivity|].
  cbn [decoder_loop length Nat.eqb orb]. rewrite py_index_unit.
  destruct (i <? length x_out) eqn:E.
  - rewrite liftF_bind.
    assert (Hx : (if bool_decide (backbone = None)
                  then apply st training pool tt else retF tt) tt = Ok (tt, tt)).
    { destruct (bool_decide _); [apply unit_apply|reflexivity]. }
    rewrite (bindF_step _ _ _ _ _ Hx).
    rewrite (bindF_step _ _ _ _ _ (unit_DecoderBlock dec tt tt tt)).
    rewrite IH. apply Nat.ltb_lt in E.
    destruct rest as [|r rest'].
    + cbn [length Nat.eqb orb].
      replace (i + 1 <=? length x_out) with true by (symmetry; apply Nat.leb_le; lia).
      reflexivity.
    + cbn [length Nat.eqb orb].
      replace (S i + S (length rest')) with (i + S (S (length rest'))) by lia.
      reflexivity.
  - apply Nat.ltb_ge in E.
    replace (i + S (length rest) <=? length x_out) with false
      by (symmetry; apply Nat.leb_gt; lia).
    reflexivity.
Qed.

Lemma unit_backbone_loop children p (x_out : list unit) e_out g :
  backbone_loop st training children p x_out e_out g
  = Ok ((x_out ++ repeat tt (length (layer_children children)),
         if length (layer_children children) =? 0 then e_out else Some tt), tt).
Proof.
  revert p x_out e_out g.
  induction children as [|[nm m] rest IH]; intros [] x_out e_out [].
  - cbn. rewrite app_nil_r. reflexivity.
  - cbn [backbone_loop]. unfold layer_children in *. cbn [List.filter fst].
    destruct (name_in nm backbone_layers).
    + rewrite (bindF_step _ _ _ _ _ (unit_apply st training m tt tt)).
      rewrite IH. cbn [length Nat.eqb repeat]. rewrite <- app_assoc. cbn [app].
      destruct (length _ =? 0); reflexivity.
    + apply IH.
Qed.

Lemma unit_plain_loop_length encoder p (x_out : list unit) e_out g :
  plain_loop st training encoder p x_out e_out g
  = Ok ((x_out ++ repeat tt (length encoder),
         if length encoder =? 0 then e_out else Some tt), tt).
Proof.
  revert p x_out e_out g.
  induction encoder as [|b rest IH]; intros [] x_out e_out [].
  - cbn. rewrite app_nil_r. reflexivity.
  - cbn [plain_loop]. rewrite (bindF_step _ _ _ _ _ (unit_EncoderBlock st training b tt tt)).
    cbn [fst snd]. rewrite IH. cbn [length Nat.eqb repeat]. rewrite <- app_assoc. cbn [app].
    destruct (length _ =? 0); reflexivity.
Qed.

End UnitControl.

(** X13.  On a backend whose layers never fail, the forward pass of a
    constructed plain U-Net returns, for any kernel size: the skip list has as
    many entries as the decoder has blocks and the deepest feature is bound,
    so no index or name lookup of forward itself raises. *)
Theorem plain_forward_control provider C N pretrained freeze_grad k bias norm dropout
    init_weights s0 u s st training :
  UNet_init provider C N None pretrained freeze_grad k bias norm dropout init_weights s0
  = Ok (u, s) ->
  run (UNet_forward (B := unit_backend) st training u tt) tt = Ok tt.
Proof.
  intros H. apply UNet_init_inv in H as (s1 & H & _).
  unfold UNet_build in H. monad_inv H.
  match goal with H : EncoderBlocks_init _ _ _ _ _ _ _ _ _ _ _ = _ |- _ =>
    unfold EncoderBlocks_init in H; monad_inv H end.
  match goal with H : encoder_loop _ _ _ _ _ _ _ = Ok _ |- _ =>
    apply encoder_loop_length in H; rename H into Henc end.
  rewrite py_init_length in Henc. change (length UNet_filters - 1) with 4 in Henc.
  cbn [enc_filters] in *.
  match goal with H : DecoderBlocks_init _ _ _ _ _ _ _ = Ok _ |- _ =>
    unfold DecoderBlocks_init in H; monad_inv H end.
  match goal with H : mapM _ _ _ = Ok _ |- _ =>
    apply mapM_length in H; rename H into Hdec end.
  change (length (seq 0 (length UNet_filters - 1))) with 4 in Hdec.
  unfold run, UNet_forward, EncoderBlocks_forward.
  cbn [unet_encoder unet_center unet_decoder unet_out].
  rewrite bindF_assoc.
  rewrite (bindF_step _ _ _ _ _ (unit_plain_loop_length st training _ tt [] None tt)).
  rewrite Henc. cbn [Nat.eqb repeat app]. unfold return_pair. cbn [fst snd].
  rewrite retF_bind. cbn [fst snd].
  unfold DoubleConv2d_forward.
  rewrite (bindF_step _ _ _ _ _ (unit_Sequential st training _ tt tt)).
  unfold DecoderBlocks_forward. cbn [dec_backbone dec_pool dec_decoder].
  rewrite bindF_assoc.
  rewrite (bindF_step _ _ _ _ _ (unit_apply st training _ tt tt)).
  rewrite (bindF_step _ _ tt tt tt).
  2:{ rewrite unit_decoder_loop, app_nil_r, Hdec. reflexivity. }
  rewrite unit_Sequential. reflexivity.
Qed.

Lemma plain_forward_control_witness :
  exists u s,
    UNet_init empty_provider 3 2 None false false 5 true None 0%Qc true [] = Ok (u, s)
    /\ run (UNet_forward (B := unit_backend) s true u tt) tt = Ok tt.
Proof.
  eexists _, _. split.
  - vm_compute. reflexivity.
  - eapply (plain_forward_control empty_provider 3 2 false false 5 true None 0%Qc true []).
    vm_compute. reflexivity.
Defined.

(** X14.  In backbone mode, on a backend whose layers never fail, the forward
    pass is decided by the number of children of the backbone named
    layer1..layer4: with none it raises UnboundLocalError, with one to three
    it raises IndexError in the decoder (five blocks index a shorter skip
    list), with four or more it returns. *)
Theorem backbone_forward_control provider name ctor fs C N pretrained freeze_grad k bias
    norm dropout init_weights s0 u s st training :
  backbones provider name = Ok (ctor, fs) ->
  UNet_init provider C N (Some name) pretrained freeze_grad k bias norm dropout
            init_weights s0 = Ok (u, s) ->
  let stages := length (List.filter (fun c => name_in (ec_name c) backbone_layers)
                                    (ctor C pretrained)) in
  run (UNet_forward (B := unit_backend) st training u tt) tt
  = if stages =? 0 then Err UnboundLocalError
    else if stages <? 4 then Err IndexError
    else Ok tt.
Proof.
  intros Hb H stages. apply UNet_init_inv in H as (s1 & H & _).
  unfold UNet_build in H. monad_inv H.
  match goal with H : EncoderBlocks_init _ _ _ _ _ _ _ _ _ _ _ = _ |- _ =>
    cbn [EncoderBlocks_init] in H; monad_inv H end.
  match goal with H : backbones provider name = Ok ?a |- _ =>
    rewrite Hb in H; injection H as <- end.
  cbn [fst snd enc_filters] in *.
  match goal with H : instantiate _ _ = Ok (?enc, _) |- _ =>
    pose proof (layer_children_count enc _ (instantiate_names _ _ _ _ H)) as HL end.
  fold stages in HL.
  match goal with H : DecoderBlocks_init _ _ _ _ _ _ _ = Ok _ |- _ =>
    unfold DecoderBlocks_init in H; monad_inv H end.
  match goal with H : mapM _ _ _ = Ok _ |- _ =>
    apply mapM_length in H; rename H into Hdec end.
  rewrite length_seq in Hdec.
  assert (Hfs : length fs - 1 = 4).
  { destruct (backbones_inv _ _ _ _ Hb) as [[_ ->]|[_ ->]]; reflexivity. }
  rewrite Hfs in Hdec.
  unfold run, UNet_forward, EncoderBlocks_forward.
  cbn [unet_encoder unet_center unet_decoder unet_out].
  rewrite !bindF_assoc.
  rewrite (bindF_step _ _ _ _ _ (unit_Sequential st training _ tt tt)).
  rewrite !bindF_assoc.
  rewrite (bindF_step _ _ _ _ _ (unit_apply st training _ tt tt)).
  rewrite !bindF_assoc.
  rewrite (bindF_step _ _ _ _ _ (unit_backbone_loop st training _ tt [tt] None tt)).
  rewrite HL. unfold return_pair. cbn [fst snd].
  destruct (stages =? 0) eqn:Ez; [reflexivity|].
  rewrite retF_bind. cbn [fst snd].
  unfold DoubleConv2d_forward.
  rewrite (bindF_step _ _ _ _ _ (unit_Sequential st training _ tt tt)).
  unfold DecoderBlocks_forward. cbn [dec_backbone dec_pool dec_decoder].
  rewrite bindF_assoc.
  rewrite (bindF_step _ _ _ _ _ (unit_apply st training _ tt tt)).
  unfold bindF at 1. rewrite unit_decoder_loop.
  rewrite !length_app, Hdec, repeat_length. cbn [length Nat.add Nat.eqb orb].
  destruct (stages <? 4) eqn:Ef.
  - apply Nat.ltb_lt in Ef.
    replace (5 <=? S stages) with false by (symmetry; apply Nat.leb_gt; lia).
    reflexivity.
  - apply Nat.ltb_ge in Ef.
    replace (5 <=? S stages) with true by (symmetry; apply Nat.leb_le; lia).
    rewrite unit_Sequential. reflexivity.
Qed.

Lemma backbone_forward_control_witness :
  let provider :=
    {| resnet18 := fun c p => take 7 (toy_children c p); resnet34 := toy_children;
       resnet50 := toy_children; resnet101 := toy_children; resnet152 := toy_children |} in
  exists u s,
    UNet_init provider 3 2 (Some "resnet18") false false 3 false None 0%Qc true []
    = Ok (u, s)
    /\ run (UNet_forward (B := unit_backend) s true u tt) tt = Err IndexError.
Proof.
  intros provider. eexists _, _. split.
  - vm_compute. reflexivity.
  - refine (backbone_forward_control provider "resnet18"
              (fun c p => take 7 (toy_children c p)) [64; 128; 256; 512; 1024]
              3 2 false false 3 false None 0%Qc true [] _ _ _ true eq_refl _).
    vm_compute. reflexivity.
Defined.

(** ** The ensemble at its edges *)

Lemma map_nth_seq {A} (l : list A) (d : A) :
  map (fun j => nth j l d) (seq 0 (length l)) = l.
Proof.
  apply (nth_ext _ _ d d).
  - rewrite length_map, length_seq. reflexivity.
  - intros n Hn. rewrite length_map, length_seq in Hn.
    rewrite (nth_indep _ d (nth 0 l d)) by (rewrite length_map, length_seq; exact Hn).
    rewrite (map_nth (fun j => nth j l d)), seq_nth by exact Hn. reflexivity.
Qed.

Lemma mean_of_one (v : Qc) : (qsum [v] / Qc_of_nat 1)%Qc = v.
Proof.
  cbn [qsum fold_right]. rewrite Qcplus_0_r.
  replace (Qc_of_nat 1) with 1%Qc by (apply Qc_is_canon; reflexivity).
  unfold Qcdiv. replace (/ 1)%Qc with 1%Qc by (apply Qc_is_canon; reflexivity).
  apply Qcmult_1_r.
Qed.

Lemma elementwise_mean_one (o : tensor) :
  length (values o) = numel_of (dims o) -> elementwise_mean (dims o) [o] = o.
Proof.
  intros H. unfold elementwise_mean. destruct o as [d vs]. cbn [dims values] in *.
  f_equal. rewrite <- H. cbn [map length].
  rewrite <- (map_nth_seq vs 0%Qc) at 2.
  apply map_ext. intros j. apply mean_of_one.
Qed.

(** X15.  An ensemble of a single U-Net returns that U-Net's output: the mean
    over a stack of one tensor is the tensor. *)
Theorem ensemble_singleton {B : Backend tensor} st training u (x : tensor) g o g' :
  UNet_forward st training u x g = Ok (o, g') ->
  length (values o) = numel_of (dims o) ->
  EnsembleUNet_forward st training (EnsembleUNet_init [u]) x g = Ok (o, g').
Proof.
  intros Hrun Hlen. unfold EnsembleUNet_forward, EnsembleUNet_init.
  cbn [unet_models mapF]. rewrite bindF_assoc, (bindF_step _ _ _ _ _ Hrun).
  fnorm.
  cbn [stack mean0 tensor_ensemble].
  rewrite (tensor_stack_same (dims o) [o]).
  - fnorm. rewrite (mean_of_stack (dims o) [o]).
    + rewrite elementwise_mean_one by exact Hlen. reflexivity.
    + intros o' [<-|[]]. exact Hlen.
  - discriminate.
  - intros o' [<-|[]]. reflexivity.
Qed.

(** X16.  If the ensemble has no member, or two members return tensors of
    different sizes, EnsembleUNet.forward raises RuntimeError, from
    torch.stack. *)
Theorem ensemble_forward_rejects {B : Backend tensor} st training e (x : tensor) g outs g' :
  mapF (fun unet => UNet_forward st training unet x) (unet_models e) g = Ok (outs, g') ->
  unet_models e = [] \/ (exists o1 o2, In o1 outs /\ In o2 outs /\ dims o1 <> dims o2) ->
  EnsembleUNet_forward st training e x g = Err RuntimeError.
Proof.
  intros Hrun Hbad. unfold EnsembleUNet_forward.
  rewrite (bindF_step _ _ _ _ _ Hrun). cbn [stack tensor_ensemble].
  assert (Hs : tensor_stack outs = Err RuntimeError).
  { destruct Hbad as [He|(o1 & o2 & H1 & H2 & Hne)].
    - apply mapF_length in Hrun. rewrite He in Hrun.
      destruct outs; [reflexivity|discriminate Hrun].
    - destruct outs as [|t rest]; [contradiction|]. cbn [tensor_stack].
      destruct (forallb _ rest) eqn:Ef; [exfalso|reflexivity].
      rewrite forallb_forall in Ef.
      assert (Hd : forall o, In o (t :: rest) -> dims o = dims t).
      { intros o [<-|Ho]; [reflexivity|]. apply Ef in Ho.
        apply bool_decide_eq_true_1 in Ho. exact Ho. }
      apply Hne. rewrite (Hd o1 H1), (Hd o2 H2). reflexivity. }
  rewrite Hs. reflexivity.
Qed.

Lemma ensemble_singleton_witness :
  exists u st,
    UNet_init empty_provider 1 1 None false false 3 true None 0%Qc true [] = Ok (u, st)
    /\ EnsembleUNet_forward (B := toy_value_backend) st true (EnsembleUNet_init [u])
         (full [1; 1; 2; 2] 1%Qc) 7
       = Ok (full [1; 1; 2; 2] 0%Qc, 7).
Proof.
  eexists _, _. split.
  - vm_compute. reflexivity.
  - apply (ensemble_singleton (B := toy_value_backend)).
    + vm_compute. reflexivity.
    + reflexivity.
Defined.

Lemma ensemble_forward_rejects_witness :
  EnsembleUNet_forward (B := toy_value_backend) [] true (EnsembleUNet_init [])
    (full [1; 1; 2; 2] 1%Qc) 7
  = Err RuntimeError.
Proof.
  apply (ensemble_forward_rejects (B := toy_value_backend) [] true (EnsembleUNet_init [])
           (full [1; 1; 2; 2] 1%Qc) 7 [] 7).
  - reflexivity.
  - left. reflexivity.
Defined.

(** ** Which backbones fit a registry entry *)

Lemma bindF_Err {G A C} (m : F G A) (k : A -> F G C) g e :
  m g = Err e -> bindF m k g = Err e.
Proof. unfold bindF. intros ->. reflexivity. Qed.

Lemma bindF_cond {G A C} (m : F G A) (k : A -> F G C) g (c : bool) a g' e :
  m g = (if c then Ok (a, g') else Err e) ->
  bindF m k g = if c then k a g' else Err e.
Proof. unfold bindF. intros ->. destruct c; reflexivity. Qed.

Section Decide.

Variable ext : nat -> shape -> result shape.
Variable st : list param.
Variable training : bool.

Lemma DoubleConv2d_forward_dec cin cout bias norm s d s' n c h w :
  DoubleConv2d_init cin cout 3 bias norm s = Ok (d, s') ->
  2 <= h -> 2 <= w ->
  DoubleConv2d_forward (B := shape_backend ext) st training d (Shape n c h w) tt
  = if c =? cin then Ok (Shape n cout h w, tt) else Err RuntimeError.
Proof.
  intros H Hh Hw. destruct (c =? cin) eqn:E.
  - apply Nat.eqb_eq in E. subst c.
    exact (DoubleConv2d_shape ext st training _ _ _ _ _ _ _ n h w H Hh Hw).
  - unfold DoubleConv2d_init in H. monad_inv H.
    match goal with H : new_Conv2d cin _ _ _ _ _ _ = Ok _ |- _ =>
      unfold new_Conv2d in H; monad_inv H end.
    unfold DoubleConv2d_forward. cbn [dc_layer Sequential_forward].
    apply bindF_Err. rewrite convk_shape, E. reflexivity.
Qed.

Lemma DecoderBlock_forward_dec cin cout bias norm dropout ui uo s b s' n c1 c2 h w :
  DecoderBlock_init cin cout 3 bias norm dropout ui uo s = Ok (b, s') ->
  1 <= h -> 1 <= w ->
  DecoderBlock_forward (B := shape_backend ext) st training b
    (Shape n c1 h w) (Shape n c2 (2 * h) (2 * w)) tt
  = if (c1 =? default cin ui) && (c2 + default cout uo =? cin)
    then Ok (Shape n cout (2 * h) (2 * w), tt) else Err RuntimeError.
Proof.
  unfold DecoderBlock_init. intros H Hh Hw. monad_inv H.
  unfold new_ConvTranspose2d in Hm. monad_inv Hm.
  unfold DecoderBlock_forward. cbn [db_trans db_conv db_drop].
  destruct (c1 =? default cin ui) eqn:E1; cbn [andb].
  - apply Nat.eqb_eq in E1. subst c1.
    rewrite (bindF_step _ _ _ _ _
               (trans_shape ext st training (default cin ui) (default cout uo) _ _
                  n h w Hh Hw)).
    cbn [cat shape_backend shape_cat]. rewrite !Nat.eqb_refl. cbn [andb].
    rewrite liftF_bind.
    rewrite (bindF_cond _ _ _ _ _ _ _
               (DoubleConv2d_forward_dec _ _ _ _ _ _ _ n (c2 + default cout uo)
                  (2 * h) (2 * w) Hm0 ltac:(lia) ltac:(lia))).
    destruct (c2 + default cout uo =? cin); [|reflexivity].
    cbn [apply]. rewrite (bindF_step _ _ _ _ _ (dropout_shape ext training _ _ tt)).
    reflexivity.
  - apply bindF_Err. cbn [apply liftF layer shape_backend shape_layer].
    rewrite E1. reflexivity.
Qed.

End Decide.

Lemma head_forward_dec ext st training name f0 f1 f2 f3 f4 N bias norm dropout
    center d0 d1 d2 d3 d4 up head sc sc' s0' s1' s2' s3' s4' s5' s6' su su' sh sh'
    n h w w0 w1 w2 w3 w4 :
  f3 + f3 = f4 ->
  DoubleConv2d_init f3 f4 3 bias norm sc = Ok (center, sc') ->
  DecoderBlock_init f4 f3 3 bias norm dropout None None s0' = Ok (d0, s1') ->
  DecoderBlock_init f3 f2 3 bias norm dropout None None s1' = Ok (d1, s2') ->
  DecoderBlock_init f2 f1 3 bias norm dropout None None s2' = Ok (d2, s3') ->
  DecoderBlock_init f1 f0 3 bias norm dropout None None s3' = Ok (d3, s4') ->
  DecoderBlock_init f1 f0 3 bias norm dropout (Some f0) (Some f0) s5' = Ok (d4, s6') ->
  new_ConvTranspose2d f0 f0 2 2 true su = Ok (up, su') ->
  new_Conv2d f0 N 1 1 0 true sh = Ok (head, sh') ->
  0 < h -> 0 < w ->
  run (c <- DoubleConv2d_forward (B := shape_backend ext) st training center
              (Shape n w4 (2 * h) (2 * w)) ;;
       d <- DecoderBlocks_forward st training
              {| dec_backbone := Some name; dec_pool := MaxPool2d 2 2;
                 dec_decoder := [d0; d1; d2; d3] ++ [d4] |}
              [Shape n w0 (2 * (2 * (2 * (2 * (2 * h))))) (2 * (2 * (2 * (2 * (2 * w)))));
               Shape n w1 (2 * (2 * (2 * (2 * h)))) (2 * (2 * (2 * (2 * w))));
               Shape n w2 (2 * (2 * (2 * h))) (2 * (2 * (2 * w)));
               Shape n w3 (2 * (2 * h)) (2 * (2 * w));
               Shape n w4 (2 * h) (2 * w)] c ;;
       Sequential_forward st training [up; head] d)%F tt
  = if (w4 =? f3) && (w3 + f2 =? f3) && (w2 + f1 =? f2) && (w1 + f0 =? f1)
       && (w0 + f0 =? f1)
    then Ok (Shape n N (2 * (2 * (2 * (2 * (2 * (2 * h))))))
                       (2 * (2 * (2 * (2 * (2 * (2 * w)))))))
    else Err RuntimeError.
Proof.
  intros Hf Hcen H0 H1 H2 H3 H4 Hup Hhead Hh Hw. subst f4.
  unfold new_ConvTranspose2d in Hup. monad_inv Hup.
  unfold new_Conv2d in Hhead. monad_inv Hhead.
  unfold run.
  rewrite (bindF_cond _ _ _ _ _ _ _
             (DoubleConv2d_forward_dec ext st training _ _ _ _ _ _ _ n w4 (2 * h) (2 * w)
                Hcen ltac:(lia) ltac:(lia))).
  destruct (w4 =? f3) eqn:E4; [|reflexivity]. apply Nat.eqb_eq in E4. subst w4.
  cbn [andb].
  unfold DecoderBlocks_forward. cbn [dec_backbone dec_pool dec_decoder decoder_loop app].
  match goal with
  | |- context [py_index [?a; ?b; ?c; ?d; ?e] _] =>
      destruct (skip5 a b c d e) as (I0 & I1 & I2 & I3 & I4)
  end.
  rewrite I0, I1, I2, I3, I4. clear I0 I1 I2 I3 I4.
  rewrite !(bool_decide_eq_false_2 (Some name = None)) by discriminate.
  fwd (pool_shape ext st training n (f3 + f3) h w ltac:(lia) ltac:(lia)).
  fnorm.
  rewrite (bindF_cond _ _ _ _ _ _ _
             (DecoderBlock_forward_dec ext st training _ _ _ _ _ _ _ _ _ _ n (f3 + f3) f3 h w H0
                ltac:(lia) ltac:(lia))).
  cbn [default]. rewrite !Nat.eqb_refl. cbn [andb].
  fnorm.
  rewrite (bindF_cond _ _ _ _ _ _ _
             (DecoderBlock_forward_dec ext st training _ _ _ _ _ _ _ _ _ _ n f3 w3
                (2 * h) (2 * w) H1 ltac:(lia) ltac:(lia))).
  cbn [default]. rewrite Nat.eqb_refl. cbn [andb].
  destruct (w3 + f2 =? f3); [|reflexivity]. cbn [andb].
  fnorm.
  rewrite (bindF_cond _ _ _ _ _ _ _
             (DecoderBlock_forward_dec ext st training _ _ _ _ _ _ _ _ _ _ n f2 w2
                (2 * (2 * h)) (2 * (2 * w)) H2 ltac:(lia) ltac:(lia))).
  cbn [default]. rewrite Nat.eqb_refl. cbn [andb].
  destruct (w2 + f1 =? f2); [|reflexivity]. cbn [andb].
  fnorm.
  rewrite (bindF_cond _ _ _ _ _ _ _
             (DecoderBlock_forward_dec ext st training _ _ _ _ _ _ _ _ _ _ n f1 w1
                (2 * (2 * (2 * h))) (2 * (2 * (2 * w))) H3 ltac:(lia) ltac:(lia))).
  cbn [default]. rewrite Nat.eqb_refl. cbn [andb].
  destruct (w1 + f0 =? f1); [|reflexivity]. cbn [andb].
  fnorm.
  rewrite (bindF_cond _ _ _ _ _ _ _
             (DecoderBlock_forward_dec ext st training _ _ _ _ _ _ _ _ _ _ n f0 w0
                (2 * (2 * (2 * (2 * h)))) (2 * (2 * (2 * (2 * w)))) H4
                ltac:(lia) ltac:(lia))).
  cbn [default]. unfold id. rewrite Nat.eqb_refl. cbn [andb].
  destruct (w0 + f0 =? f1); [|reflexivity].
  fnorm. cbn [Sequential_forward].
  match goal with |- context [ConvTranspose2d f0 f0 2 2 ?wt ?bb] =>
    fwd (trans_shape ext st training f0 f0 wt bb n (2 * (2 * (2 * (2 * (2 * h)))))
           (2 * (2 * (2 * (2 * (2 * w))))) ltac:(lia) ltac:(lia)) end.
  match goal with |- context [Conv2d f0 N 1 1 0 ?wt ?bb] =>
    fwd (conv1_shape ext st training f0 N wt bb n (2 * (2 * (2 * (2 * (2 * (2 * h))))))
           (2 * (2 * (2 * (2 * (2 * (2 * w)))))) ltac:(lia) ltac:(lia)) end.
  reflexivity.
Qed.

Lemma backbone_forward_dec provider ext name ctor fs C N bias norm dropout pretrained
    freeze_grad init_weights s0 u s st training n h w w0 w1 w2 w3 w4 :
  backbones provider name = Ok (ctor, fs) ->
  resnet_contract ext (ctor C pretrained) C w0 w1 w2 w3 w4 ->
  UNet_init provider C N (Some name) pretrained freeze_grad 3 bias norm dropout
            init_weights s0 = Ok (u, s) ->
  0 < h -> 0 < w ->
  run (UNet_forward (B := shape_backend ext) st training u
         (Shape n C (2 * (2 * (2 * (2 * (2 * (2 * h))))))
                    (2 * (2 * (2 * (2 * (2 * (2 * w)))))))) tt
  = if (w4 =? nth 3 fs 0) && (w3 + nth 2 fs 0 =? nth 3 fs 0)
       && (w2 + nth 1 fs 0 =? nth 2 fs 0) && (w1 + nth 0 fs 0 =? nth 1 fs 0)
       && (w0 + nth 0 fs 0 =? nth 1 fs 0)
    then Ok (Shape n N (2 * (2 * (2 * (2 * (2 * (2 * h))))))
                       (2 * (2 * (2 * (2 * (2 * (2 * w)))))))
    else Err RuntimeError.
Proof.
  intros Hb Hc H Hh Hw.
  apply UNet_init_inv in H as (s1 & H & _).
  unfold UNet_build in H. monad_inv H.
  match goal with H : EncoderBlocks_init _ _ _ _ _ _ _ _ _ _ _ = _ |- _ =>
    destruct (backbone_encoder_widths provider ext name ctor fs C pretrained freeze_grad 3
                bias norm dropout _ _ _ st training n h w w0 w1 w2 w3 w4 Hb Hc H Hh Hw)
      as [Hfs Henc]; clear H end.
  rewrite Hfs in *.
  unfold run at 1. unfold UNet_forward.
  cbn [unet_encoder unet_center unet_decoder unet_out].
  rewrite (bindF_step _ _ _ _ _ Henc). cbn [fst snd]. clear Henc.
  match goal with H : DecoderBlocks_init _ _ _ _ _ _ _ = _ |- _ =>
    unfold DecoderBlocks_init in H end.
  assert (Hreg : exists f0 f1 f2 f3 f4, fs = [f0; f1; f2; f3; f4] /\ f3 + f3 = f4).
  { destruct (backbones_inv _ _ _ _ Hb) as [[_ ->]|[_ ->]];
      eexists _, _, _, _, _; (split; [reflexivity|vm_compute; reflexivity]). }
  destruct Hreg as (f0 & f1 & f2 & f3 & f4 & -> & Hf).
  revert Hf. index_inv.
  match goal with H : bindM _ _ _ = Ok _ |- _ =>
    cbn [length Nat.sub seq mapM] in H; monad_inv H end.
  index_inv. cbn [nth]. intros Hf.
  eapply (head_forward_dec ext st training name f0 f1 f2 f3 f4); eassumption.
Qed.



(** ** A whole U-Net built with dropout 0 *)

Lemma mapM_Forall {A C} (P : C -> Prop) (f : A -> M C) l s bs s' :
  (forall a s b s', f a s = Ok (b, s') -> P b) ->
  mapM f l s = Ok (bs, s') -> Forall P bs.
Proof.
  intros Hf. revert s bs s'. induction l as [|a l IH]; intros s bs s' H.
  - injection H as <- _. constructor.
  - cbn [mapM] in H. monad_inv H. constructor; [eapply Hf|eapply IH]; eassumption.
Qed.

Lemma instantiate_External cs s enc s' :
  instantiate cs s = Ok (enc, s') ->
  Forall (fun c => is_Dropout (snd c) = false) enc.
Proof.
  unfold instantiate. apply mapM_Forall.
  intros a s1 b s2 H. monad_inv H. reflexivity.
Qed.

Lemma getattr_in cs name l : getattr cs name = Ok l -> In l (map snd cs).
Proof.
  unfold getattr.
  destruct (list_find _ cs) as [[i c]|] eqn:E; [|discriminate].
  intros H. injection H as <-. apply list_find_Some in E as (Hi & _ & _).
  apply in_map, list_elem_of_In, (list_elem_of_lookup_2 _ _ _ Hi).
Qed.

Section DropoutZeroModel.

Context {T : Type} {B : Backend T}.
Variable st : list param.
Variable training : bool.

Lemma rng_free_EncoderBlock_zero cin cout k bias norm s b s' (x : T) :
  EncoderBlock_init cin cout k bias norm 0%Qc s = Ok (b, s') ->
  rng_free (EncoderBlock_forward st training b x).
Proof.
  unfold EncoderBlock_init. intros H. monad_inv H.
  match goal with H : DoubleConv2d_init _ _ _ _ _ _ = Ok _ |- _ =>
    apply DoubleConv2d_no_dropout in H; rename H into Hd end.
  unfold EncoderBlock_forward, DoubleConv2d_forward. cbn [eb_conv eb_pool eb_drop].
  apply rng_free_bind; [apply rng_free_Sequential, Hd|]. intros y.
  apply rng_free_bind; [apply rng_free_apply; left; reflexivity|]. intros p.
  apply rng_free_bind; [apply rng_free_apply; right; reflexivity|]. intros q.
  apply rng_free_ret.
Qed.

Lemma rng_free_DecoderBlock_zero cin cout k bias norm ui uo s b s' (x1 x2 : T) :
  DecoderBlock_init cin cout k bias norm 0%Qc ui uo s = Ok (b, s') ->
  rng_free (DecoderBlock_forward st training b x1 x2).
Proof.
  unfold DecoderBlock_init. intros H. monad_inv H.
  match goal with H : DoubleConv2d_init _ _ _ _ _ _ = Ok _ |- _ =>
    apply DoubleConv2d_no_dropout in H; rename H into Hd end.
  match goal with H : new_ConvTranspose2d _ _ _ _ _ _ = Ok _ |- _ =>
    unfold new_ConvTranspose2d in H; monad_inv H end.
  unfold DecoderBlock_forward, DoubleConv2d_forward. cbn [db_trans db_conv db_drop].
  apply rng_free_bind; [apply rng_free_apply; left; reflexivity|]. intros y.
  apply rng_free_bind; [apply rng_free_lift|]. intros c.
  apply rng_free_bind; [apply rng_free_Sequential, Hd|]. intros z.
  apply rng_free_bind; [apply rng_free_apply; right; reflexivity|]. intros q.
  apply rng_free_ret.
Qed.

Lemma rng_free_plain_loop_zero cin fs k bias norm s bs s' (p : T) x_out e_out :
  encoder_loop cin fs k bias norm 0%Qc s = Ok (bs, s') ->
  rng_free (plain_loop st training bs p x_out e_out).
Proof.
  revert cin s bs s' p x_out e_out.
  induction fs as [|f fs IH]; intros cin s bs s' p x_out e_out H.
  - injection H as <- _. apply rng_free_ret.
  - cbn [encoder_loop] in H. monad_inv H. cbn [plain_loop].
    apply rng_free_bind; [eapply rng_free_EncoderBlock_zero; eassumption|].
    intros xp. eapply IH. eassumption.
Qed.

Lemma rng_free_backbone_loop children (p : T) x_out e_out :
  Forall (fun c => is_Dropout (snd c) = false) children ->
  rng_free (backbone_loop st training children p x_out e_out).
Proof.
  intros H. revert p x_out e_out.
  induction H as [|[nm m] rest Hm _ IH]; intros p x_out e_out.
  - apply rng_free_ret.
  - cbn [backbone_loop]. destruct (name_in nm backbone_layers); [|apply IH].
    apply rng_free_bind; [apply rng_free_apply; left; exact Hm|]. intros q. apply IH.
Qed.

Lemma rng_free_decoder_loop backbone pool decoder i x_out (d : T) :
  is_Dropout pool = false ->
  Forall (fun b => forall x1 x2, rng_free (DecoderBlock_forward st training b x1 x2))
         decoder ->
  rng_free (decoder_loop st training backbone pool decoder i x_out d).
Proof.
  intros Hp H. revert i d. induction H as [|dec rest Hd _ IH]; intros i d.
  - apply rng_free_ret.
  - cbn [decoder_loop]. apply rng_free_bind; [apply rng_free_lift|]. intros x.
    apply rng_free_bind.
    { destruct (bool_decide _); [apply rng_free_apply; left; exact Hp|apply rng_free_ret]. }
    intros y. apply rng_free_bind; [apply Hd|]. intros z. apply IH.
Qed.

(** X18.  A U-Net constructed with dropout 0, in either mode, never reads nor
    advances the random generator, in training as in evaluation mode, on any
    backend. *)
Theorem dropout_zero_model provider C N backbone pretrained freeze_grad k bias norm
    init_weights s0 u s (x : T) g1 g2 :
  UNet_init provider C N backbone pretrained freeze_grad k bias norm 0%Qc init_weights s0
  = Ok (u, s) ->
  rng_free (UNet_forward st training u x)
  /\ run (UNet_forward st training u x) g1 = run (UNet_forward st training u x) g2.
Proof.
  intros H.
  assert (Hfree : rng_free (UNet_forward st training u x));
    [|split; [exact Hfree|apply rng_free_run, Hfree]].
  apply UNet_init_inv in H as (s1 & H & _).
  unfold UNet_build in H. monad_inv H.
  match goal with H : DoubleConv2d_init _ _ _ _ _ _ = Ok _ |- _ =>
    apply DoubleConv2d_no_dropout in H; rename H into Hcen end.
  match goal with H : DecoderBlocks_init _ _ _ _ _ _ _ = Ok _ |- _ =>
    unfold DecoderBlocks_init in H; monad_inv H end.
  match goal with H : mapM _ _ _ = Ok _ |- _ =>
    apply (mapM_Forall
             (fun b => forall x1 x2 : T, rng_free (DecoderBlock_forward st training b x1 x2)))
      in H; [rename H into Hdec|] end.
  2:{ intros i sa b sb Hi x1 x2. monad_inv Hi.
      eapply rng_free_DecoderBlock_zero. eassumption. }
  match goal with H : new_ConvTranspose2d _ _ _ _ _ _ = Ok _ |- _ =>
    unfold new_ConvTranspose2d in H; monad_inv H end.
  match goal with H : new_Conv2d _ _ _ _ _ _ _ = Ok _ |- _ =>
    unfold new_Conv2d in H; monad_inv H end.
  unfold UNet_forward. cbn [unet_encoder unet_center unet_decoder unet_out].
  apply rng_free_bind.
  { destruct backbone as [name|].
    - match goal with H : EncoderBlocks_init _ _ _ _ _ _ _ _ _ _ _ = _ |- _ =>
        cbn [EncoderBlocks_init] in H; monad_inv H end.
      match goal with H : instantiate _ _ = Ok _ |- _ =>
        apply instantiate_External in H; rename H into Hext end.
      match type of Hext with Forall _ ?enc =>
        assert (Hq : forall nm l, getattr enc nm = Ok l -> is_Dropout l = false) end.
      { intros nm l Hl. apply getattr_in, in_map_iff in Hl as (c & <- & Hc).
        rewrite Forall_forall in Hext. apply Hext, Hc. }
      unfold EncoderBlocks_forward.
      apply rng_free_bind.
      { apply rng_free_Sequential. repeat constructor; eapply Hq; eassumption. }
      intros y. apply rng_free_bind.
      { apply rng_free_apply. left. eapply Hq; eassumption. }
      intros p. apply rng_free_bind; [apply rng_free_backbone_loop, Hext|].
      intros r. apply rng_free_return_pair.
    - match goal with H : EncoderBlocks_init _ _ _ _ _ _ _ _ _ _ _ = _ |- _ =>
        unfold EncoderBlocks_init in H; monad_inv H end.
      unfold EncoderBlocks_forward.
      apply rng_free_bind; [eapply rng_free_plain_loop_zero; eassumption|].
      intros r. apply rng_free_return_pair. }
  intros r. apply rng_free_bind.
  { unfold DoubleConv2d_forward. apply rng_free_Sequential, Hcen. }
  intros c. apply rng_free_bind.
  { unfold DecoderBlocks_forward. cbn [dec_backbone dec_pool dec_decoder].
    apply rng_free_bind; [apply rng_free_apply; left; reflexivity|]. intros d.
    apply rng_free_decoder_loop; [reflexivity|].
    apply Forall_app. split; [exact Hdec|].
    destruct backbone as [name|].
    - match goal with H : bindM _ _ _ = Ok _ |- _ => monad_inv H end.
      constructor; [|constructor]. intros x1 x2.
      eapply rng_free_DecoderBlock_zero. eassumption.
    - match goal with H : retM _ _ = Ok _ |- _ => monad_inv H end. constructor. }
  intros d. apply rng_free_Sequential. repeat constructor.
Qed.

End DropoutZeroModel.

Lemma dropout_zero_model_witness :
  exists u s,
    UNet_init empty_provider 1 1 None false false 3 true None 0%Qc true [] = Ok (u, s)
    /\ rng_free (UNet_forward (B := toy_value_backend) s true u (full [1; 1; 2; 2] 1%Qc))
    /\ run (UNet_forward (B := toy_value_backend) s true u (full [1; 1; 2; 2] 1%Qc)) 1
       = run (UNet_forward (B := toy_value_backend) s true u (full [1; 1; 2; 2] 1%Qc)) 2.
Proof.
  eexists _, _. split.
  - vm_compute. reflexivity.
  - eapply (dropout_zero_model (B := toy_value_backend) _ true empty_provider 1 1 None
              false false 3 true None true []).
    vm_compute. reflexivity.
Defined.

(** ** The input sizes a plain U-Net accepts *)

Lemma pool_floor_inv ext st training n c h w y g :
  apply (B := shape_backend ext) st training (MaxPool2d 2 2) (Shape n c h w) tt = Ok (y, g) ->
  2 <= h /\ 2 <= w /\ y = Shape n c (h / 2) (w / 2).
Proof.
  rewrite pool_floor. destruct ((2 <=? h) && (2 <=? w)) eqn:E; [|discriminate].
  apply andb_prop in E as [Hh Hw]. apply Nat.leb_le in Hh, Hw.
  intros F. assert (E : y = Shape n c (h / 2) (w / 2)) by congruence.
  repeat split; assumption.
Qed.

Ltac dec_inv ext st training Fd Hi Hh Hw Eh Ew :=
  let x := fresh "x" in
  let P := fresh "P" in
  let D := fresh "D" in
  rewrite liftF_bind in Fd;
  apply bindF_inv in Fd as (x & [] & P & Fd);
  apply pool_floor_inv in P as (_ & _ & ->);
  apply bindF_inv in Fd as (x & [] & D & Fd);
  eapply (DecoderBlock_inv ext st training) in D; [|exact Hi];
  destruct D as (_ & Hh & Hw & _ & Eh & Ew & _ & ->).

Lemma plain_forward_inv provider ext C N bias norm dropout pretrained freeze_grad
    init_weights s0 u s st training n H W r :
  UNet_init provider C N None pretrained freeze_grad 3 bias norm dropout init_weights s0
  = Ok (u, s) ->
  run (UNet_forward (B := shape_backend ext) st training u (Shape n C H W)) tt = Ok r ->
  exists h w, 1 <= h /\ 1 <= w /\ H / 2 = 16 * h /\ W / 2 = 16 * w
              /\ r = Shape n N (32 * h) (32 * w).
Proof.
  intros Hi Hrun.
  unfold UNet_init in Hi. monad_inv Hi. clear Hm0.
  unfold UNet_build in Hm. monad_inv Hm.
  unfold EncoderBlocks_init in Hm0.
  change (py_init UNet_filters) with [64; 128; 256; 512] in Hm0.
  cbn [encoder_loop] in Hm0. monad_inv Hm0.
  cbn [enc_filters] in *. index_inv.
  unfold DecoderBlocks_init in Hm1.
  change (length UNet_filters - 1) with 4 in Hm1. cbn [seq mapM] in Hm1.
  monad_inv Hm1. index_inv.
  unfold new_ConvTranspose2d in Hm2. monad_inv Hm2.
  unfold new_Conv2d in Hm3. monad_inv Hm3.
  unfold run in Hrun.
  match type of Hrun with match ?m with _ => _ end = _ =>
    destruct m as [[r' g]|e] eqn:F; [|discriminate Hrun] end.
  injection Hrun as ->.
  unfold UNet_forward in F. cbn [unet_encoder unet_center unet_decoder unet_out] in F.
  apply bindF_inv in F as ([x_out e_out] & [] & Fenc & F).
  apply (plain_forward_spec (B := shape_backend ext)) in Fenc
    as (x1 & p1 & [] & x2 & p2 & [] & x3 & p3 & [] & x4 & E1 & E2 & E3 & E4 & ->).
  match goal with H : EncoderBlock_init C 64 _ _ _ _ _ = _ |- _ =>
    apply (EncoderBlock_floor_inv ext st training _ _ _ _ _ _ _ _ _ _ _ _ _ H) in E1
      as (_ & Hh1 & Hw1 & E1) end.
  apply pair_equal_spec in E1 as [E1 _]. apply pair_equal_spec in E1 as [-> ->].
  match goal with H : EncoderBlock_init 64 128 _ _ _ _ _ = _ |- _ =>
    apply (EncoderBlock_floor_inv ext st training _ _ _ _ _ _ _ _ _ _ _ _ _ H) in E2
      as (_ & Hh2 & Hw2 & E2) end.
  apply pair_equal_spec in E2 as [E2 _]. apply pair_equal_spec in E2 as [-> ->].
  match goal with H : EncoderBlock_init 128 256 _ _ _ _ _ = _ |- _ =>
    apply (EncoderBlock_floor_inv ext st training _ _ _ _ _ _ _ _ _ _ _ _ _ H) in E3
      as (_ & Hh3 & Hw3 & E3) end.
  apply pair_equal_spec in E3 as [E3 _]. apply pair_equal_spec in E3 as [-> ->].
  match goal with H : EncoderBlock_init 256 512 _ _ _ _ _ = _ |- _ =>
    apply (EncoderBlock_floor_inv ext st training _ _ _ _ _ _ _ _ _ _ _ _ _ H) in E4
      as (_ & Hh4 & Hw4 & E4) end.
  apply pair_equal_spec in E4 as [E4 _]. apply pair_equal_spec in E4 as [-> ->].
  cbn [fst snd] in F.
  apply bindF_inv in F as (c & [] & Fc & F).
  match goal with H : DoubleConv2d_init 512 1024 _ _ _ _ = _ |- _ =>
    apply (DoubleConv2d_ok_inv ext st training _ _ _ _ _ _ _ _ _ _ _ _ _ H) in Fc
      as (_ & _ & _ & ->) end.
  apply bindF_inv in F as (d & [] & Fd & F).
  unfold DecoderBlocks_forward in Fd.
  cbn [dec_backbone dec_pool dec_decoder decoder_loop app] in Fd.
  match type of Fd with
  | context [py_index [?a; ?b; ?c; ?d] _] =>
      destruct (skip4 a b c d) as (I0 & I1 & I2 & I3)
  end.
  rewrite I0, I1, I2, I3 in Fd. clear I0 I1 I2 I3.
  rewrite !(bool_decide_eq_true_2 _ (eq_refl (@None string))) in Fd.
  set (h1 := H / 2) in *. set (h2 := h1 / 2) in *. set (h3 := h2 / 2) in *.
  set (h4 := h3 / 2) in *.
  set (w1 := W / 2) in *. set (w2 := w1 / 2) in *. set (w3 := w2 / 2) in *.
  set (w4 := w3 / 2) in *.
  apply bindF_inv in Fd as (d0 & [] & P & Fd).
  apply pool_floor_inv in P as (_ & _ & ->).
  set (h5 := h4 / 2) in *. set (w5 := w4 / 2) in *.
  dec_inv ext st training Fd Hk2 Hh5 Hw5 Ea Fa.
  dec_inv ext st training Fd Hk4 Hh6 Hw6 Eb Fb.
  dec_inv ext st training Fd Hk6 Hh7 Hw7 Ec Fc.
  dec_inv ext st training Fd Hk8 Hh8 Hw8 Ed Fd'.
  injection Fd as <-.
  cbn [Sequential_forward] in F.
  rewrite (bindF_step _ _ _ _ _
             (trans_shape ext st training 64 64 _ _ n (2 * (2 * (2 * (2 * h5))))
                (2 * (2 * (2 * (2 * w5)))) ltac:(lia) ltac:(lia))) in F.
  rewrite (bindF_step _ _ _ _ _
             (conv1_shape ext st training 64 N _ _ n (2 * (2 * (2 * (2 * (2 * h5)))))
                (2 * (2 * (2 * (2 * (2 * w5))))) ltac:(lia) ltac:(lia))) in F.
  exists h5, w5. split; [exact Hh5|]. split; [exact Hw5|].
  split; [lia|]. split; [lia|].
  injection F as <- _. f_equal; lia.
Qed.



(** ** Kernel sizes other than 3 *)

Lemma py_index_last {A} (l : list A) x :
  py_index l (-1 - Z.of_nat 0) = Ok x -> list.last l = Some x.
Proof.
  unfold py_index. change (-1 - Z.of_nat 0)%Z with (-1)%Z. cbn [Z.ltb Z.compare].
  destruct ((0 <=? -1 + Z.of_nat (length l))%Z && (-1 + Z.of_nat (length l) <? Z.of_nat (length l))%Z)
    eqn:E; [|discriminate].
  apply andb_prop in E as [E _]. apply Z.leb_le in E.
  replace (Z.to_nat (-1 + Z.of_nat (length l))) with (pred (length l)) by lia.
  rewrite <- last_lookup. destruct (list.last l); [|discriminate].
  intros H. injection H as <-. reflexivity.
Qed.

Section AnyKernel.

Variable ext : nat -> shape -> result shape.
Variable st : list param.
Variable training : bool.

Lemma DoubleConv2d_k_inv cin cout k bias norm s d s' n c h w y g :
  DoubleConv2d_init cin cout k bias norm s = Ok (d, s') ->
  DoubleConv2d_forward (B := shape_backend ext) st training d (Shape n c h w) tt
  = Ok (y, g) ->
  exists h' w', y = Shape n cout h' w' /\ h' + 2 * k = h + 6 /\ w' + 2 * k = w + 6.
Proof.
  unfold DoubleConv2d_init. intros H. monad_inv H.
  repeat match goal with
         | H : new_Conv2d _ _ _ _ _ _ _ = Ok _ |- _ => unfold new_Conv2d in H; monad_inv H
         | H : new_norm _ _ _ = Ok _ |- _ => apply new_norm_for in H
         end.
  unfold DoubleConv2d_forward. cbn [dc_layer Sequential_forward]. intros F.
  apply bindF_inv in F as (x1 & [] & F1 & F).
  rewrite convk_shape in F1.
  destruct ((c =? cin) && (0 <? k) && (k <=? h + 2) && (k <=? w + 2)) eqn:E1;
    [|discriminate].
  injection F1 as <-.
  apply andb_prop in E1 as [E1 Hw]. apply andb_prop in E1 as [E1 Hh].
  apply andb_prop in E1 as [_ Hk].
  apply Nat.ltb_lt in Hk. apply Nat.leb_le in Hh, Hw.
  apply bindF_inv in F as (x2 & [] & F2 & F).
  match goal with Hn : norm_for _ ?l, F' : @apply _ _ _ _ ?l _ _ = Ok _ |- _ =>
    apply (norm_ok_inv _ _ _ _ _ _ _ _ Hn) in F'; subst x2 end.
  apply bindF_inv in F as (x3 & [] & F3 & F). injection F3 as <-.
  apply bindF_inv in F as (x4 & [] & F4 & F).
  rewrite convk_shape in F4.
  destruct ((cout =? cout) && (0 <? k) && (k <=? h + 3 - k + 2) && (k <=? w + 3 - k + 2))
    eqn:E2; [|discriminate].
  injection F4 as <-.
  apply andb_prop in E2 as [E2 Hw2]. apply andb_prop in E2 as [_ Hh2].
  apply Nat.leb_le in Hh2, Hw2.
  apply bindF_inv in F as (x5 & [] & F5 & F).
  match goal with Hn : norm_for _ ?l, F' : @apply _ _ _ _ ?l _ _ = Ok _ |- _ =>
    apply (norm_ok_inv _ _ _ _ _ _ _ _ Hn) in F'; subst x5 end.
  apply bindF_inv in F as (x6 & [] & F6 & F). injection F6 as <-.
  injection F as <- _.
  eexists _, _. split; [reflexivity|]. lia.
Qed.

Lemma DecoderBlock_cat_inv cin cout k bias norm dropout ui uo s b s'
    n1 c1 h1 w1 n2 c2 h2 w2 r :
  DecoderBlock_init cin cout k bias norm dropout ui uo s = Ok (b, s') ->
  DecoderBlock_forward (B := shape_backend ext) st training b
    (Shape n1 c1 h1 w1) (Shape n2 c2 h2 w2) tt = Ok r ->
  h2 = 2 * h1 /\ w2 = 2 * w1.
Proof.
  unfold DecoderBlock_init. intros H. monad_inv H.
  unfold new_ConvTranspose2d in Hm. monad_inv Hm.
  unfold DecoderBlock_forward. cbn [db_trans db_conv db_drop]. intros F.
  apply bindF_inv in F as (x & [] & F1 & F).
  cbn [apply liftF layer shape_backend shape_layer] in F1.
  destruct ((c1 =? default cin ui) && (0 <? h1) && (0 <? w1)) eqn:E1; [|discriminate].
  injection F1 as <-.
  apply andb_prop in E1 as [E1 Hw]. apply andb_prop in E1 as [_ Hh].
  apply Nat.ltb_lt in Hh, Hw.
  apply bindF_inv in F as (y & [] & F2 & _).
  cbn [cat shape_backend shape_cat] in F2.
  destruct ((n2 =? n1) && (h2 =? (h1 - 1) * 2 + 2) && (w2 =? (w1 - 1) * 2 + 2)) eqn:E2;
    [|discriminate].
  apply andb_prop in E2 as [E2 Ew]. apply andb_prop in E2 as [_ Eh].
  apply Nat.eqb_eq in Eh, Ew. lia.
Qed.

(** The center block, the pooling and the first decoder block fit only for
    kernel size 3, when the skip feature has the resolution of the deepest
    feature. *)
Lemma center_fits_kernel3 cin cout k bias norm dropout ui uo sc center sc' a b sd d0 sd'
    n c p q y d n2 c2 q2 r :
  DoubleConv2d_init cin cout k bias norm sc = Ok (center, sc') ->
  DecoderBlock_init a b k bias norm dropout ui uo sd = Ok (d0, sd') ->
  DoubleConv2d_forward (B := shape_backend ext) st training center (Shape n c p q) tt
  = Ok (y, tt) ->
  apply (B := shape_backend ext) st training (MaxPool2d 2 2) y tt = Ok (d, tt) ->
  DecoderBlock_forward (B := shape_backend ext) st training d0 d (Shape n2 c2 p q2) tt
  = Ok r ->
  k = 3.
Proof.
  intros Hc Hd Fc Fp Fd.
  destruct (DoubleConv2d_k_inv _ _ _ _ _ _ _ _ _ _ _ _ _ _ Hc Fc) as (h' & w' & -> & Eh & _).
  apply pool_floor_inv in Fp as (_ & _ & ->).
  destruct (DecoderBlock_cat_inv _ _ _ _ _ _ _ _ _ _ _ _ _ _ _ _ _ _ _ _ Hd Fd) as [E _].
  pose proof (Nat.div_mod_eq h' 2). pose proof (Nat.mod_upper_bound h' 2). lia.
Qed.

Lemma backbone_loop_last children p (x_out : list shape) e_out g xo eo g' :
  backbone_loop (B := shape_backend ext) st training children p x_out e_out g
  = Ok ((xo, eo), g') ->
  e_out = None \/ list.last x_out = e_out ->
  eo = None \/ list.last xo = eo.
Proof.
  revert p x_out e_out g.
  induction children as [|[nm m] rest IH]; intros p x_out e_out g H Hinv.
  - injection H as <- <- _. exact Hinv.
  - cbn [backbone_loop] in H. destruct (name_in nm backbone_layers).
    + apply bindF_inv in H as (q & g1 & _ & H).
      eapply IH; [exact H|]. right. apply last_snoc.
    + eapply IH; eassumption.
Qed.

End AnyKernel.

Lemma liftF_inv {G A} (r : result A) (g : G) a g' : liftF r g = Ok (a, g') -> r = Ok a.
Proof. unfold liftF. destruct r; [|discriminate]. intros H. injection H as <- _. reflexivity. Qed.

(** X20.  Kernel sizes other than 3 leave no input the model accepts: for a
    U-Net constructed with kernel_size k <> 3, in plain or in backbone mode
    (whatever the backbone computes), the forward pass returns on no input.
    The center block changes the resolution by 6 - 2k, and the first decoder
    block needs the upsampled, pooled center output to have the resolution of
    the deepest skip feature it is concatenated with. *)
Theorem kernel_size_3_only provider ext C N backbone pretrained freeze_grad k bias norm
    dropout init_weights s0 u s st training (x : shape) :
  UNet_init provider C N backbone pretrained freeze_grad k bias norm dropout
            init_weights s0 = Ok (u, s) ->
  k <> 3 ->
  is_ok (run (UNet_forward (B := shape_backend ext) st training u x) tt) = false.
Proof.
  intros Hi Hk.
  destruct (run _ _) as [r|e] eqn:Hrun; [exfalso|reflexivity]. apply Hk. clear Hk.
  unfold run in Hrun.
  match type of Hrun with match ?m with _ => _ end = _ =>
    destruct m as [[r' g]|e] eqn:F; [|discriminate Hrun] end.
  clear Hrun r.
  apply UNet_init_inv in Hi as (s1 & Hb & _).
  unfold UNet_build in Hb. monad_inv Hb.
  unfold UNet_forward in F. cbn [unet_encoder unet_center unet_decoder unet_out] in F.
  apply bindF_inv in F as ([x_out e_out] & [] & Fenc & F). cbn [fst snd] in F.
  apply bindF_inv in F as (c & [] & Fc & F).
  apply bindF_inv in F as (d & [] & Fd & _).
  unfold DecoderBlocks_forward in Fd.
  apply bindF_inv in Fd as (dp & [] & Fp & Fd).
  match goal with H : DecoderBlocks_init _ _ _ _ _ _ _ = Ok _ |- _ =>
    unfold DecoderBlocks_init in H; rename H into Hdec end.
  destruct e_out as [n ce p q].
  destruct backbone as [name|].
  - match goal with H : EncoderBlocks_init _ _ _ _ _ _ _ _ _ _ _ = _ |- _ =>
      cbn [EncoderBlocks_init] in H; monad_inv H end.
    cbn [enc_filters] in *.
    match goal with H : backbones provider name = Ok ?mf |- _ =>
      destruct mf as [ctor fs]; cbn [fst snd] in *;
      destruct (backbones_inv _ _ _ _ H) as [[_ ->]|[_ ->]] end.
    all: cbn [length Nat.sub seq mapM] in Hdec; monad_inv Hdec.
    all: cbn [dec_backbone dec_pool dec_decoder app decoder_loop] in Fd, Fp.
    all: apply bindF_inv in Fd as (sk & [] & Fi & Fd).
    all: apply liftF_inv, py_index_last in Fi.
    all: rewrite (bool_decide_eq_false_2 (Some name = None)) in Fd by discriminate.
    all: rewrite retF_bind in Fd.
    all: apply bindF_inv in Fd as (d1 & [] & Fd & _).
    all: unfold EncoderBlocks_forward in Fenc.
    all: apply bindF_inv in Fenc as (stem & [] & _ & Fenc).
    all: apply bindF_inv in Fenc as (pl & [] & _ & Fenc).
    all: apply bindF_inv in Fenc as ([xo eo] & [] & Fl & Fenc).
    all: apply (backbone_loop_last ext) in Fl; [|left; reflexivity].
    all: unfold return_pair in Fenc; cbn [fst snd] in Fenc.
    all: destruct eo as [eo|]; [|discriminate Fenc].
    all: injection Fenc as -> ->.
    all: destruct Fl as [Fl|Fl]; [discriminate Fl|].
    all: rewrite Fl in Fi; injection Fi as <-.
    all: match goal with
         | Hc : DoubleConv2d_init _ _ _ _ _ _ = Ok _,
           Hd : DecoderBlock_init _ _ _ _ _ _ None None _ = Ok (?d0, _),
           Fd : DecoderBlock_forward _ _ ?d0 _ _ _ = Ok _ |- _ =>
             eapply (center_fits_kernel3 ext st training);
               [exact Hc | exact Hd | exact Fc | exact Fp | exact Fd]
         end.
  - match goal with H : EncoderBlocks_init _ _ _ _ _ _ _ _ _ _ _ = _ |- _ =>
      unfold EncoderBlocks_init in H;
      change (py_init UNet_filters) with [64; 128; 256; 512] in H;
      cbn [encoder_loop] in H; monad_inv H end.
    cbn [enc_filters] in *.
    change (length UNet_filters - 1) with 4 in Hdec. cbn [seq mapM] in Hdec.
    monad_inv Hdec.
    cbn [dec_backbone dec_pool dec_decoder app decoder_loop] in Fd, Fp.
    apply (plain_forward_spec (B := shape_backend ext)) in Fenc
      as (x1 & p1 & [] & x2 & p2 & [] & x3 & p3 & [] & x4 & _ & _ & _ & Eb4 & ->).
    match goal with H : EncoderBlock_init 256 512 _ _ _ _ _ = Ok _ |- _ =>
      unfold EncoderBlock_init in H; monad_inv H end.
    unfold EncoderBlock_forward in Eb4. cbn [eb_conv eb_pool eb_drop] in Eb4.
    apply bindF_inv in Eb4 as (y4 & [] & _ & Eb4).
    apply bindF_inv in Eb4 as (q4 & [] & Hpool & Eb4).
    cbn [apply] in Eb4.
    rewrite (bindF_step _ _ _ _ _ (dropout_shape ext training _ _ tt)) in Eb4.
    injection Eb4 as -> ->.
    match type of Fd with
    | context [py_index [?a; ?b; ?c; ?d] _] =>
        destruct (skip4 a b c d) as (I0 & _)
    end.
    rewrite I0 in Fd. clear I0.
    rewrite (bool_decide_eq_true_2 _ (eq_refl (@None string))) in Fd.
    rewrite liftF_bind in Fd. rewrite (bindF_step _ _ _ _ _ Hpool) in Fd.
    apply bindF_inv in Fd as (d1 & [] & Fd & _).
    match goal with
    | Hc : DoubleConv2d_init _ _ _ _ _ _ = Ok _,
      Hd : DecoderBlock_init _ _ _ _ _ _ None None _ = Ok (?d0, _),
      Fd : DecoderBlock_forward _ _ ?d0 _ _ _ = Ok _ |- _ =>
        eapply (center_fits_kernel3 ext st training);
          [exact Hc | exact Hd | exact Fc | exact Fp | exact Fd]
    end.
Qed.

Lemma kernel_size_3_only_witness :
  exists u s,
    UNet_init empty_provider 3 2 None false false 5 false None 0%Qc true [] = Ok (u, s)
    /\ is_ok (run (UNet_forward (B := shape_backend no_ext) s true u (Shape 1 3 256 256)) tt)
       = false.
Proof.
  eexists _, _. split.
  - vm_compute. reflexivity.
  - eapply (kernel_size_3_only empty_provider no_ext 3 2 None false false 5 false None
              0%Qc true []); [vm_compute; reflexivity | lia].
Defined.

(** ** When the constructor returns, in backbone mode *)

Lemma bindM_step {A C} (m : M A) (k : A -> M C) s a s' :
  m s = Ok (a, s') -> bindM m k s = k a s'.
Proof. unfold bindM. intros ->. reflexivity. Qed.

Lemma getattr_total cs name :
  In name (map fst cs) -> exists l, getattr cs name = Ok l.
Proof.
  intros H. unfold getattr.
  destruct (list_find (fun c => String.eqb (fst c) name = true) cs) as [[i c]|] eqn:E.
  - eexists. reflexivity.
  - exfalso. apply list_find_None in E.
    apply in_map_iff in H as (c & <- & Hc).
    rewrite list.Forall_forall in E. apply list_elem_of_In in Hc.
    apply (E c Hc). apply String.eqb_refl.
Qed.

Lemma EncoderBlocks_init_backbone_total provider C fs0 name ctor fs pretrained freeze_grad
    k bias norm dropout s0 :
  backbones provider name = Ok (ctor, fs) ->
  (forall attr, In attr ["conv1"; "bn1"; "relu"; "pool"] ->
                In attr (map ec_name (ctor C pretrained))) ->
  exists enc inputs pool s1,
    EncoderBlocks_init provider C fs0 (Some name) pretrained freeze_grad k bias norm
                       dropout s0
    = Ok (EncoderBackbone fs name enc inputs pool, s1).
Proof.
  intros Hb Hattr. cbn [EncoderBlocks_init].
  destruct (instantiate_total (ctor C pretrained) s0) as (enc & Hi & Hn).
  assert (Hfr : exists s1,
             (if freeze_grad
              then forM_ (backbone_parameters enc) (fun p => set_requires_grad p false)
              else retM tt) (s0 ++ flat_map ec_params (ctor C pretrained)) = Ok (tt, s1)).
  { destruct freeze_grad; [apply freeze_total|eexists; reflexivity]. }
  destruct Hfr as (s1 & Hfr).
  destruct (getattr_total enc "conv1") as (l1 & H1);
    [rewrite Hn; apply Hattr; cbn; tauto|].
  destruct (getattr_total enc "bn1") as (l2 & H2);
    [rewrite Hn; apply Hattr; cbn; tauto|].
  destruct (getattr_total enc "relu") as (l3 & H3);
    [rewrite Hn; apply Hattr; cbn; tauto|].
  destruct (getattr_total enc "pool") as (l4 & H4);
    [rewrite Hn; apply Hattr; cbn; tauto|].
  exists enc, [l1; l2; l3], l4, s1.
  unfold bindM at 1. rewrite Hb. cbn [liftM fst snd].
  unfold bindM at 1. rewrite Hi.
  unfold bindM at 1. rewrite Hfr.
  unfold bindM at 1. rewrite H1. cbn [liftM].
  unfold bindM at 1. rewrite H2. cbn [liftM].
  unfold bindM at 1. rewrite H3. cbn [liftM].
  unfold bindM at 1. rewrite H4. cbn [liftM].
  reflexivity.
Qed.

(** X21.  For positive sizes and a dropout probability in [0, 1], and a
    registry constructor that itself returns, the constructor of a U-Net in
    backbone mode returns exactly when the name is a key of the registry, the
    backbone has the attributes conv1, bn1, relu and pool, and the
    normalisation fits as in plain mode: batch normalisation, instance
    normalisation unless non-affine with init_weights true, or group
    normalisation with a positive group count dividing 64. *)
Theorem backbone_construction_ok provider C N name pretrained freeze_grad k bias norm
    dropout init_weights s0 :
  1 <= C -> 1 <= N -> 1 <= k -> (0 <= dropout)%Qc -> (dropout <= 1)%Qc ->
  is_ok (UNet_init provider C N (Some name) pretrained freeze_grad k bias norm dropout
                   init_weights s0) = true
  <-> (exists ctor fs,
         backbones provider name = Ok (ctor, fs)
         /\ forall attr, In attr ["conv1"; "bn1"; "relu"; "pool"] ->
                         In attr (map ec_name (ctor C pretrained)))
      /\ match norm with
         | None | Some nn_BatchNorm2d => True
         | Some (nn_InstanceNorm2d affine) => affine = true \/ init_weights = false
         | Some (nn_GroupNorm g) => 0 < g /\ 64 mod g = 0
         end.
Proof.
  intros _ _ _ _ _. split.
  - intros H.
    destruct (UNet_init _ _ _ _ _ _ _ _ _ _ _ _) as [[u s]|e] eqn:E; [|discriminate H].
    clear H. apply UNet_init_inv in E as (s1 & Hb & Hi).
    destruct (UNet_build_backbone _ _ _ _ _ _ _ _ _ _ _ _ _ Hb) as (ctor & fs & Hreg).
    split.
    + exists ctor, fs. split; [exact Hreg|].
      unfold UNet_build in Hb. monad_inv Hb.
      match goal with H : EncoderBlocks_init _ _ _ _ _ _ _ _ _ _ _ = _ |- _ =>
        cbn [EncoderBlocks_init] in H; monad_inv H end.
      match goal with H : backbones provider name = Ok ?a |- _ =>
        rewrite Hreg in H; injection H as <- end.
      cbn [fst snd] in *.
      match goal with H : instantiate _ _ = Ok _ |- _ =>
        apply instantiate_names in H; rename H into Hn end.
      intros attr Ha. rewrite <- Hn. cbn [In] in Ha.
      destruct Ha as [<-|[<-|[<-|[<-|[]]]]]; eapply getattr_Ok; eassumption.
    + destruct norm as [[|affine|g]|]; [exact I| | |exact I].
      * destruct affine; [left; reflexivity|]. destruct init_weights; [|right; reflexivity].
        exfalso. exact (nonaffine_init_pass _ _ _ _ _ _ _ _ _ _ _ _ _ _ Hb Hi).
      * unfold UNet_build in Hb. monad_inv Hb.
        match goal with H : EncoderBlocks_init _ _ _ _ _ _ _ _ _ _ _ = Ok (?e, _) |- _ =>
          assert (Hfs : enc_filters e = fs);
            [cbn [EncoderBlocks_init] in H; monad_inv H;
             match goal with H' : backbones provider name = Ok ?a |- _ =>
               rewrite Hreg in H'; injection H' as <- end; reflexivity|] end.
        rewrite Hfs in *.
        match goal with H : DecoderBlocks_init _ _ _ _ _ _ _ = Ok _ |- _ =>
          unfold DecoderBlocks_init in H; rename H into Hdec end.
        destruct (backbones_inv _ _ _ _ Hreg) as [[_ ->]|[_ ->]].
        all: cbn [length Nat.sub seq mapM] in Hdec; monad_inv Hdec; index_inv.
        all: match goal with H : DecoderBlock_init _ 64 _ _ _ _ None None _ = Ok _ |- _ =>
               unfold DecoderBlock_init, DoubleConv2d_init in H; monad_inv H end.
        all: match goal with H : new_norm _ 64 _ = Ok _ |- _ =>
               change (norm_layer (Some (nn_GroupNorm g))) with (nn_GroupNorm g) in H;
               cbn [new_norm] in H;
               destruct ((0 <? g) && (64 mod g =? 0)) eqn:Eg; [|discriminate H] end.
        all: apply andb_prop in Eg as [Eg1 Eg2].
        all: apply Nat.ltb_lt in Eg1; apply Nat.eqb_eq in Eg2; split; assumption.
  - intros [(ctor & fs & Hreg & Hattr) Hnorm].
    destruct (EncoderBlocks_init_backbone_total provider C UNet_filters name ctor fs
                pretrained freeze_grad k bias norm dropout s0 Hreg Hattr)
      as (enc & inputs & pool & s1 & He).
    unfold UNet_init. unfold bindM at 1. unfold UNet_build.
    rewrite (bindM_step _ _ _ _ _ He).
    assert (Hfs : fs = [64; 128; 256; 512; 1024] \/ fs = [64; 256; 512; 1024; 2048]).
    { destruct (backbones_inv _ _ _ _ Hreg) as [[_ ->]|[_ ->]]; [left|right]; reflexivity. }
    destruct norm as [[|affine|g]|].
    + destruct Hfs as [-> | ->]; destruct bias, init_weights; vm_compute; reflexivity.
    + destruct Hnorm as [->| ->].
      * destruct Hfs as [-> | ->]; destruct bias, init_weights; vm_compute; reflexivity.
      * destruct Hfs as [-> | ->]; destruct bias, affine; vm_compute; reflexivity.
    + destruct Hnorm as [Hg Hd]. apply divisors_64 in Hd; [|exact Hg].
      cbn [In] in Hd.
      repeat (destruct Hd as [<-|Hd];
              [destruct Hfs as [-> | ->]; destruct bias, init_weights;
               vm_compute; reflexivity|]).
      contradiction.
    + destruct Hfs as [-> | ->]; destruct bias, init_weights; vm_compute; reflexivity.
Qed.

Lemma backbone_construction_ok_witness :
  is_ok (UNet_init toy_provider 3 2 (Some "resnet34") true true 3 false None 0%Qc true [])
  = true
  <-> (exists ctor fs,
         backbones toy_provider "resnet34" = Ok (ctor, fs)
         /\ forall attr, In attr ["conv1"; "bn1"; "relu"; "pool"] ->
                         In attr (map ec_name (ctor 3 true)))
      /\ True.
Proof.
  apply (backbone_construction_ok toy_provider 3 2 "resnet34" true true 3 false None 0%Qc
           true []); try lia; discriminate.
Defined.
